(** * Camit: stream ingestion, detection orchestration and alert pipeline

    A shallow embedding of the backend services of the Camit CCTV monitor
    ([backend/app/services/*.py], [backend/app/api/routes/websocket.py])
    and the properties of its design document checked against it.

    Conventions of the embedding.
    - A [datetime] is the number of microseconds since the epoch, a [Z];
      a [timedelta] is a difference of two of them.  [total_seconds() >= n]
      for an integer setting [n] is [n * 10^6 <= delta].
    - Every call of [datetime.utcnow()] reads the wall clock once: the
      world carries the sequence of readings [clock] and the number [tick]
      of readings consumed so far.
    - Python dictionaries are [gmap]s, Python lists are [list]s.
    - A [float] confidence is a rational [Q]; only comparisons and
      constants of the source are used on it.
    - Python exceptions are the [Raise] outcome of the monad [M]; state
      changes made before an exception is raised are kept, as in Python.
    - Calls into OpenCV, MediaPipe, YOLO, SMTP and the SQL session are
      oracles: the models are the functions of a [Models] record, and a
      [Faults] record says which external step fails during one call. *)

From Stdlib Require Import ZArith QArith Qminmax Lia.
From stdpp Require Import base option list gmap strings fin_maps.

Local Open Scope Z_scope.

(** ** Configuration ([core/config.py]) *)

Module Config.

Record Settings := mkSettings {
  FALL_CONFIDENCE_THRESHOLD : Q;
  LYING_CONFIDENCE_THRESHOLD : Q;
  LYING_TIME_THRESHOLD : Z;
  PUSHING_CONFIDENCE_THRESHOLD : Q;
  CROWD_THRESHOLD : Z;
  ALERT_COOLDOWN_SECONDS : Z;
  VIDEO_CLIP_DURATION : Z;
  PROCESS_EVERY_N_FRAMES : Z
}.

(** The defaults of [class Settings]. *)
Definition default_settings : Settings :=
  {| FALL_CONFIDENCE_THRESHOLD := 75 # 100;
     LYING_CONFIDENCE_THRESHOLD := 80 # 100;
     LYING_TIME_THRESHOLD := 5;
     PUSHING_CONFIDENCE_THRESHOLD := 65 # 100;
     CROWD_THRESHOLD := 10;
     ALERT_COOLDOWN_SECONDS := 60;
     VIDEO_CLIP_DURATION := 15;
     PROCESS_EVERY_N_FRAMES := 3 |}.

End Config.

Import Config.

(** ** Data *)

(** [AlertType] of [database/models.py], with its string [value]. *)
Inductive AlertType := FALL | LYING | PUSHING | CROWD | NORMAL.

Definition alert_value (t : AlertType) : string :=
  match t with
  | FALL => "fall" | LYING => "lying" | PUSHING => "pushing"
  | CROWD => "crowd" | NORMAL => "normal"
  end.

(** An image ([np.ndarray]).  It is opaque to the orchestration code,
    which only forwards it to the models and reads its shape. *)
Record Frame := mkFrame {
  pixels : Z;                  (* identifies the image content *)
  height : Z;                  (* frame.shape[0] *)
  width : Z                    (* frame.shape[1] *)
}.

(** The dictionary a capture worker puts on its queue. *)
Record FrameData := mkFrameData {
  fd_camera_id : Z;
  fd_frame : Frame;
  fd_timestamp : Z;
  fd_frame_number : Z
}.

(** An entry of [VideoClipGenerator.frame_buffers]. *)
Record BufferedFrame := mkBuffered {
  bf_frame : Frame;
  bf_timestamp : Z
}.

Inductive Path :=
| ImagePath (camera_id : Z) (t : AlertType) (timestamp : Z)
| VideoPath (camera_id : Z) (t : AlertType) (timestamp : Z).

(** Rows of the tables [cameras] and [alerts]. *)
Record CameraRow := mkCamera {
  cam_name : string;
  cam_location : option string;
  cam_crowd_threshold : Z
}.

Record AlertRow := mkAlert {
  al_id : Z;
  al_camera_id : Z;
  al_alert_type : AlertType;
  al_confidence : Q;
  al_image_path : option Path;
  al_video_path : option Path;
  al_has_metadata : bool;
  al_email_sent : bool
}.

Record Email := mkEmail {
  em_alert_type : string;
  em_camera_name : string;
  em_camera_location : string;
  em_timestamp : Z;
  em_image : option Path;
  em_video : option Path
}.

Inductive exn :=
| DbError | StorageError | ValidationError | ZeroDivisionError
| QueueEmpty | QueueFull | CvError | SmtpError.

Inductive LogEntry :=
| LogSuppressed (camera_id : Z) (t : AlertType)
| LogCameraNotFound (camera_id : Z)
| LogSavedImage (p : Path)
| LogNoFrames (camera_id : Z)
| LogClipGenerated (p : Path)
| LogClipError (e : exn)
| LogAlertCreated (alert_id : Z)
| LogEmailSkipped
| LogEmailSent
| LogEmailFailed
| LogErrorCreatingAlert (e : exn)
| LogErrorProcessingFrame (camera_id : Z) (e : exn)
| LogErrorProcessingCamera (camera_id : Z) (e : exn).

(** ** The state of the server process *)

Record World := mkWorld {
  clock : nat -> Z;                         (* n-th reading of utcnow() *)
  tick : nat;                               (* readings consumed *)
  last_alerts : gmap (Z * string) Z;        (* AlertDeduplicator *)
  frame_buffers : gmap Z (list BufferedFrame);  (* VideoClipGenerator *)
  smtp_configured : bool;                   (* EmailService *)
  lying_tracker : gmap Z Z;                 (* DetectionService *)
  prev_frame : option Frame;                (* PushingDetector *)
  frame_counter : gmap Z Z;                 (* VideoProcessor *)
  frame_queues : gmap Z (list FrameData);   (* CameraManager *)
  db_cameras : gmap Z CameraRow;            (* table cameras *)
  db_alerts : list AlertRow;                (* table alerts, committed *)
  db_pending : list AlertRow;               (* session, not yet committed *)
  outbox : list Email;                      (* messages handed to SMTP *)
  files : list Path;                        (* files written to storage *)
  log : list LogEntry
}.

Definition set_tick (n : nat) (w : World) : World :=
  mkWorld (clock w) n (last_alerts w) (frame_buffers w) (smtp_configured w)
    (lying_tracker w) (prev_frame w) (frame_counter w) (frame_queues w)
    (db_cameras w) (db_alerts w) (db_pending w) (outbox w) (files w) (log w).

Definition set_last_alerts (m : gmap (Z * string) Z) (w : World) : World :=
  mkWorld (clock w) (tick w) m (frame_buffers w) (smtp_configured w)
    (lying_tracker w) (prev_frame w) (frame_counter w) (frame_queues w)
    (db_cameras w) (db_alerts w) (db_pending w) (outbox w) (files w) (log w).

Definition set_frame_buffers (m : gmap Z (list BufferedFrame)) (w : World) : World :=
  mkWorld (clock w) (tick w) (last_alerts w) m (smtp_configured w)
    (lying_tracker w) (prev_frame w) (frame_counter w) (frame_queues w)
    (db_cameras w) (db_alerts w) (db_pending w) (outbox w) (files w) (log w).

Definition set_lying_tracker (m : gmap Z Z) (w : World) : World :=
  mkWorld (clock w) (tick w) (last_alerts w) (frame_buffers w) (smtp_configured w)
    m (prev_frame w) (frame_counter w) (frame_queues w)
    (db_cameras w) (db_alerts w) (db_pending w) (outbox w) (files w) (log w).

Definition set_prev_frame (p : option Frame) (w : World) : World :=
  mkWorld (clock w) (tick w) (last_alerts w) (frame_buffers w) (smtp_configured w)
    (lying_tracker w) p (frame_counter w) (frame_queues w)
    (db_cameras w) (db_alerts w) (db_pending w) (outbox w) (files w) (log w).

Definition set_frame_counter (m : gmap Z Z) (w : World) : World :=
  mkWorld (clock w) (tick w) (last_alerts w) (frame_buffers w) (smtp_configured w)
    (lying_tracker w) (prev_frame w) m (frame_queues w)
    (db_cameras w) (db_alerts w) (db_pending w) (outbox w) (files w) (log w).

Definition set_frame_queues (m : gmap Z (list FrameData)) (w : World) : World :=
  mkWorld (clock w) (tick w) (last_alerts w) (frame_buffers w) (smtp_configured w)
    (lying_tracker w) (prev_frame w) (frame_counter w) m
    (db_cameras w) (db_alerts w) (db_pending w) (outbox w) (files w) (log w).

Definition set_db_alerts (l : list AlertRow) (w : World) : World :=
  mkWorld (clock w) (tick w) (last_alerts w) (frame_buffers w) (smtp_configured w)
    (lying_tracker w) (prev_frame w) (frame_counter w) (frame_queues w)
    (db_cameras w) l (db_pending w) (outbox w) (files w) (log w).

Definition set_db_pending (l : list AlertRow) (w : World) : World :=
  mkWorld (clock w) (tick w) (last_alerts w) (frame_buffers w) (smtp_configured w)
    (lying_tracker w) (prev_frame w) (frame_counter w) (frame_queues w)
    (db_cameras w) (db_alerts w) l (outbox w) (files w) (log w).

Definition set_outbox (l : list Email) (w : World) : World :=
  mkWorld (clock w) (tick w) (last_alerts w) (frame_buffers w) (smtp_configured w)
    (lying_tracker w) (prev_frame w) (frame_counter w) (frame_queues w)
    (db_cameras w) (db_alerts w) (db_pending w) l (files w) (log w).

Definition set_files (l : list Path) (w : World) : World :=
  mkWorld (clock w) (tick w) (last_alerts w) (frame_buffers w) (smtp_configured w)
    (lying_tracker w) (prev_frame w) (frame_counter w) (frame_queues w)
    (db_cameras w) (db_alerts w) (db_pending w) (outbox w) l (log w).

Definition set_log (l : list LogEntry) (w : World) : World :=
  mkWorld (clock w) (tick w) (last_alerts w) (frame_buffers w) (smtp_configured w)
    (lying_tracker w) (prev_frame w) (frame_counter w) (frame_queues w)
    (db_cameras w) (db_alerts w) (db_pending w) (outbox w) (files w) l.

(** ** A state and exception monad for the Python code *)

Inductive outcome (A : Type) :=
| Ok (a : A)
| Raise (e : exn).
Arguments Ok {A} a.
Arguments Raise {A} e.

Definition M (A : Type) : Type := World -> outcome A * World.

Definition ret {A} (a : A) : M A := fun w => (Ok a, w).

Definition raise {A} (e : exn) : M A := fun w => (Raise e, w).

Definition bind {A B} (m : M A) (k : A -> M B) : M B :=
  fun w =>
    match m w with
    | (Ok a, w') => k a w'
    | (Raise e, w') => (Raise e, w')
    end.

(** [try: body  except Exception as e: handler e]. *)
Definition try_except {A} (body : M A) (handler : exn -> M A) : M A :=
  fun w =>
    match body w with
    | (Ok a, w') => (Ok a, w')
    | (Raise e, w') => handler e w'
    end.

Definition gets {A} (f : World -> A) : M A := fun w => (Ok (f w), w).

Definition modify (f : World -> World) : M unit := fun w => (Ok tt, f w).

Notation "'let*' x := m 'in' k" := (bind m (fun x => k))
  (at level 10, x name, m at level 100, k at level 200, only parsing).
Notation "m >> k" := (bind m (fun _ => k))
  (at level 100, k at level 200, right associativity, only parsing).

(** [datetime.utcnow()]. *)
Definition utcnow : M Z :=
  fun w => (Ok (clock w (tick w)), set_tick (S (tick w)) w).

(** [timedelta(seconds=s)] in microseconds. *)
Definition seconds (s : Z) : Z := s * 1000000.

Definition logger (e : LogEntry) : M unit :=
  modify (fun w => set_log (log w ++ [e]) w).

(** ** [AlertDeduplicator] ([services/alert_service.py]) *)

Definition should_send_alert (cfg : Settings) (camera_id : Z) (alert_type : string)
  : M bool :=
  let key := (camera_id, alert_type) in
  let* la := gets last_alerts in
  match la !! key with
  | None =>
      let* now := utcnow in
      modify (fun w => set_last_alerts (<[key := now]> (last_alerts w)) w) >>
      ret true
  | Some last =>
      let* now := utcnow in
      let time_since_last := now - last in
      if seconds (ALERT_COOLDOWN_SECONDS cfg) <=? time_since_last then
        let* now' := utcnow in
        modify (fun w => set_last_alerts (<[key := now']> (last_alerts w)) w) >>
        ret true
      else ret false
  end.

Definition cleanup_old_entries (cfg : Settings) : M unit :=
  let* now := utcnow in
  let cutoff_time := now - seconds (ALERT_COOLDOWN_SECONDS cfg * 2) in
  modify (fun w =>
    set_last_alerts
      (filter (fun kv : (Z * string) * Z => ¬ (kv.2 < cutoff_time)) (last_alerts w)) w).

(** ** Capture worker and [CameraManager] ([services/camera_manager.py]) *)

(** The [multiprocessing.Queue] between a capture worker and the server is
    a FIFO list: [put] appends at the back, [get] takes from the front.
    The model is sequential: one operation on the queue at a time. *)
Module FrameQueue.

Definition full (maxsize : nat) (q : list FrameData) : bool :=
  (maxsize <=? length q)%nat.

(** [Queue.get_nowait()]: [inl Empty] on an empty queue. *)
Definition get_nowait (q : list FrameData) : (exn + FrameData) * list FrameData :=
  match q with
  | [] => (inl QueueEmpty, [])
  | fd :: q' => (inr fd, q')
  end.

(** [Queue.put_nowait(item)]: [inl Full] on a full queue. *)
Definition put_nowait (maxsize : nat) (fd : FrameData) (q : list FrameData)
  : (exn + unit) * list FrameData :=
  if full maxsize q then (inl QueueFull, q) else (inr tt, q ++ [fd]).

End FrameQueue.

(** The state of one [CameraStreamProcess.run] loop. *)
Record Worker := mkWorker {
  wk_camera_id : Z;
  wk_queue : list FrameData;
  wk_frame_count : Z
}.

(** Lines 58-66 of [run]: make room when the queue is full, then put.
    Returns the entry taken out (if any), whether the put succeeded
    and the queue afterwards. *)
Definition enqueue (maxsize : nat) (fd : FrameData) (q : list FrameData)
  : option FrameData * bool * list FrameData :=
  let '(evicted, q1) :=
    if FrameQueue.full maxsize q then
      match FrameQueue.get_nowait q with
      | (inr old, q') => (Some old, q')
      | (inl _, q') => (None, q')            (* except: pass *)
      end
    else (None, q) in
  match FrameQueue.put_nowait maxsize fd q1 with
  | (inr _, q2) => (evicted, true, q2)
  | (inl _, q2) => (evicted, false, q2)      (* logged by the outer handler *)
  end.

(** One iteration of the [while] loop of [run]: [read] is the result of
    [cap.read()] ([None] when [ret] is false) and [now] the clock of the
    worker process. *)
Definition run_iter (maxsize : nat) (read : option Frame) (now : Z) (st : Worker)
  : Worker :=
  match read with
  | None => st                                (* reconnect(); continue *)
  | Some frame =>
      let frame_data :=
        mkFrameData (wk_camera_id st) frame now (wk_frame_count st) in
      match enqueue maxsize frame_data (wk_queue st) with
      | (_, true, q') => mkWorker (wk_camera_id st) q' (wk_frame_count st + 1)
      | (_, false, q') => mkWorker (wk_camera_id st) q' (wk_frame_count st)
      end
  end.

(** What can happen to a worker and its queue: the worker reads a frame
    (or fails to), or the server takes a frame from the queue. *)
Inductive QueueEvent :=
| Captured (read : option Frame) (now : Z)
| Consumed.

Definition queue_step (maxsize : nat) (st : Worker) (ev : QueueEvent) : Worker :=
  match ev with
  | Captured read now => run_iter maxsize read now st
  | Consumed =>
      mkWorker (wk_camera_id st) (FrameQueue.get_nowait (wk_queue st)).2
        (wk_frame_count st)
  end.

Definition queue_run (maxsize : nat) (evs : list QueueEvent) (st : Worker) : Worker :=
  fold_left (queue_step maxsize) evs st.

(** [CameraManager.get_frame]. *)
Definition get_frame (camera_id : Z) : M (option FrameData) :=
  let* qs := gets frame_queues in
  match qs !! camera_id with
  | None => ret None
  | Some _ =>
      try_except
        (fun w =>
           match frame_queues w !! camera_id with
           | None => (Raise QueueEmpty, w)
           | Some q =>
               match FrameQueue.get_nowait q with
               | (inr fd, q') =>
                   (Ok (Some fd),
                    set_frame_queues (<[camera_id := q']> (frame_queues w)) w)
               | (inl e, _) => (Raise e, w)
               end
           end)
        (fun _ => ret None)
  end.

(** ** [VideoClipGenerator] and [EmailService] ([services/alert_service.py]) *)

Definition max_buffer_size : nat := 300.

Definition add_frame (camera_id : Z) (frame : Frame) (timestamp : Z) : M unit :=
  modify (fun w =>
    let old := default [] (frame_buffers w !! camera_id) in
    let buf := old ++ [mkBuffered frame timestamp] in
    let buf' := if (max_buffer_size <? length buf)%nat then tail buf else buf in
    set_frame_buffers (<[camera_id := buf']> (frame_buffers w)) w).

(** The Python slice [l[-n:]]. *)
Definition slice_last {A} (n : Z) (l : list A) : list A :=
  if 0 <? n then drop (length l - Z.to_nat n) l
  else if n =? 0 then l
  else drop (Z.to_nat (- n)) l.

(** What fails outside the process during one call of [create_alert]. *)
Record Faults := mkFaults {
  query_raises : bool;       (* db.query(Camera)... raises *)
  storage_raises : bool;     (* storage path or cv2.imwrite raises *)
  writer_raises : bool;      (* cv2.VideoWriter raises while encoding *)
  commit_raises : bool;      (* db.commit() of the new alert raises *)
  refresh_raises : bool;     (* db.refresh raises *)
  smtp_raises : bool;        (* SMTP delivery raises *)
  commit2_raises : bool;     (* db.commit() of email_sent raises *)
  rollback_raises : bool     (* db.rollback() raises *)
}.

Definition no_faults : Faults :=
  mkFaults false false false false false false false false.

Definition generate_clip (flt : Faults) (camera_id : Z) (output_path : Path)
  (duration : Z) : M bool :=
  let* bufs := gets frame_buffers in
  match bufs !! camera_id with
  | None | Some [] => logger (LogNoFrames camera_id) >> ret false
  | Some frames =>
      try_except
        (let recent_frames := slice_last (duration * 30) frames in
         match recent_frames with
         | [] => ret false
         | _ =>
             if writer_raises flt then raise CvError
             else
               modify (fun w => set_files (files w ++ [output_path]) w) >>
               logger (LogClipGenerated output_path) >>
               ret true
         end)
        (fun e => logger (LogClipError e) >> ret false)
  end.

Definition send_alert_email (flt : Faults) (alert_type camera_name camera_location : string)
  (timestamp : Z) (image_path video_path : option Path) : M bool :=
  let* configured := gets smtp_configured in
  if negb configured then logger LogEmailSkipped >> ret false
  else
    try_except
      (if smtp_raises flt then raise SmtpError
       else
         modify (fun w =>
           set_outbox
             (outbox w ++
              [mkEmail alert_type camera_name camera_location timestamp
                 image_path video_path]) w) >>
         logger LogEmailSent >>
         ret true)
      (fun _ => logger LogEmailFailed >> ret false).

(** ** The SQL session *)

Definition db_query_camera (raises : bool) (camera_id : Z) : M (option CameraRow) :=
  if raises then raise DbError
  else let* cams := gets db_cameras in ret (cams !! camera_id).

Definition db_add (row : AlertRow) : M unit :=
  modify (fun w => set_db_pending (db_pending w ++ [row]) w).

Definition with_id (i : Z) (r : AlertRow) : AlertRow :=
  mkAlert i (al_camera_id r) (al_alert_type r) (al_confidence r)
    (al_image_path r) (al_video_path r) (al_has_metadata r) (al_email_sent r).

Definition with_email_sent (r : AlertRow) : AlertRow :=
  mkAlert (al_id r) (al_camera_id r) (al_alert_type r) (al_confidence r)
    (al_image_path r) (al_video_path r) (al_has_metadata r) true.

(** Pending rows get the next keys of the table in order. *)
Fixpoint flush (table pending : list AlertRow) : list AlertRow :=
  match pending with
  | [] => table
  | r :: rest => flush (table ++ [with_id (Z.of_nat (length table) + 1) r]) rest
  end.

Definition db_commit (raises : bool) : M unit :=
  if raises then raise DbError
  else modify (fun w => set_db_pending [] (set_db_alerts (flush (db_alerts w) (db_pending w)) w)).

(** [db.refresh(db_alert)] for the row just committed. *)
Definition db_refresh (raises : bool) : M AlertRow :=
  if raises then raise DbError
  else
    let* table := gets db_alerts in
    match last table with
    | Some r => ret r
    | None => raise DbError
    end.

(** [db_alert.email_sent = True; db.commit()]. *)
Definition db_commit_email_sent (raises : bool) (row : AlertRow) : M AlertRow :=
  if raises then raise DbError
  else
    modify (fun w =>
      set_db_alerts
        ((fun r => if al_id r =? al_id row then with_email_sent r else r)
           <$> db_alerts w) w) >>
    ret (with_email_sent row).

Definition db_rollback (raises : bool) : M unit :=
  if raises then raise DbError
  else modify (set_db_pending []).

(** ** Detectors and [DetectionService] ([services/detection_service.py]) *)

(** The numerical models, as functions of the image.  [detect_fall],
    [detect_lying] and [detect_persons] catch their own exceptions in the
    source and always return.  [mp_pose_raises] says whether the colour
    conversion and pose estimation at the head of [detect_pushing] raise;
    [optical_flow prev cur] is [(mean_motion, max_motion)] of the Farneback
    flow, or [None] when OpenCV raises (images of different sizes). *)
Record Models := mkModels {
  detect_fall : Frame -> bool * Q * list string;
  detect_lying : Frame -> bool * Q * list string;
  detect_persons : Frame -> Z * Q;
  mp_pose_raises : Frame -> bool;
  optical_flow : Frame -> Frame -> option (Q * Q)
}.

(** One entry of the dictionary returned by [process_frame]. *)
Record Report := mkReport {
  detected : bool;
  confidence : Q;
  metadata : list string;       (* keys of the metadata dictionary *)
  time_lying : option Z         (* metadata['time_lying'], microseconds *)
}.

Record Detections := mkDetections {
  d_camera_id : Z;
  d_timestamp : Z;
  d_fall : Report;
  d_lying : Report;
  d_pushing : Report;
  d_crowd : Report;
  d_person_count : Z
}.

Definition no_report : Report := mkReport false (0 # 1) [] None.

Definition set_fall (r : Report) (d : Detections) : Detections :=
  mkDetections (d_camera_id d) (d_timestamp d) r (d_lying d) (d_pushing d)
    (d_crowd d) (d_person_count d).

Definition set_lying (r : Report) (d : Detections) : Detections :=
  mkDetections (d_camera_id d) (d_timestamp d) (d_fall d) r (d_pushing d)
    (d_crowd d) (d_person_count d).

Definition set_pushing (r : Report) (d : Detections) : Detections :=
  mkDetections (d_camera_id d) (d_timestamp d) (d_fall d) (d_lying d) r
    (d_crowd d) (d_person_count d).

Definition set_crowd (r : Report) (n : Z) (d : Detections) : Detections :=
  mkDetections (d_camera_id d) (d_timestamp d) (d_fall d) (d_lying d)
    (d_pushing d) r n.

(** [ObjectDetector.detect_crowd]: the density divides by the frame area. *)
Definition detect_crowd (mdl : Models) (frame : Frame) (threshold : Z)
  : M (bool * Z * Q * list string) :=
  let '(person_count, avg_confidence) := detect_persons mdl frame in
  let is_crowd := threshold <=? person_count in
  let frame_area := height frame * width frame in
  if frame_area =? 0 then raise ZeroDivisionError
  else ret (is_crowd, person_count, avg_confidence,
            ["person_count"; "threshold"; "density"; "detections"]).

(** [PushingDetector.detect_pushing]: one detector, one [prev_frame]. *)
Definition detect_pushing (mdl : Models) (frame : Frame) : M (bool * Q * list string) :=
  try_except
    ((if mp_pose_raises mdl frame then raise CvError else ret tt) >>
     let* prev := gets prev_frame in
     match prev with
     | Some prev =>
         match optical_flow mdl prev frame with
         | None => raise CvError
         | Some (mean_motion, max_motion) =>
             let is_pushing :=
               negb (Qle_bool max_motion (15 # 1)) && negb (Qle_bool mean_motion (3 # 1)) in
             let confidence :=
               if is_pushing then Qmin (max_motion / (30 # 1)) (1 # 1) else (0 # 1) in
             modify (set_prev_frame (Some frame)) >>
             ret (is_pushing, confidence,
                  ["mean_motion"; "max_motion"; "detection_method"])
         end
     | None =>
         modify (set_prev_frame (Some frame)) >>
         ret (false, 0 # 1, [])
     end)
    (fun _ => ret (false, 0 # 1, [])).

(** The statements of the [try] block of [process_frame], each one
    updating the dictionary [detections] in place. *)
Definition fall_step (cfg : Settings) (mdl : Models) (frame : Frame)
  (d : Detections) : M Detections :=
  let '(is_fall, fall_conf, fall_meta) := detect_fall mdl frame in
  ret (set_fall
         (mkReport (is_fall && Qle_bool (FALL_CONFIDENCE_THRESHOLD cfg) fall_conf)
            fall_conf fall_meta None) d).

Definition lying_step (cfg : Settings) (mdl : Models) (camera_id : Z) (frame : Frame)
  (d : Detections) : M Detections :=
  let '(is_lying, lying_conf, lying_meta) := detect_lying mdl frame in
  if is_lying && Qle_bool (LYING_CONFIDENCE_THRESHOLD cfg) lying_conf then
    let* tracker := gets lying_tracker in
    let* start :=
      match tracker !! camera_id with
      | None =>
          let* now := utcnow in
          modify (fun w => set_lying_tracker (<[camera_id := now]> (lying_tracker w)) w) >>
          ret now
      | Some start => ret start
      end in
    let* now := utcnow in
    let time_lying := now - start in
    ret (set_lying
           (mkReport (seconds (LYING_TIME_THRESHOLD cfg) <=? time_lying)
              lying_conf (lying_meta ++ ["time_lying"]) (Some time_lying)) d)
  else
    modify (fun w => set_lying_tracker (delete camera_id (lying_tracker w)) w) >>
    ret (set_lying (mkReport false lying_conf lying_meta None) d).

Definition crowd_step (mdl : Models) (frame : Frame) (crowd_threshold : Z)
  (d : Detections) : M Detections :=
  let* r := detect_crowd mdl frame crowd_threshold in
  let '(is_crowd, person_count, crowd_conf, crowd_meta) := r in
  ret (set_crowd (mkReport is_crowd crowd_conf crowd_meta None) person_count d).

Definition pushing_step (cfg : Settings) (mdl : Models) (frame : Frame)
  (d : Detections) : M Detections :=
  let* r := detect_pushing mdl frame in
  let '(is_pushing, push_conf, push_meta) := r in
  ret (set_pushing
         (mkReport (is_pushing && Qle_bool (PUSHING_CONFIDENCE_THRESHOLD cfg) push_conf)
            push_conf push_meta None) d).

(** Runs the statements in order on the dictionary; at the first
    exception the rest is skipped and the dictionary is left as it is. *)
Fixpoint try_steps (steps : list (Detections -> M Detections)) (d : Detections)
  : World -> (Detections * option exn) * World :=
  fun w =>
    match steps with
    | [] => ((d, None), w)
    | step :: rest =>
        match step d w with
        | (Ok d', w') => try_steps rest d' w'
        | (Raise e, w') => ((d, Some e), w')
        end
    end.

Definition process_frame (cfg : Settings) (mdl : Models) (camera_id : Z)
  (frame : Frame) (crowd_threshold : Z) : M Detections :=
  let* timestamp := utcnow in
  let detections :=
    mkDetections camera_id timestamp no_report no_report no_report no_report 0 in
  fun w =>
    match try_steps
            [fall_step cfg mdl frame; lying_step cfg mdl camera_id frame;
             crowd_step mdl frame crowd_threshold; pushing_step cfg mdl frame]
            detections w with
    | ((d, None), w') => (Ok d, w')
    | ((d, Some e), w') =>
        (logger (LogErrorProcessingFrame camera_id e) >> ret d) w'
    end.

(** ** [AlertService] ([services/alert_service.py]) *)

Definition add_frame_to_buffer (camera_id : Z) (frame : Frame) (timestamp : Z) : M unit :=
  add_frame camera_id frame timestamp.

(** Saving the alert image; the storage directory is created on the way. *)
Definition imwrite (flt : Faults) (image_path : Path) : M unit :=
  if storage_raises flt then raise StorageError
  else modify (fun w => set_files (files w ++ [image_path]) w).

(** [AlertCreate(...)]: pydantic checks [0.0 <= confidence <= 1.0]. *)
Definition AlertCreate (camera_id : Z) (alert_type : AlertType) (confidence : Q)
  (image_path video_path : option Path) (meta : list string) : M AlertRow :=
  if Qle_bool (0 # 1) confidence && Qle_bool confidence (1 # 1) then
    ret (mkAlert 0 camera_id alert_type confidence image_path video_path
           (match meta with [] => false | _ => true end) false)
  else raise ValidationError.

Definition create_alert (cfg : Settings) (flt : Faults) (camera_id : Z)
  (alert_type : AlertType) (conf : Q) (frame : Frame) (meta : list string)
  : M (option AlertRow) :=
  let* send := should_send_alert cfg camera_id (alert_value alert_type) in
  if negb send then
    logger (LogSuppressed camera_id alert_type) >> ret None
  else
    try_except
      (let* camera := db_query_camera (query_raises flt) camera_id in
       match camera with
       | None => logger (LogCameraNotFound camera_id) >> ret None
       | Some camera =>
           let* timestamp := utcnow in
           let image_path := ImagePath camera_id alert_type timestamp in
           let video_path := VideoPath camera_id alert_type timestamp in
           imwrite flt image_path >>
           logger (LogSavedImage image_path) >>
           let* video_generated :=
             generate_clip flt camera_id video_path (VIDEO_CLIP_DURATION cfg) in
           let video_path := if video_generated then Some video_path else None in
           let* alert_data :=
             AlertCreate camera_id alert_type conf (Some image_path) video_path meta in
           db_add alert_data >>
           db_commit (commit_raises flt) >>
           let* db_alert := db_refresh (refresh_raises flt) in
           logger (LogAlertCreated (al_id db_alert)) >>
           let* email_sent :=
             send_alert_email flt (alert_value alert_type) (cam_name camera)
               (default "Unknown"%string (cam_location camera)) timestamp
               (Some image_path) video_path in
           let* db_alert :=
             if email_sent then db_commit_email_sent (commit2_raises flt) db_alert
             else ret db_alert in
           cleanup_old_entries cfg >>
           ret (Some db_alert)
       end)
      (fun e =>
         logger (LogErrorCreatingAlert e) >>
         db_rollback (rollback_raises flt) >>
         ret None).

(** ** [VideoProcessor] ([services/video_processor.py]) *)

(** External failures during one call of [_process_camera]: the camera
    lookup of the processor, and those of each [create_alert] it makes. *)
Record ProcFaults := mkProcFaults {
  lookup_raises : bool;
  alert_faults : AlertType -> Faults
}.

Definition _handle_detections (cfg : Settings) (pf : ProcFaults) (camera_id : Z)
  (frame : Frame) (d : Detections) : M unit :=
  (if detected (d_fall d) then
     create_alert cfg (alert_faults pf FALL) camera_id FALL
       (confidence (d_fall d)) frame (metadata (d_fall d)) >> ret tt
   else ret tt) >>
  (if detected (d_lying d) then
     create_alert cfg (alert_faults pf LYING) camera_id LYING
       (confidence (d_lying d)) frame (metadata (d_lying d)) >> ret tt
   else ret tt) >>
  (if detected (d_pushing d) then
     create_alert cfg (alert_faults pf PUSHING) camera_id PUSHING
       (confidence (d_pushing d)) frame (metadata (d_pushing d)) >> ret tt
   else ret tt) >>
  (if detected (d_crowd d) then
     create_alert cfg (alert_faults pf CROWD) camera_id CROWD
       (confidence (d_crowd d)) frame (metadata (d_crowd d)) >> ret tt
   else ret tt).

Definition _process_camera (cfg : Settings) (mdl : Models) (pf : ProcFaults)
  (camera_id : Z) : M unit :=
  try_except
    (let* frame_data := get_frame camera_id in
     match frame_data with
     | None => ret tt
     | Some fd =>
         let frame := fd_frame fd in
         let timestamp := fd_timestamp fd in
         let frame_number := fd_frame_number fd in
         modify (fun w =>
           match frame_counter w !! camera_id with
           | None => set_frame_counter (<[camera_id := 0]> (frame_counter w)) w
           | Some _ => w
           end) >>
         add_frame_to_buffer camera_id frame timestamp >>
         if PROCESS_EVERY_N_FRAMES cfg =? 0 then raise ZeroDivisionError
         else if negb (frame_number mod PROCESS_EVERY_N_FRAMES cfg =? 0) then ret tt
         else
           let* camera := db_query_camera (lookup_raises pf) camera_id in
           match camera with
           | None => ret tt
           | Some camera =>
               let* detections :=
                 process_frame cfg mdl camera_id frame (cam_crowd_threshold camera) in
               _handle_detections cfg pf camera_id frame detections >>
               modify (fun w =>
                 set_frame_counter
                   (alter (fun n => n + 1) camera_id (frame_counter w)) w)
           end
     end)
    (fun e => logger (LogErrorProcessingCamera camera_id e)).

(** The [for camera_id in running_cameras] loop of [_processing_loop]. *)
Fixpoint process_cameras (cfg : Settings) (mdl : Models) (pf : Z -> ProcFaults)
  (running_cameras : list Z) : M unit :=
  match running_cameras with
  | [] => ret tt
  | camera_id :: rest =>
      _process_camera cfg mdl (pf camera_id) camera_id >>
      process_cameras cfg mdl pf rest
  end.

(** ** [ConnectionManager] ([api/routes/websocket.py]) *)

Module Websocket.

Record Message := mkMessage { msg_type : string; msg_data : string }.

(** Connections are identified by a number.  [received] is what the
    clients got, in order of delivery. *)
Record Hub := mkHub {
  active_connections : list nat;
  received : list (nat * Message)
}.

(** [list.remove(x)], for an [x] that is in the list. *)
Fixpoint list_remove (x : nat) (l : list nat) : list nat :=
  match l with
  | [] => []
  | y :: l' => if decide (x = y) then l' else y :: list_remove x l'
  end.

Definition connect (websocket : nat) (hub : Hub) : Hub :=
  mkHub (active_connections hub ++ [websocket]) (received hub).

(** The first loop of [broadcast]: [send_fails c] says that
    [send_json] raises on connection [c] during this broadcast. *)
Definition send_all (send_fails : nat -> bool) (message : Message)
  (conns : list nat) (rcv : list (nat * Message))
  : list nat * list (nat * Message) :=
  fold_left
    (fun (acc : list nat * list (nat * Message)) connection =>
       if send_fails connection then (acc.1 ++ [connection], acc.2)
       else (acc.1, acc.2 ++ [(connection, message)]))
    conns ([], rcv).

(** The second loop of [broadcast]. *)
Definition remove_disconnected (disconnected conns : list nat) : list nat :=
  fold_left
    (fun l conn => if decide (conn ∈ l) then list_remove conn l else l)
    disconnected conns.

Definition broadcast (send_fails : nat -> bool) (message : Message) (hub : Hub) : Hub :=
  let '(disconnected, rcv) :=
    send_all send_fails message (active_connections hub) (received hub) in
  mkHub (remove_disconnected disconnected (active_connections hub)) rcv.

End Websocket.

(** ** Runs of the cooldown gate *)

(** The calls the alert pipeline makes on the deduplicator. *)
Inductive GateOp :=
| Accept (camera_id : Z) (alert_type : string)
| Cleanup.

(** Runs the calls in order; [accepted] collects, for every call of
    [should_send_alert] that returned true, the key and the timestamp
    recorded for it. *)
Fixpoint gate_run (cfg : Settings) (ops : list GateOp) (w : World)
  (accepted : list ((Z * string) * Z)) : list ((Z * string) * Z) * World :=
  match ops with
  | [] => (accepted, w)
  | Accept camera_id alert_type :: rest =>
      match should_send_alert cfg camera_id alert_type w with
      | (Ok true, w') =>
          gate_run cfg rest w'
            (accepted ++
             [((camera_id, alert_type),
               default 0 (last_alerts w' !! (camera_id, alert_type)))])
      | (_, w') => gate_run cfg rest w' accepted
      end
  | Cleanup :: rest => gate_run cfg rest (cleanup_old_entries cfg w).2 accepted
  end.

(** The wall clock does not run backwards. *)
Definition monotone (clk : nat -> Z) : Prop :=
  forall i j : nat, (i <= j)%nat -> clk i <= clk j.

(** What a run of the gate keeps true: every accepted timestamp is in the
    past, not later than the timestamp stored for its key, and once the
    entry of its key has been purged it is a whole window old. *)
Definition gate_inv (cfg : Settings) (accepted : list ((Z * string) * Z))
  (w : World) : Prop :=
  forall k t, (k, t) ∈ accepted ->
    t <= clock w (tick w) /\
    match last_alerts w !! k with
    | Some l => t <= l
    | None =>
        0 < seconds (ALERT_COOLDOWN_SECONDS cfg) ->
        t + seconds (ALERT_COOLDOWN_SECONDS cfg) <= clock w (tick w)
    end.

Definition spaced (cfg : Settings) (accepted : list ((Z * string) * Z)) : Prop :=
  forall k t1 t2, (k, t1) ∈ accepted -> (k, t2) ∈ accepted ->
    t1 < t2 -> seconds (ALERT_COOLDOWN_SECONDS cfg) <= t2 - t1.

(** ** Runs of the detection service *)

(** A server that has just started, with the given clock. *)
Definition initial_world (clk : nat -> Z) : World :=
  mkWorld clk 0 ∅ ∅ false ∅ None ∅ ∅ ∅ [] [] [] [] [].

(** The test of the lying branch of [process_frame]. *)
Definition qualifies_lying (cfg : Settings) (mdl : Models) (frame : Frame) : bool :=
  let '(is_lying, lying_conf, _) := detect_lying mdl frame in
  is_lying && Qle_bool (LYING_CONFIDENCE_THRESHOLD cfg) lying_conf.

(** [process_frame] entered in world [w] reads the clock for the field
    [timestamp], then, on a qualifying frame, for the window start when the
    camera has none, then for [time_lying]. *)
Definition window_start (w : World) (camera_id : Z) : Z :=
  default (clock w (S (tick w))) (lying_tracker w !! camera_id).

Definition lying_now (w : World) (camera_id : Z) : Z :=
  match lying_tracker w !! camera_id with
  | Some _ => clock w (S (tick w))
  | None => clock w (S (S (tick w)))
  end.

(** Calls of [process_frame] in order: camera, frame, crowd threshold.
    Every call is recorded with the world it started in and its result. *)
Fixpoint frames_run (cfg : Settings) (mdl : Models) (calls : list (Z * Frame * Z))
  (w : World) : list (World * Z * Detections) * World :=
  match calls with
  | [] => ([], w)
  | (camera_id, frame, crowd_threshold) :: rest =>
      match process_frame cfg mdl camera_id frame crowd_threshold w with
      | (Ok d, w') =>
          let '(out, w'') := frames_run cfg mdl rest w' in
          ((w, camera_id, d) :: out, w'')
      | (Raise _, w') => frames_run cfg mdl rest w'
      end
  end.

(** ** Inserting numbered frames into a queue *)

(** A queue entry with the given sequence number. *)
Definition numbered (n : Z) : FrameData := mkFrameData 1 (mkFrame 0 480 640) 0 n.

Definition enqueue_all (maxsize : nat) (fds : list FrameData) (q : list FrameData)
  : list FrameData :=
  fold_left (fun q fd => (enqueue maxsize fd q).2) fds q.

(** The queue of a worker holds the last frame numbers it has given out,
    in order. *)
Definition consecutive (st : Worker) : Prop :=
  fd_frame_number <$> wk_queue st =
    seqZ (wk_frame_count st - Z.of_nat (length (wk_queue st)))
      (Z.of_nat (length (wk_queue st))).

(** ** Outcomes of the alert pipeline *)

(** Whether the clip cannot be made: the ring of the camera is empty (or
    the slice of it is), or the encoder raises. *)
Definition clip_fails (cfg : Settings) (flt : Faults) (w : World) (camera_id : Z)
  : bool :=
  match frame_buffers w !! camera_id with
  | None | Some [] => true
  | Some frames =>
      match slice_last (VIDEO_CLIP_DURATION cfg * 30) frames with
      | [] => true
      | _ => writer_raises flt
      end
  end.

(** [0.0 <= confidence <= 1.0]. *)
Definition valid_confidence (c : Q) : bool :=
  Qle_bool (0 # 1) c && Qle_bool c (1 # 1).

(** ** Example inputs *)

(** The scenario of the design document: a window of 60 s and detections
    of one key at 0 s, 30 s and 61 s. *)
Definition scenario_clock (n : nat) : Z :=
  match n with
  | O => 0
  | S O => 30000000
  | _ => 61000000
  end.

(** A pose model that reports a person lying with confidence 0.9 on every
    frame and nothing else, and a camera sampled once per second: the
    first call of [process_frame] reads the clock three times, the later
    ones twice. *)
Definition lying_model : Models :=
  mkModels (fun _ => (false, 0 # 1, []))
    (fun _ => (true, 9 # 10, ["aspect_ratio"; "nose_height"; "detection_method"]))
    (fun _ => (0, 0 # 1)) (fun _ => false) (fun _ _ => Some (0 # 1, 0 # 1)).

Definition per_second_clock (n : nat) : Z :=
  seconds (if (n <? 3)%nat then 0 else (Z.of_nat n - 1) / 2).

Definition blank_frame : Frame := mkFrame 0 480 640.

Definition six_lying_frames : list (Z * Frame * Z) :=
  replicate 6 (1, blank_frame, 10).

(** A server whose queue for camera 1 holds the frames 0 and 1, frame 1
    being the newest. *)
Definition two_frames_queued : World :=
  set_frame_queues {[ 1 := [numbered 0; numbered 1] ]} (initial_world (fun _ => 0)).

(** Two cameras showing different scenes: the optical flow between an
    image of one and an image of the other is large (mean 5, maximum 45),
    the flow between two images of the same scene is zero.  No pose is
    found in either. *)
Definition two_scenes_model : Models :=
  mkModels (fun _ => (false, 0 # 1, [])) (fun _ => (false, 0 # 1, []))
    (fun _ => (0, 0 # 1)) (fun _ => false)
    (fun prev cur =>
       if pixels prev =? pixels cur then Some (0 # 1, 0 # 1)
       else Some (5 # 1, 45 # 1)).

Definition scene_a : Frame := mkFrame 1 480 640.
Definition scene_b : Frame := mkFrame 2 480 640.

(** Three subscribers, the second of which has gone away. *)
Definition three_subscribers : Websocket.Hub := Websocket.mkHub [1; 2; 3]%nat [].

Definition second_fails (c : nat) : bool := (c =? 2)%nat.

Definition alert_message : Websocket.Message := Websocket.mkMessage "alert" "fall".

(** A server with one camera in its table, no frame buffered and no
    mail account. *)
Definition schoolyard : CameraRow := mkCamera "yard" (Some "north gate") 10.

Definition one_camera_world (clk : nat -> Z) : World :=
  mkWorld clk 0 ∅ ∅ false ∅ None ∅ ∅ {[ 1 := schoolyard ]} [] [] [] [] [].

(** The same server after it has accepted a fall alert of camera 1. *)
Definition after_first_fall : World :=
  (should_send_alert default_settings 1 "fall" (one_camera_world scenario_clock)).2.

(** The store rejects every write. *)
Definition store_down : Faults :=
  mkFaults false false false true false false false false.

(** A pose model that sees a fall with confidence 0.9 on every frame, a
    queue for camera 1 holding the frames 0 and 3 (both are sampled with
    the default stride of 3), and a store that rejects the write of every
    fall alert. *)
Definition fall_model : Models :=
  mkModels (fun _ => (true, 9 # 10, ["body_angle"; "hip_position"; "detection_method"]))
    (fun _ => (false, 0 # 1, [])) (fun _ => (0, 0 # 1)) (fun _ => false)
    (fun _ _ => Some (0 # 1, 0 # 1)).

Definition two_sampled_frames : World :=
  set_frame_queues {[ 1 := [numbered 0; numbered 3] ]}
    (one_camera_world scenario_clock).

Definition fall_store_down : ProcFaults :=
  mkProcFaults false (fun _ => store_down).

(** * Further runs and inputs *)

From Stdlib Require Import Sorted.

(** A server that has just started, under a clock that stands still. *)
Definition idle_world : World := initial_world (fun _ => 0).

(** ** The evidence buffer *)

(** Calls of [add_frame] in order: camera, frame, timestamp. *)
Definition add_frames (calls : list (Z * Frame * Z)) (w : World) : World :=
  fold_left (fun w c => (add_frame c.1.1 c.1.2 c.2 w).2) calls w.

(** The buffer entries that the calls make for one camera, in order. *)
Definition entries_of (camera_id : Z) (calls : list (Z * Frame * Z))
  : list BufferedFrame :=
  (fun c => mkBuffered c.1.2 c.2) <$> filter (fun c => c.1.1 = camera_id) calls.

(** Whether [generate_clip] can make the clip: there are frames, the slice
    of them is not empty, and the writer does not raise. *)
Definition clip_possible (flt : Faults) (w : World) (camera_id duration : Z) : bool :=
  match frame_buffers w !! camera_id with
  | Some (b :: frames) =>
      match slice_last (duration * 30) (b :: frames) with
      | [] => false
      | _ => negb (writer_raises flt)
      end
  | _ => false
  end.

(** ** What a computation leaves alone *)

(** [keeps f m]: running [m] never changes the part [f] of the world,
    whether it returns or raises. *)
Definition keeps {X A : Type} (f : World -> X) (m : M A) : Prop :=
  forall w, f (m w).2 = f w.

(** The state of capture and detection, and the camera table. *)
Definition detection_side (w : World) :=
  (clock w, lying_tracker w, prev_frame w, frame_counter w, frame_queues w,
   frame_buffers w, db_cameras w, smtp_configured w).

(** The state of the alert pipeline and of the store. *)
Definition alert_side (w : World) :=
  (clock w, last_alerts w, db_alerts w, db_pending w, outbox w, files w,
   frame_buffers w, frame_queues w, frame_counter w, db_cameras w,
   smtp_configured w).

(** ** What leaves the capture queue *)

(** The frames the server takes out of the queue during a run, in order. *)
Fixpoint queue_consumed (maxsize : nat) (evs : list QueueEvent) (st : Worker)
  : list FrameData :=
  match evs with
  | [] => []
  | ev :: rest =>
      match ev, FrameQueue.get_nowait (wk_queue st) with
      | Consumed, (inr fd, _) => [fd]
      | _, _ => []
      end ++ queue_consumed maxsize rest (queue_step maxsize st ev)
  end.

(** The number of reads of a run that returned a frame. *)
Fixpoint captured_count (evs : list QueueEvent) : Z :=
  match evs with
  | [] => 0
  | Captured (Some _) _ :: rest => 1 + captured_count rest
  | _ :: rest => captured_count rest
  end.

(** ** [CameraManager]: starting and stopping workers
       ([services/camera_manager.py]) *)

Module Manager.

Record CameraInfo := mkInfo {
  info_name : string;
  info_rtsp_url : string;
  info_started_at : Z
}.

(** The dictionaries of the manager other than [frame_queues], which is
    the one of the world.  A process is recorded by the URL it reads from
    and a stop event by whether it is set; whether a process is still
    alive is outside the model, and so is the log of this module. *)
Record Dicts := mkDicts {
  processes : gmap Z string;
  stop_events : gmap Z bool;
  camera_info : gmap Z CameraInfo
}.

(** [start_camera]; [spawn_raises] says that creating or starting the
    process raises. *)
Definition start_camera (spawn_raises : bool) (camera_id : Z)
  (rtsp_url camera_name : string) (m : Dicts) (w : World) : bool * Dicts * World :=
  match processes m !! camera_id with
  | Some _ => (false, m, w)
  | None =>
      if spawn_raises then (false, m, w)
      else
        let started_at := clock w (tick w) in
        (true,
         mkDicts (<[camera_id := rtsp_url]> (processes m))
           (<[camera_id := false]> (stop_events m))
           (<[camera_id := mkInfo camera_name rtsp_url started_at]> (camera_info m)),
         set_tick (S (tick w))
           (set_frame_queues (<[camera_id := []]> (frame_queues w)) w))
  end.

(** [stop_camera]; [join_raises] says that waiting for or terminating the
    process raises.  A key missing from one of the dictionaries is a
    [KeyError], caught like any other exception, after the deletions made
    before it. *)
Definition stop_camera (join_raises : bool) (camera_id : Z) (m : Dicts) (w : World)
  : bool * Dicts * World :=
  match processes m !! camera_id with
  | None => (false, m, w)
  | Some _ =>
      match stop_events m !! camera_id with
      | None => (false, m, w)
      | Some _ =>
          let m1 :=
            mkDicts (processes m) (<[camera_id := true]> (stop_events m))
              (camera_info m) in
          if join_raises then (false, m1, w)
          else
            let m2 :=
              mkDicts (delete camera_id (processes m1))
                (delete camera_id (stop_events m1)) (camera_info m1) in
            match frame_queues w !! camera_id with
            | None => (false, m2, w)
            | Some _ =>
                let w' := set_frame_queues (delete camera_id (frame_queues w)) w in
                match camera_info m2 !! camera_id with
                | None => (false, m2, w')
                | Some _ =>
                    (true,
                     mkDicts (processes m2) (stop_events m2)
                       (delete camera_id (camera_info m2)), w')
                end
            end
      end
  end.

(** [get_running_cameras]: the keys of [processes] (in the order of the
    map, not of insertion). *)
Definition get_running_cameras (m : Dicts) : list Z := (map_to_list (processes m)).*1.

Definition stop_all (join_raises : Z -> bool) (m : Dicts) (w : World) : Dicts * World :=
  fold_left
    (fun (s : Dicts * World) camera_id =>
       let '(_, m', w') := stop_camera (join_raises camera_id) camera_id s.1 s.2 in
       (m', w'))
    (get_running_cameras m) (m, w).

(** The four dictionaries have the same cameras. *)
Definition in_step (m : Dicts) (w : World) : Prop :=
  dom (stop_events m) = dom (processes m) /\
  dom (camera_info m) = dom (processes m) /\
  dom (frame_queues w) = dom (processes m).

(** A manager with camera 1 running. *)
Definition one_running : Dicts :=
  mkDicts {[ 1 := "rtsp://yard"%string ]} {[ 1 := false ]}
    {[ 1 := mkInfo "yard" "rtsp://yard" 0 ]}.

End Manager.

(** ** [ConnectionManager]: leaving the registry
       ([api/routes/websocket.py]) *)

Module ConnectionManager.
Import Websocket.

(** [disconnect]: [list.remove] raises [ValueError] ([None]) when the
    connection is not in the list. *)
Definition disconnect (websocket : nat) (hub : Hub) : option Hub :=
  if decide (websocket ∈ active_connections hub) then
    Some (mkHub (list_remove websocket (active_connections hub)) (received hub))
  else None.

End ConnectionManager.

(** ** Sampling in [_process_camera] *)

(** The evidence buffer of a camera after one more frame. *)
Definition buffer_after (w : World) (camera_id : Z) (fd : FrameData)
  : list BufferedFrame :=
  let buf := default [] (frame_buffers w !! camera_id) ++
             [mkBuffered (fd_frame fd) (fd_timestamp fd)] in
  if (max_buffer_size <? length buf)%nat then tail buf else buf.

(** The queues and the evidence buffers. *)
Definition frames_side (w : World) := (frame_queues w, frame_buffers w).

(** ** One visit of the processing loop *)

(** What a visit of [_process_camera] does to the queues and the evidence
    buffers: the frame at the front of the camera's queue, if there is
    one, moves to the end of the camera's evidence buffer. *)
Definition visit (camera_id : Z)
  (s : gmap Z (list FrameData) * gmap Z (list BufferedFrame))
  : gmap Z (list FrameData) * gmap Z (list BufferedFrame) :=
  match s.1 !! camera_id with
  | Some (fd :: q) =>
      (<[camera_id := q]> s.1,
       <[camera_id :=
           let buf := default [] (s.2 !! camera_id) ++
                      [mkBuffered (fd_frame fd) (fd_timestamp fd)] in
           if (max_buffer_size <? length buf)%nat then tail buf else buf]> s.2)
  | _ => s
  end.

(** The state in which the detectors run on the frame [fd] taken from the
    front of the queue [fd :: q]: the frame has left the queue, the camera
    has a frame counter, and the frame is in the evidence buffer. *)
Definition buffered (camera_id : Z) (fd : FrameData) (q : list FrameData)
  (w : World) : World :=
  set_frame_buffers (<[camera_id := buffer_after w camera_id fd]> (frame_buffers w))
    (set_frame_counter
       (match frame_counter w !! camera_id with
        | None => <[camera_id := 0]> (frame_counter w)
        | Some _ => frame_counter w
        end)
       (set_frame_queues (<[camera_id := q]> (frame_queues w)) w)).

(** * Properties *)

(** Reads a field of an updated world. *)
Ltac wsimpl :=
  unfold set_tick, set_last_alerts, set_frame_buffers, set_lying_tracker,
    set_prev_frame, set_frame_counter, set_frame_queues, set_db_alerts,
    set_db_pending, set_outbox, set_files, set_log;
  cbn [clock tick last_alerts frame_buffers smtp_configured lying_tracker
       prev_frame frame_counter frame_queues db_cameras db_alerts db_pending
       outbox files log].

Ltac wsimpl_in H :=
  unfold set_tick, set_last_alerts, set_frame_buffers, set_lying_tracker,
    set_prev_frame, set_frame_counter, set_frame_queues, set_db_alerts,
    set_db_pending, set_outbox, set_files, set_log in H;
  cbn [clock tick last_alerts frame_buffers smtp_configured lying_tracker
       prev_frame frame_counter frame_queues db_cameras db_alerts db_pending
       outbox files log] in H.

(** ** Cooldown gate *)

Section CooldownGate.

Variable cfg : Settings.

Local Abbreviation cooldown := (seconds (ALERT_COOLDOWN_SECONDS cfg)).

Lemma should_send_alert_first w camera_id alert_type :
  last_alerts w !! (camera_id, alert_type) = None ->
  should_send_alert cfg camera_id alert_type w =
    (Ok true,
     set_last_alerts
       (<[(camera_id, alert_type) := clock w (tick w)]> (last_alerts w))
       (set_tick (S (tick w)) w)).
Proof.
  intros Hnone. unfold should_send_alert, bind, gets, utcnow, modify, ret.
  rewrite Hnone. reflexivity.
Qed.

Lemma should_send_alert_again w camera_id alert_type last :
  last_alerts w !! (camera_id, alert_type) = Some last ->
  should_send_alert cfg camera_id alert_type w =
    if cooldown <=? clock w (tick w) - last then
      (Ok true,
       set_last_alerts
         (<[(camera_id, alert_type) := clock w (S (tick w))]> (last_alerts w))
         (set_tick (S (S (tick w))) w))
    else (Ok false, set_tick (S (tick w)) w).
Proof.
  intros Hsome. unfold should_send_alert, bind, gets, utcnow, modify, ret.
  rewrite Hsome.
  destruct (seconds (ALERT_COOLDOWN_SECONDS cfg) <=? clock w (tick w) - last);
    reflexivity.
Qed.

Lemma cleanup_old_entries_eq w :
  cleanup_old_entries cfg w =
    (Ok tt,
     set_last_alerts
       (filter (fun kv : (Z * string) * Z =>
                  ¬ (kv.2 < clock w (tick w) - seconds (ALERT_COOLDOWN_SECONDS cfg * 2)))
          (last_alerts w))
       (set_tick (S (tick w)) w)).
Proof. reflexivity. Qed.

Lemma spaced_snoc accepted k s :
  spaced cfg accepted ->
  (forall t, (k, t) ∈ accepted -> t <= s /\ cooldown <= s - t) ->
  spaced cfg (accepted ++ [(k, s)]).
Proof.
  intros Hsp Hnew k' t1 t2 H1 H2 Hlt.
  apply elem_of_app in H1 as [H1 | H1]; apply elem_of_app in H2 as [H2 | H2].
  - eauto.
  - apply list_elem_of_singleton in H2. simplify_eq.
    apply Hnew in H1. lia.
  - apply list_elem_of_singleton in H1. simplify_eq.
    apply Hnew in H2. lia.
  - apply list_elem_of_singleton in H1. apply list_elem_of_singleton in H2.
    simplify_eq. lia.
Qed.

Lemma gate_inv_later accepted w w' :
  monotone (clock w) ->
  clock w' = clock w -> (tick w <= tick w')%nat ->
  last_alerts w' = last_alerts w ->
  gate_inv cfg accepted w -> gate_inv cfg accepted w'.
Proof.
  intros Hmono Hclk Htick Hla Hinv k t Hin.
  destruct (Hinv k t Hin) as [Hpast Hkey].
  pose proof (Hmono _ _ Htick) as Hm. rewrite Hclk, Hla.
  split; [lia |].
  destruct (last_alerts w !! k); [exact Hkey | intros Hpos; lia].
Qed.

(** Accepting key [k] at a reading [s] that is not before the present. *)
Lemma gate_inv_accept accepted w k s n :
  monotone (clock w) ->
  (tick w <= n)%nat -> s <= clock w n -> clock w (tick w) <= s ->
  gate_inv cfg accepted w ->
  gate_inv cfg (accepted ++ [(k, s)])
    (set_last_alerts (<[k := s]> (last_alerts w)) (set_tick n w)).
Proof.
  intros Hmono Htick Hs Hnow Hinv k' t Hin. wsimpl.
  pose proof (Hmono _ _ Htick) as Hm.
  apply elem_of_app in Hin as [Hin | Hin].
  - destruct (Hinv k' t Hin) as [Hpast Hkey].
    split; [lia |].
    destruct (decide (k' = k)) as [-> | Hne].
    + rewrite lookup_insert_eq. lia.
    + rewrite lookup_insert_ne by congruence.
      destruct (last_alerts w !! k'); [exact Hkey | intros Hpos; lia].
  - apply list_elem_of_singleton in Hin. simplify_eq.
    rewrite lookup_insert_eq. lia.
Qed.

Lemma gate_inv_cleanup accepted w :
  monotone (clock w) ->
  gate_inv cfg accepted w ->
  gate_inv cfg accepted (cleanup_old_entries cfg w).2.
Proof.
  intros Hmono Hinv k t Hin. rewrite cleanup_old_entries_eq. cbn [snd]. wsimpl.
  pose proof (Hmono (tick w) (S (tick w)) ltac:(lia)) as Hm1.
  destruct (Hinv k t Hin) as [Hpast Hkey].
  split; [lia |].
  destruct (last_alerts w !! k) as [l |] eqn:Hlk.
  - destruct (decide (l < clock w (tick w) - seconds (ALERT_COOLDOWN_SECONDS cfg * 2)))
      as [Hold | Hkeep].
    + rewrite map_lookup_filter_None_2.
      * intros Hpos. unfold seconds in *. lia.
      * right. intros x Hx. rewrite Hlk in Hx. simplify_eq. cbn [snd]. tauto.
    + rewrite (map_lookup_filter_Some_2 _ _ k l Hlk); [exact Hkey | exact Hkeep].
  - rewrite map_lookup_filter_None_2; [intros Hpos; lia | left; exact Hlk].
Qed.

Lemma gate_run_spaced ops : forall w accepted,
  monotone (clock w) ->
  gate_inv cfg accepted w ->
  spaced cfg accepted ->
  spaced cfg (gate_run cfg ops w accepted).1.
Proof.
  induction ops as [| op rest IH]; intros w accepted Hmono Hinv Hsp; [exact Hsp |].
  destruct op as [camera_id alert_type |]; cbn [gate_run].
  - destruct (last_alerts w !! (camera_id, alert_type)) as [last |] eqn:Hlk.
    + rewrite (should_send_alert_again _ _ _ _ Hlk).
      destruct (cooldown <=? clock w (tick w) - last) eqn:Hcmp.
      * apply Z.leb_le in Hcmp.
        pose proof (Hmono (tick w) (S (tick w)) ltac:(lia)) as Hm1.
        pose proof (Hmono (S (tick w)) (S (S (tick w))) ltac:(lia)) as Hm2.
        wsimpl. rewrite lookup_insert_eq. unfold default, id; cbn [from_option].
        apply IH; [exact Hmono | |].
        -- apply (gate_inv_accept accepted w _ _ (S (S (tick w)))); auto with lia.
        -- apply spaced_snoc; [exact Hsp |].
           intros t Hin. destruct (Hinv _ _ Hin) as [Hpast Hkey].
           rewrite Hlk in Hkey. lia.
      * apply IH; [exact Hmono | | exact Hsp].
        apply (gate_inv_later accepted w); auto. wsimpl. lia.
    + rewrite (should_send_alert_first _ _ _ Hlk).
      pose proof (Hmono (tick w) (S (tick w)) ltac:(lia)) as Hm1.
      wsimpl. rewrite lookup_insert_eq. unfold default, id; cbn [from_option].
      apply IH; [exact Hmono | |].
      * apply (gate_inv_accept accepted w _ _ (S (tick w))); auto with lia.
      * apply spaced_snoc; [exact Hsp |].
        intros t Hin. destruct (Hinv _ _ Hin) as [Hpast Hkey].
        rewrite Hlk in Hkey.
        destruct (decide (0 < cooldown)); lia.
  - apply IH; [exact Hmono | | exact Hsp].
    apply gate_inv_cleanup; assumption.
Qed.

End CooldownGate.

Lemma scenario_clock_monotone : monotone scenario_clock.
Proof.
  intros [| [| i]] [| [| j]] Hij; cbn [scenario_clock]; lia.
Defined.

(** C1. For every key [(camera_id, alert_type)]: the first call of the
    gate records the current time and returns true; any two timestamps
    [t1 < t2] recorded by accepted calls for one key, in any run of the
    gate (cleanups included) under a clock that does not run backwards,
    are at least the cooldown window apart; and a rejected call leaves the
    stored timestamps as they are. *)
Theorem cooldown_gate_spacing (cfg : Settings) :
  (forall w camera_id alert_type,
     last_alerts w !! (camera_id, alert_type) = None ->
     exists w',
       should_send_alert cfg camera_id alert_type w = (Ok true, w') /\
       last_alerts w' !! (camera_id, alert_type) = Some (clock w (tick w))) /\
  (forall w ops k t1 t2,
     monotone (clock w) ->
     (k, t1) ∈ (gate_run cfg ops w []).1 ->
     (k, t2) ∈ (gate_run cfg ops w []).1 ->
     t1 < t2 ->
     seconds (ALERT_COOLDOWN_SECONDS cfg) <= t2 - t1) /\
  (forall w camera_id alert_type w',
     should_send_alert cfg camera_id alert_type w = (Ok false, w') ->
     last_alerts w' = last_alerts w).
Proof.
  split; [| split].
  - intros w camera_id alert_type Hnone.
    rewrite (should_send_alert_first cfg _ _ _ Hnone).
    eexists; split; [reflexivity |]. wsimpl. apply lookup_insert_eq.
  - intros w ops k t1 t2 Hmono H1 H2 Hlt.
    apply (gate_run_spaced cfg ops w [] Hmono) with (k := k); auto.
    + intros k' t Hin. apply elem_of_nil in Hin. destruct Hin.
    + intros k' u1 u2 Hin. apply elem_of_nil in Hin. destruct Hin.
  - intros w camera_id alert_type w' Hcall.
    destruct (last_alerts w !! (camera_id, alert_type)) as [last |] eqn:Hlk.
    + rewrite (should_send_alert_again cfg _ _ _ _ Hlk) in Hcall.
      destruct (seconds (ALERT_COOLDOWN_SECONDS cfg) <=? clock w (tick w) - last);
        [discriminate |].
      injection Hcall as <-. reflexivity.
    + rewrite (should_send_alert_first cfg _ _ _ Hlk) in Hcall. discriminate.
Qed.

Lemma cooldown_gate_spacing_witness :
  seconds (ALERT_COOLDOWN_SECONDS default_settings) <= 61000000 - 0.
Proof.
  apply (proj1 (proj2 (cooldown_gate_spacing default_settings))
           (initial_world scenario_clock)
           [Accept 1 "fall"; Accept 1 "fall"; Accept 1 "fall"]
           (1, "fall"%string) 0 61000000).
  - exact scenario_clock_monotone.
  - vm_compute. apply list_elem_of_here.
  - vm_compute. apply list_elem_of_further, list_elem_of_here.
  - lia.
Defined.

(** ** Lying window *)

Section LyingWindow.

Variable cfg : Settings.
Variable mdl : Models.

Local Abbreviation sustain := (seconds (LYING_TIME_THRESHOLD cfg)).

(** The steps after the lying step leave the tracker, the clock and the
    lying report alone. *)
Lemma crowd_step_frame frame thr d w :
  (exists r n, crowd_step mdl frame thr d w = (Ok (set_crowd r n d), w)) \/
  (exists e, crowd_step mdl frame thr d w = (Raise e, w)).
Proof.
  unfold crowd_step, detect_crowd, bind, ret, raise.
  destruct (detect_persons mdl frame) as [person_count avg].
  destruct (height frame * width frame =? 0); eauto.
Qed.

Lemma detect_pushing_frame frame w :
  exists r w', detect_pushing mdl frame w = (Ok r, w') /\
    (w' = w \/ w' = set_prev_frame (Some frame) w).
Proof.
  unfold detect_pushing, try_except, bind, gets, modify, ret, raise.
  destruct (mp_pose_raises mdl frame); [eauto |].
  destruct (prev_frame w) as [prev |]; [| eauto].
  destruct (optical_flow mdl prev frame) as [[mean_motion max_motion] |]; eauto.
Qed.

Lemma pushing_step_frame frame d w :
  exists r w', pushing_step cfg mdl frame d w = (Ok (set_pushing r d), w') /\
    (w' = w \/ w' = set_prev_frame (Some frame) w).
Proof.
  unfold pushing_step, bind.
  destruct (detect_pushing_frame frame w) as ([[is_pushing conf] meta] & w' & -> & Hw).
  unfold ret. eauto.
Qed.

Lemma fall_step_frame frame d w :
  exists r, fall_step cfg mdl frame d w = (Ok (set_fall r d), w).
Proof.
  unfold fall_step. destruct (detect_fall mdl frame) as [[is_fall conf] meta].
  unfold ret. eauto.
Qed.

(** The lying step, on a frame that qualifies and on one that does not. *)
Lemma lying_step_qualifies camera_id frame d w :
  qualifies_lying cfg mdl frame = true ->
  exists r w',
    lying_step cfg mdl camera_id frame d w = (Ok (set_lying r d), w') /\
    clock w' = clock w /\
    tick w' = match lying_tracker w !! camera_id with
              | Some _ => S (tick w)
              | None => S (S (tick w))
              end /\
    prev_frame w' = prev_frame w /\
    lying_tracker w' =
      <[camera_id := default (clock w (tick w)) (lying_tracker w !! camera_id)]>
        (lying_tracker w) /\
    detected r =
      (sustain <=?
         match lying_tracker w !! camera_id with
         | Some start => clock w (tick w) - start
         | None => clock w (S (tick w)) - clock w (tick w)
         end) /\
    time_lying r =
      Some match lying_tracker w !! camera_id with
           | Some start => clock w (tick w) - start
           | None => clock w (S (tick w)) - clock w (tick w)
           end.
Proof.
  unfold qualifies_lying, lying_step. intros Hq.
  destruct (detect_lying mdl frame) as [[is_lying conf] meta].
  rewrite Hq. unfold bind, gets, utcnow, modify, ret.
  destruct (lying_tracker w !! camera_id) as [start |] eqn:Hlk; wsimpl.
  - do 2 eexists. split; [reflexivity |]. wsimpl. cbn [detected time_lying].
    rewrite insert_id by exact Hlk. auto 10.
  - do 2 eexists. split; [reflexivity |]. wsimpl. cbn [detected time_lying]. auto 10.
Qed.

Lemma lying_step_resets camera_id frame d w :
  qualifies_lying cfg mdl frame = false ->
  exists r,
    lying_step cfg mdl camera_id frame d w =
      (Ok (set_lying r d),
       set_lying_tracker (delete camera_id (lying_tracker w)) w) /\
    detected r = false /\ time_lying r = None.
Proof.
  unfold qualifies_lying, lying_step. intros Hq.
  destruct (detect_lying mdl frame) as [[is_lying conf] meta].
  rewrite Hq. unfold bind, modify, ret. eexists. split; [reflexivity |]. auto.
Qed.

(** What the tail of [process_frame] (crowd and pushing) changes. *)
Lemma process_frame_tail camera_id frame thr d w :
  exists d' w',
    match try_steps [crowd_step mdl frame thr; pushing_step cfg mdl frame] d w with
    | ((d1, None), w1) => (Ok d1, w1)
    | ((d1, Some e), w1) => (logger (LogErrorProcessingFrame camera_id e) >> ret d1) w1
    end = (Ok d', w') /\
    d_lying d' = d_lying d /\ clock w' = clock w /\ tick w' = tick w /\
    lying_tracker w' = lying_tracker w.
Proof.
  cbn [try_steps].
  destruct (crowd_step_frame frame thr d w) as [(r & n & ->) | (e & ->)].
  - destruct (pushing_step_frame frame (set_crowd r n d) w) as (r' & w' & -> & Hw).
    do 2 eexists. split; [reflexivity |].
    destruct Hw as [-> | ->]; auto.
  - unfold bind, logger, modify, ret. do 2 eexists. split; [reflexivity |]. auto.
Qed.

(** [process_frame] always returns, and its lying report and the window
    of the camera are those of the lying step. *)
Lemma process_frame_lying camera_id frame thr w :
  exists d w',
    process_frame cfg mdl camera_id frame thr w = (Ok d, w') /\
    clock w' = clock w /\ (tick w < tick w')%nat /\
    (forall c, c ≠ camera_id -> lying_tracker w' !! c = lying_tracker w !! c) /\
    if qualifies_lying cfg mdl frame then
      lying_tracker w' !! camera_id = Some (window_start w camera_id) /\
      detected (d_lying d) =
        (sustain <=? lying_now w camera_id - window_start w camera_id) /\
      time_lying (d_lying d) =
        Some (lying_now w camera_id - window_start w camera_id)
    else
      lying_tracker w' !! camera_id = None /\
      detected (d_lying d) = false /\ time_lying (d_lying d) = None.
Proof.
  unfold process_frame, bind at 1, utcnow. cbn [try_steps].
  set (d0 := mkDetections camera_id _ _ _ _ _ _).
  set (w0 := set_tick (S (tick w)) w).
  destruct (fall_step_frame frame d0 w0) as (rf & ->).
  destruct (qualifies_lying cfg mdl frame) eqn:Hq.
  - destruct (lying_step_qualifies camera_id frame (set_fall rf d0) w0 Hq)
      as (r & w1 & -> & Hclk & Htick & _ & Htr & Hdet & Htl).
    destruct (process_frame_tail camera_id frame thr (set_lying r (set_fall rf d0)) w1)
      as (d' & w' & Heq & Hd & Hclk' & Htick' & Htr').
    cbn [try_steps] in Heq. rewrite Heq.
    exists d', w'. split; [reflexivity |].
    subst w0. wsimpl_in Hclk. wsimpl_in Htick. wsimpl_in Htr.
    wsimpl_in Hdet. wsimpl_in Htl.
    rewrite Hd, Hclk', Htick', Htr', Hclk, Htick, Htr.
    unfold set_lying; cbn [d_lying]. unfold window_start, lying_now.
    split; [reflexivity |]. split; [destruct (lying_tracker w !! camera_id); lia |].
    split; [intros c Hc; rewrite lookup_insert_ne by congruence; reflexivity |].
    rewrite lookup_insert_eq, Hdet, Htl.
    destruct (lying_tracker w !! camera_id); auto.
  - destruct (lying_step_resets camera_id frame (set_fall rf d0) w0 Hq)
      as (r & -> & Hdet & Htl).
    destruct (process_frame_tail camera_id frame thr (set_lying r (set_fall rf d0))
                (set_lying_tracker (delete camera_id (lying_tracker w0)) w0))
      as (d' & w' & Heq & Hd & Hclk' & Htick' & Htr').
    cbn [try_steps] in Heq. rewrite Heq.
    exists d', w'. split; [reflexivity |].
    rewrite Hd, Hclk', Htick', Htr'. unfold set_lying; cbn [d_lying]. subst w0. wsimpl.
    split; [reflexivity |]. split; [lia |].
    split; [intros c Hc; rewrite lookup_delete_ne by congruence; reflexivity |].
    rewrite lookup_delete_eq. auto.
Qed.

Lemma frames_run_cons camera_id frame thr rest w d w' :
  process_frame cfg mdl camera_id frame thr w = (Ok d, w') ->
  frames_run cfg mdl ((camera_id, frame, thr) :: rest) w =
    ((w, camera_id, d) :: (frames_run cfg mdl rest w').1,
     (frames_run cfg mdl rest w').2).
Proof.
  intros H. cbn [frames_run]. rewrite H.
  destruct (frames_run cfg mdl rest w'). reflexivity.
Qed.

(** Every call is recorded, under the same clock and later readings. *)
Lemma frames_run_length calls : forall w,
  length (frames_run cfg mdl calls w).1 = length calls.
Proof.
  induction calls as [| [[c f] thr] rest IH]; intros w; [reflexivity |].
  destruct (process_frame_lying c f thr w) as (d & w' & Hpf & _).
  rewrite (frames_run_cons _ _ _ _ _ _ _ Hpf). cbn [fst length]. now rewrite IH.
Qed.

Lemma frames_run_later calls : forall w i wb c d,
  (frames_run cfg mdl calls w).1 !! i = Some (wb, c, d) ->
  clock wb = clock w /\ (tick w <= tick wb)%nat.
Proof.
  induction calls as [| [[c0 f] thr] rest IH]; intros w i wb c d Hi;
    [discriminate |].
  destruct (process_frame_lying c0 f thr w) as (d0 & w' & Hpf & Hclk & Htick & _).
  rewrite (frames_run_cons _ _ _ _ _ _ _ Hpf) in Hi. cbn [fst] in Hi.
  destruct i as [| i]; cbn in Hi.
  - simplify_eq. split; [reflexivity | lia].
  - apply IH in Hi as [Hc Ht]. split; [congruence | lia].
Qed.

Lemma frames_run_ordered calls : forall w i j wi ci di wj cj dj,
  (i < j)%nat ->
  (frames_run cfg mdl calls w).1 !! i = Some (wi, ci, di) ->
  (frames_run cfg mdl calls w).1 !! j = Some (wj, cj, dj) ->
  (tick wi < tick wj)%nat.
Proof.
  induction calls as [| [[c0 f] thr] rest IH]; intros w i j wi ci di wj cj dj Hij Hi Hj;
    [discriminate |].
  destruct (process_frame_lying c0 f thr w) as (d0 & w' & Hpf & Hclk & Htick & _).
  rewrite (frames_run_cons _ _ _ _ _ _ _ Hpf) in Hi, Hj. cbn [fst] in Hi, Hj.
  destruct j as [| j]; [lia |]. cbn in Hj.
  destruct i as [| i]; cbn in Hi.
  - simplify_eq. apply frames_run_later in Hj as [_ Ht]. lia.
  - eapply IH; [| exact Hi | exact Hj]. lia.
Qed.

(** While every frame of the camera qualifies, its window start stays and
    each of its reports compares the time since that start with the
    threshold. *)
Lemma frames_run_window camera_id calls : forall w start,
  lying_tracker w !! camera_id = Some start ->
  (forall f thr, (camera_id, f, thr) ∈ calls -> qualifies_lying cfg mdl f = true) ->
  lying_tracker (frames_run cfg mdl calls w).2 !! camera_id = Some start /\
  forall wb d, (wb, camera_id, d) ∈ (frames_run cfg mdl calls w).1 ->
    lying_tracker wb !! camera_id = Some start /\
    time_lying (d_lying d) = Some (lying_now wb camera_id - start) /\
    detected (d_lying d) = (sustain <=? lying_now wb camera_id - start).
Proof.
  induction calls as [| [[c f] thr] rest IH]; intros w start Hstart Hq.
  - split; [exact Hstart |]. intros wb d Hin. apply elem_of_nil in Hin. destruct Hin.
  - destruct (process_frame_lying c f thr w) as (d0 & w' & Hpf & Hclk & Htick & Hoth & Hcam).
    rewrite (frames_run_cons _ _ _ _ _ _ _ Hpf). cbn [fst snd].
    assert (Hstart' : lying_tracker w' !! camera_id = Some start).
    { destruct (decide (c = camera_id)) as [-> | Hne].
      - rewrite (Hq f thr) in Hcam by apply list_elem_of_here.
        destruct Hcam as [-> _]. unfold window_start. now rewrite Hstart.
      - rewrite Hoth by congruence. exact Hstart. }
    destruct (IH w' start Hstart') as [Hfin Hrec].
    { intros f' thr' Hin. apply (Hq f' thr'). now apply list_elem_of_further. }
    split; [exact Hfin |].
    intros wb d Hin. apply elem_of_cons in Hin as [Heq | Hin]; [| now apply Hrec].
    simplify_eq.
    rewrite (Hq f thr) in Hcam by apply list_elem_of_here.
    destruct Hcam as (_ & Hdet & Htl).
    unfold window_start in Hdet, Htl. rewrite Hstart in Hdet, Htl.
    auto.
Qed.

End LyingWindow.

(** The scenario of the design document: with a threshold of 5 s and
    qualifying observations at 0, 1, ..., 5 s the lying condition is first
    reported at 5 s. *)
Example lying_scenario :
  (fun r : World * Z * Detections => detected (d_lying r.2)) <$>
    (frames_run default_settings lying_model six_lying_frames
       (initial_world per_second_clock)).1
  = [false; false; false; false; false; true].
Proof. vm_compute. reflexivity. Qed.

(** C2. For every camera: in a run of calls of [process_frame] whose
    frames for the camera all qualify, starting at a frame of the camera,
    every call is answered, the window start (the stored one, or the time
    read at the first frame when none is stored) stays in the tracker, and
    each report of the camera has [detected] true exactly when the time
    since the window start has reached the threshold: never while it is
    shorter, and, the clock not running backwards, at every later frame of
    the run once it is reached.  A frame that does not qualify deletes the
    window of the camera and reports [detected] false. *)
Theorem lying_window_debounce (cfg : Settings) (mdl : Models) (camera_id : Z) :
  (forall w f0 thr0 rest,
     let calls := (camera_id, f0, thr0) :: rest in
     let run := frames_run cfg mdl calls w in
     let start := window_start w camera_id in
     (forall f thr, (camera_id, f, thr) ∈ calls -> qualifies_lying cfg mdl f = true) ->
     length run.1 = length calls /\
     lying_tracker run.2 !! camera_id = Some start /\
     (forall wb d, (wb, camera_id, d) ∈ run.1 ->
        time_lying (d_lying d) = Some (lying_now wb camera_id - start) /\
        detected (d_lying d) =
          (seconds (LYING_TIME_THRESHOLD cfg) <=? lying_now wb camera_id - start)) /\
     (monotone (clock w) ->
      forall i j wi di wj dj, (i <= j)%nat ->
        run.1 !! i = Some (wi, camera_id, di) ->
        run.1 !! j = Some (wj, camera_id, dj) ->
        detected (d_lying di) = true -> detected (d_lying dj) = true)) /\
  (forall w f thr,
     qualifies_lying cfg mdl f = false ->
     exists d w',
       process_frame cfg mdl camera_id f thr w = (Ok d, w') /\
       lying_tracker w' !! camera_id = None /\
       detected (d_lying d) = false /\ time_lying (d_lying d) = None).
Proof.
  split.
  - intros w f0 thr0 rest calls run start Hq.
    assert (Hrec : lying_tracker run.2 !! camera_id = Some start /\
              forall wb d, (wb, camera_id, d) ∈ run.1 ->
                time_lying (d_lying d) = Some (lying_now wb camera_id - start) /\
                detected (d_lying d) =
                  (seconds (LYING_TIME_THRESHOLD cfg) <=? lying_now wb camera_id - start)).
    { subst run calls.
      destruct (process_frame_lying cfg mdl camera_id f0 thr0 w)
        as (d0 & w' & Hpf & Hclk & Htick & Hoth & Hcam).
      rewrite (frames_run_cons _ _ _ _ _ _ _ _ _ Hpf). cbn [fst snd].
      rewrite (Hq f0 thr0) in Hcam by apply list_elem_of_here.
      destruct Hcam as (Hstart & Hdet & Htl). fold start in Hstart, Hdet, Htl.
      destruct (frames_run_window cfg mdl camera_id rest w' start Hstart) as [Hfin Hrest].
      { intros f thr Hin. apply (Hq f thr). now apply list_elem_of_further. }
      split; [exact Hfin |].
      intros wb d Hin. apply elem_of_cons in Hin as [Heq | Hin].
      - simplify_eq. auto.
      - destruct (Hrest wb d Hin) as (_ & H1 & H2). auto. }
    split; [apply frames_run_length |].
    destruct Hrec as [Hfin Hrec].
    split; [exact Hfin |]. split; [exact Hrec |].
    intros Hmono i j wi di wj dj Hij Hi Hj Hdi.
    destruct (decide (i = j)) as [-> | Hne]; [congruence |].
    assert (Hlt : (tick wi < tick wj)%nat).
    { eapply (frames_run_ordered cfg mdl calls w i j); [lia | exact Hi | exact Hj]. }
    destruct (frames_run_later cfg mdl calls w i _ _ _ Hi) as [Hci _].
    destruct (frames_run_later cfg mdl calls w j _ _ _ Hj) as [Hcj _].
    destruct (Hrec wi di) as [_ Hdi']; [eapply list_elem_of_lookup_2; exact Hi |].
    destruct (Hrec wj dj) as [_ Hdj']; [eapply list_elem_of_lookup_2; exact Hj |].
    rewrite Hdi' in Hdi. rewrite Hdj'.
    apply Z.leb_le in Hdi. apply Z.leb_le.
    assert (Hnow : lying_now wi camera_id <= lying_now wj camera_id).
    { unfold lying_now. rewrite Hci, Hcj.
      destruct (lying_tracker wi !! camera_id), (lying_tracker wj !! camera_id);
        apply Hmono; lia. }
    lia.
  - intros w f thr Hq.
    destruct (process_frame_lying cfg mdl camera_id f thr w)
      as (d & w' & Hpf & _ & _ & _ & Hcam).
    rewrite Hq in Hcam. eauto.
Qed.

Lemma per_second_clock_monotone : monotone per_second_clock.
Proof.
  intros i j Hij. unfold per_second_clock, seconds.
  apply Z.mul_le_mono_nonneg_r; [lia |].
  destruct (Nat.ltb_spec i 3) as [Hi | Hi], (Nat.ltb_spec j 3) as [Hj | Hj].
  - lia.
  - apply Z.div_pos; lia.
  - lia.
  - apply Z.div_le_mono; lia.
Defined.

Lemma lying_window_debounce_witness :
  let run :=
    frames_run default_settings lying_model
      ((1, blank_frame, 10) :: six_lying_frames) (initial_world per_second_clock) in
  length run.1 = 7%nat /\
  lying_tracker run.2 !! 1 = Some 0 /\
  from_option (fun r : World * Z * Detections => detected (d_lying r.2)) false
    (run.1 !! 6%nat) = true.
Proof.
  intros run.
  destruct (proj1 (lying_window_debounce default_settings lying_model 1)
              (initial_world per_second_clock) blank_frame 10 six_lying_frames)
    as (Hlen & Hfin & _ & Hfrom).
  { intros f thr _. reflexivity. }
  split; [exact Hlen |]. split; [exact Hfin |].
  assert (H5 : exists wi di, run.1 !! 5%nat = Some (wi, 1, di) /\
                 detected (d_lying di) = true).
  { vm_compute. do 2 eexists. split; reflexivity. }
  assert (H6 : exists wj dj, run.1 !! 6%nat = Some (wj, 1, dj)).
  { vm_compute. do 2 eexists. reflexivity. }
  destruct H5 as (wi & di & Hi & Hdi), H6 as (wj & dj & Hj).
  rewrite Hj. cbn [from_option snd].
  apply (Hfrom per_second_clock_monotone 5%nat 6%nat wi di wj dj);
    [lia | exact Hi | exact Hj | exact Hdi].
Defined.

(** ** Capture queue *)

Section SourceBuffer.

Variable maxsize : nat.
Hypothesis maxsize_pos : (0 < maxsize)%nat.

(** On a queue within its capacity the put always goes through, after the
    front entry has been taken out when the queue was full. *)
Lemma enqueue_eq fd q :
  (length q <= maxsize)%nat ->
  enqueue maxsize fd q =
    (if FrameQueue.full maxsize q then head q else None, true,
     (if FrameQueue.full maxsize q then tail q else q) ++ [fd]).
Proof.
  intros Hlen. unfold enqueue, FrameQueue.put_nowait.
  destruct (FrameQueue.full maxsize q) eqn:Hfull.
  - unfold FrameQueue.full in Hfull. apply Nat.leb_le in Hfull.
    destruct q as [| old q']; cbn [length] in *; [lia |].
    cbn [FrameQueue.get_nowait head tail].
    replace (FrameQueue.full maxsize q') with false; [reflexivity |].
    symmetry. apply Nat.leb_gt. lia.
  - rewrite Hfull. reflexivity.
Qed.

Lemma enqueue_length fd q :
  (length q <= maxsize)%nat ->
  (length (enqueue maxsize fd q).2 <= maxsize)%nat.
Proof.
  intros Hlen. rewrite enqueue_eq by exact Hlen. cbn [snd].
  rewrite length_app. cbn [length].
  destruct (FrameQueue.full maxsize q) eqn:Hfull; unfold FrameQueue.full in Hfull.
  - destruct q; cbn [tail length] in *; lia.
  - apply Nat.leb_gt in Hfull. lia.
Qed.

Lemma consecutive_tail camera_id q n :
  consecutive (mkWorker camera_id q n) ->
  consecutive (mkWorker camera_id (tail q) n).
Proof.
  unfold consecutive. cbn [wk_queue wk_frame_count]. intros Hc.
  destruct q as [| x q']; [exact Hc |].
  cbn [tail]. rewrite seqZ_cons in Hc by (cbn [length]; lia).
  cbn [fmap list_fmap] in Hc. injection Hc as _ Hc.
  change (list_fmap _ _ fd_frame_number q') with (fd_frame_number <$> q') in Hc.
  rewrite Hc. cbn [length]. f_equal; lia.
Qed.

Lemma consecutive_snoc camera_id q n frame now :
  consecutive (mkWorker camera_id q n) ->
  consecutive (mkWorker camera_id (q ++ [mkFrameData camera_id frame now n]) (n + 1)).
Proof.
  unfold consecutive. cbn [wk_queue wk_frame_count]. intros Hc.
  rewrite fmap_app, Hc, length_app. cbn [length fmap list_fmap fd_frame_number].
  replace (Z.of_nat (length q + 1)) with (Z.of_nat (length q) + 1) by lia.
  rewrite seqZ_app by lia.
  replace (n + 1 - (Z.of_nat (length q) + 1)) with (n - Z.of_nat (length q)) by lia.
  replace (n - Z.of_nat (length q) + Z.of_nat (length q)) with n by lia.
  reflexivity.
Qed.

(** Every state of a worker and its queue that can be reached. *)
Lemma queue_run_inv evs : forall st,
  (length (wk_queue st) <= maxsize)%nat -> consecutive st ->
  (length (wk_queue (queue_run maxsize evs st)) <= maxsize)%nat /\
  consecutive (queue_run maxsize evs st).
Proof.
  induction evs as [| ev rest IH]; intros st Hlen Hc; [auto |].
  cbn [queue_run fold_left]. apply IH.
  - destruct ev as [[frame |] now |]; cbn [queue_step run_iter]; [| exact Hlen |].
    + pose proof (enqueue_length
                    (mkFrameData (wk_camera_id st) frame now (wk_frame_count st))
                    (wk_queue st) Hlen) as Hl.
      rewrite enqueue_eq in * by exact Hlen. exact Hl.
    + cbn [wk_queue]. destruct (wk_queue st); cbn [FrameQueue.get_nowait snd length] in *; lia.
  - destruct st as [camera_id q n]. cbn [wk_queue wk_frame_count wk_camera_id] in *.
    destruct ev as [[frame |] now |]; cbn [queue_step run_iter]; [| exact Hc |].
    + cbn [wk_queue wk_frame_count wk_camera_id].
      rewrite enqueue_eq by exact Hlen.
      destruct (FrameQueue.full maxsize q).
      * apply consecutive_snoc, consecutive_tail, Hc.
      * apply consecutive_snoc, Hc.
    + cbn [wk_queue wk_frame_count wk_camera_id].
      replace (FrameQueue.get_nowait q).2 with (tail q) by (destruct q; reflexivity).
      apply consecutive_tail, Hc.
Qed.

Lemma consecutive_head_lowest st old x :
  consecutive st -> head (wk_queue st) = Some old -> x ∈ wk_queue st ->
  fd_frame_number old <= fd_frame_number x.
Proof.
  unfold consecutive. intros Hc Hhead Hin.
  destruct (wk_queue st) as [| y q'] eqn:Hq; [discriminate |].
  cbn [head] in Hhead. simplify_eq.
  assert (Hx : fd_frame_number x ∈ fd_frame_number <$> (old :: q'))
    by (apply list_elem_of_fmap_2; exact Hin).
  rewrite Hc in Hx. apply elem_of_seqZ in Hx.
  rewrite seqZ_cons in Hc by (cbn [length]; lia).
  cbn [fmap list_fmap] in Hc. injection Hc as Hold _.
  cbn [length] in Hx. lia.
Qed.

End SourceBuffer.

(** C3. For every capacity [K > 0] and every sequence of captures by a
    worker, interleaved with the server taking frames: the queue holds at
    most [K] entries after each one; inserting into the queue reached
    leaves at most [K] entries and always puts the new frame at the back;
    and when the insert takes an entry out, that entry was in the queue
    and no entry of the queue had a lower frame number.  With capacity 3,
    inserting the numbers 1, 2, 3, 4 in order leaves exactly 2, 3, 4. *)
Theorem source_buffer_drop_oldest (maxsize : nat) (Hpos : (0 < maxsize)%nat) :
  (forall camera_id evs fd,
     let st := queue_run maxsize evs (mkWorker camera_id [] 0) in
     (length (wk_queue st) <= maxsize)%nat /\
     (length (enqueue maxsize fd (wk_queue st)).2 <= maxsize)%nat /\
     last (enqueue maxsize fd (wk_queue st)).2 = Some fd /\
     (forall old, (enqueue maxsize fd (wk_queue st)).1.1 = Some old ->
        length (wk_queue st) = maxsize /\
        old ∈ wk_queue st /\
        (forall x, x ∈ wk_queue st -> fd_frame_number old <= fd_frame_number x) /\
        (enqueue maxsize fd (wk_queue st)).2 = tail (wk_queue st) ++ [fd])) /\
  fd_frame_number <$>
    enqueue_all 3 [numbered 1; numbered 2; numbered 3; numbered 4] [] = [2; 3; 4].
Proof.
  split; [| reflexivity].
  intros camera_id evs fd st.
  destruct (queue_run_inv maxsize Hpos evs (mkWorker camera_id [] 0)) as [Hlen Hc].
  { cbn [wk_queue length]. lia. }
  { reflexivity. }
  fold st in Hlen, Hc.
  split; [exact Hlen |]. split; [apply enqueue_length; assumption |].
  rewrite (enqueue_eq maxsize Hpos) by exact Hlen. cbn [fst snd].
  split; [apply last_snoc |].
  intros old Hold.
  destruct (FrameQueue.full maxsize (wk_queue st)) eqn:Hfull; [| discriminate].
  unfold FrameQueue.full in Hfull. apply Nat.leb_le in Hfull.
  split; [lia |]. split; [| split; [| reflexivity]].
  - destruct (wk_queue st); cbn [head] in Hold; simplify_eq. apply list_elem_of_here.
  - intros x Hx. eapply consecutive_head_lowest; eauto.
Qed.

Lemma source_buffer_drop_oldest_witness :
  (length (wk_queue (queue_run 10 [Captured (Some blank_frame) 0; Consumed]
                       (mkWorker 1 [] 0))) <= 10)%nat.
Proof.
  apply (proj1 (source_buffer_drop_oldest 10 ltac:(lia)) 1
           [Captured (Some blank_frame) 0; Consumed] (numbered 0)).
Defined.

(** ** Taking a frame from the queue *)

Lemma get_frame_total camera_id w :
  exists r w', get_frame camera_id w = (Ok r, w').
Proof.
  unfold get_frame, bind, gets, try_except, ret.
  destruct (frame_queues w !! camera_id) as [[| fd q] |] eqn:Hq;
    cbn; rewrite ?Hq; cbn; eauto.
Qed.

Lemma get_frame_none camera_id w :
  frame_queues w !! camera_id = None \/ frame_queues w !! camera_id = Some [] ->
  get_frame camera_id w = (Ok None, w).
Proof.
  unfold get_frame, bind, gets, try_except, ret.
  intros [Hq | Hq]; rewrite Hq; cbn; rewrite ?Hq; reflexivity.
Qed.

Lemma get_frame_front camera_id fd q w :
  frame_queues w !! camera_id = Some (fd :: q) ->
  get_frame camera_id w =
    (Ok (Some fd), set_frame_queues (<[camera_id := q]> (frame_queues w)) w).
Proof.
  unfold get_frame, bind, gets, try_except, ret.
  intros Hq. rewrite Hq. cbn. rewrite Hq. reflexivity.
Qed.

(** C4. [get_frame] never blocks or raises, and answers [None] for an
    unknown camera and for an empty queue; but from a queue that holds
    several frames it takes the front one, which is the oldest: with the
    frames 0 and 1 queued it returns frame 0 and leaves frame 1, the
    newest, in the queue. *)
Theorem get_frame_takes_oldest :
  (forall w camera_id, exists r w', get_frame camera_id w = (Ok r, w')) /\
  (forall w camera_id,
     frame_queues w !! camera_id = None \/ frame_queues w !! camera_id = Some [] ->
     get_frame camera_id w = (Ok None, w)) /\
  (forall w camera_id fd q,
     frame_queues w !! camera_id = Some (fd :: q) ->
     get_frame camera_id w =
       (Ok (Some fd), set_frame_queues (<[camera_id := q]> (frame_queues w)) w)) /\
  (get_frame 1 two_frames_queued).1 = Ok (Some (numbered 0)) /\
  frame_queues (get_frame 1 two_frames_queued).2 !! 1 = Some [numbered 1].
Proof.
  split; [intros; apply get_frame_total |].
  split; [intros; now apply get_frame_none |].
  split; [intros; now apply get_frame_front |].
  split; reflexivity.
Qed.

Lemma get_frame_takes_oldest_witness :
  get_frame 1 two_frames_queued =
    (Ok (Some (numbered 0)),
     set_frame_queues (<[1 := [numbered 1]]> (frame_queues two_frames_queued))
       two_frames_queued).
Proof.
  apply (proj1 (proj2 (proj2 get_frame_takes_oldest))). reflexivity.
Defined.

(** ** Pushing on the first frame *)

(** A detector that has seen no frame at all reports nothing. *)
Lemma detect_pushing_no_previous mdl frame w :
  prev_frame w = None ->
  exists w', detect_pushing mdl frame w = (Ok (false, 0 # 1, []), w').
Proof.
  unfold detect_pushing, try_except, bind, gets, modify, ret, raise.
  intros Hprev. destruct (mp_pose_raises mdl frame); cbn; rewrite ?Hprev; eauto.
Qed.

(** C5. The pushing detector keeps one previous frame for all cameras.
    With camera 1 and camera 2 showing different scenes, the first frame
    ever evaluated for camera 2, coming after a frame of camera 1, is
    compared with that frame of camera 1 and reported as pushing with
    confidence 1; only the first frame of the whole service is reported
    with [detected] false and confidence 0. *)
Theorem pushing_first_frame_of_second_camera :
  (fun r : World * Z * Detections =>
     (r.1.2, detected (d_pushing r.2), confidence (d_pushing r.2))) <$>
    (frames_run default_settings two_scenes_model
       [(1, scene_a, 10); (2, scene_b, 10)] (initial_world (fun _ => 0))).1
  = [(1, false, 0 # 1); (2, true, 1 # 1)].
Proof. vm_compute. reflexivity. Qed.

(** ** Broadcast *)

Module BroadcastProofs.
Import Websocket.

Section Broadcast.

Variable send_fails : nat -> bool.
Variable message : Message.

Local Abbreviation failing := (fun c : nat => send_fails c = true).
Local Abbreviation alive := (fun c : nat => send_fails c = false).

Lemma send_all_acc conns : forall dis rcv,
  fold_left
    (fun (acc : list nat * list (nat * Message)) connection =>
       if send_fails connection then (acc.1 ++ [connection], acc.2)
       else (acc.1, acc.2 ++ [(connection, message)]))
    conns (dis, rcv)
  = (dis ++ filter failing conns,
     rcv ++ ((fun c => (c, message)) <$> filter alive conns)).
Proof.
  induction conns as [| c conns IH]; intros dis rcv; cbn [fold_left].
  - rewrite !filter_nil. cbn. now rewrite !app_nil_r.
  - destruct (send_fails c) eqn:Hc; rewrite IH; cbn [fst snd].
    + rewrite (filter_cons_True failing) by exact Hc.
      rewrite (filter_cons_False alive) by congruence.
      now rewrite <- app_assoc.
    + rewrite (filter_cons_False failing) by congruence.
      rewrite (filter_cons_True alive) by exact Hc.
      cbn [fmap list_fmap]. now rewrite <- app_assoc.
Qed.

Lemma send_all_eq conns rcv :
  send_all send_fails message conns rcv =
    (filter failing conns, rcv ++ ((fun c => (c, message)) <$> filter alive conns)).
Proof. unfold send_all. now rewrite send_all_acc. Qed.

Lemma list_remove_middle x p l :
  x ∉ p -> list_remove x (p ++ x :: l) = p ++ l.
Proof.
  induction p as [| y p IH]; intros Hx; cbn [app list_remove].
  - now rewrite decide_True.
  - rewrite decide_False by (intros ->; apply Hx, list_elem_of_here).
    rewrite IH; [reflexivity |].
    intros Hin. apply Hx. now apply list_elem_of_further.
Qed.

(** Removing the connections that failed, one occurrence for each
    failure, leaves the connections that did not fail, in order. *)
Lemma remove_disconnected_acc l : forall p,
  Forall alive p ->
  remove_disconnected (filter failing l) (p ++ l) = p ++ filter alive l.
Proof.
  induction l as [| c l IH]; intros p Hp.
  - reflexivity.
  - destruct (send_fails c) eqn:Hc.
    + rewrite (filter_cons_True failing) by exact Hc.
      rewrite (filter_cons_False alive) by congruence.
      unfold remove_disconnected. cbn [fold_left].
      rewrite decide_True by (apply elem_of_app; right; apply list_elem_of_here).
      rewrite list_remove_middle.
      * apply IH, Hp.
      * intros Hin. rewrite Forall_forall in Hp. specialize (Hp c Hin).
        cbn in Hp. congruence.
    + rewrite (filter_cons_False failing) by congruence.
      rewrite (filter_cons_True alive) by exact Hc.
      replace (p ++ c :: l) with ((p ++ [c]) ++ l) by now rewrite <- app_assoc.
      rewrite IH; [now rewrite <- app_assoc |].
      apply Forall_app; split; [exact Hp |]. now constructor.
Qed.

Lemma broadcast_eq hub :
  broadcast send_fails message hub =
    mkHub (filter alive (active_connections hub))
      (received hub ++
       ((fun c => (c, message)) <$> filter alive (active_connections hub))).
Proof.
  unfold broadcast. rewrite send_all_eq.
  pose proof (remove_disconnected_acc (active_connections hub) [] (Forall_nil_2 _)) as H.
  cbn [app] in H. now rewrite H.
Qed.

End Broadcast.

(** C9. For every broadcast: every registered connection whose send
    succeeds receives the message; the registry afterwards is the registry
    before without the connections whose send failed, in the same order;
    the message is delivered to the succeeding connections and to no
    other; and the next broadcast delivers only to connections that
    survived the first. *)
Theorem broadcast_prunes_failed (send_fails : nat -> bool) (message : Message)
  (hub : Hub) :
  let hub' := broadcast send_fails message hub in
  (forall c, c ∈ active_connections hub -> send_fails c = false ->
     (c, message) ∈ received hub') /\
  active_connections hub' =
    filter (fun c => send_fails c = false) (active_connections hub) /\
  received hub' =
    received hub ++
    ((fun c => (c, message)) <$>
       filter (fun c => send_fails c = false) (active_connections hub)) /\
  (forall send_fails' message',
     exists delivered,
       received (broadcast send_fails' message' hub') =
         received hub' ++ ((fun c => (c, message')) <$> delivered) /\
       forall c, c ∈ delivered ->
         c ∈ active_connections hub /\ send_fails c = false /\ send_fails' c = false).
Proof.
  intros hub'. subst hub'. rewrite broadcast_eq. cbn [active_connections received].
  split; [| split; [reflexivity | split; [reflexivity |]]].
  - intros c Hin Hok. apply elem_of_app. right.
    apply (list_elem_of_fmap_2 (fun c => (c, message))).
    apply list_elem_of_filter. auto.
  - intros send_fails' message'. rewrite broadcast_eq. cbn [active_connections received].
    eexists. split; [reflexivity |].
    intros c Hc. apply list_elem_of_filter in Hc as [Hok' Hc].
    apply list_elem_of_filter in Hc as [Hok Hc]. auto.
Qed.

(** The scenario of the design document: three subscribers, the send to
    the second fails; 1 and 3 receive the event, 2 is removed, and the
    next broadcast goes to 1 and 3 only. *)
Lemma broadcast_prunes_failed_witness :
  (1%nat, alert_message) ∈ received (broadcast second_fails alert_message three_subscribers) /\
  active_connections (broadcast second_fails alert_message three_subscribers) = [1; 3]%nat /\
  received (broadcast (fun _ => false) alert_message
              (broadcast second_fails alert_message three_subscribers)) =
    [(1, alert_message); (3, alert_message); (1, alert_message); (3, alert_message)]%nat.
Proof.
  split; [| split].
  - apply (proj1 (broadcast_prunes_failed second_fails alert_message three_subscribers) 1%nat).
    + apply list_elem_of_here.
    + reflexivity.
  - reflexivity.
  - reflexivity.
Defined.

End BroadcastProofs.

(** ** Alert pipeline *)

(** The same by call-by-value, for chains of updates. *)
Ltac wcbv :=
  cbv beta iota delta
    [set_tick set_last_alerts set_frame_buffers set_lying_tracker
     set_prev_frame set_frame_counter set_frame_queues set_db_alerts
     set_db_pending set_outbox set_files set_log
     clock tick last_alerts frame_buffers smtp_configured lying_tracker
     prev_frame frame_counter frame_queues db_cameras db_alerts db_pending
     outbox files log negb andb orb fst snd].

Ltac wcbv_in H :=
  cbv beta iota delta
    [set_tick set_last_alerts set_frame_buffers set_lying_tracker
     set_prev_frame set_frame_counter set_frame_queues set_db_alerts
     set_db_pending set_outbox set_files set_log
     clock tick last_alerts frame_buffers smtp_configured lying_tracker
     prev_frame frame_counter frame_queues db_cameras db_alerts db_pending
     outbox files log negb andb orb fst snd] in H.


Section AlertPipeline.

Variable cfg : Settings.

Lemma should_send_alert_accepts camera_id alert_type w :
  (should_send_alert cfg camera_id alert_type w).1 = Ok true ->
  exists n t,
    should_send_alert cfg camera_id alert_type w =
      (Ok true,
       set_last_alerts (<[(camera_id, alert_type) := t]> (last_alerts w)) (set_tick n w)) /\
    (tick w < n)%nat.
Proof.
  intros H.
  destruct (last_alerts w !! (camera_id, alert_type)) as [last |] eqn:Hlk.
  - rewrite (should_send_alert_again cfg _ _ _ _ Hlk) in *.
    destruct (seconds (ALERT_COOLDOWN_SECONDS cfg) <=? clock w (tick w) - last);
      [| discriminate].
    do 2 eexists. split; [reflexivity | lia].
  - rewrite (should_send_alert_first cfg _ _ _ Hlk).
    do 2 eexists. split; [reflexivity | lia].
Qed.

Lemma should_send_alert_rejects camera_id alert_type w :
  (should_send_alert cfg camera_id alert_type w).1 = Ok false ->
  should_send_alert cfg camera_id alert_type w = (Ok false, set_tick (S (tick w)) w).
Proof.
  intros H.
  destruct (last_alerts w !! (camera_id, alert_type)) as [last |] eqn:Hlk.
  - rewrite (should_send_alert_again cfg _ _ _ _ Hlk) in *.
    destruct (seconds (ALERT_COOLDOWN_SECONDS cfg) <=? clock w (tick w) - last);
      [discriminate | reflexivity].
  - rewrite (should_send_alert_first cfg _ _ _ Hlk) in H. discriminate.
Qed.

Lemma flush_snoc pending : forall table r,
  flush table (pending ++ [r]) =
    flush table pending ++ [with_id (Z.of_nat (length (flush table pending)) + 1) r].
Proof.
  induction pending as [| p pending IH]; intros table r; [reflexivity |].
  cbn [app flush]. apply IH.
Qed.

Lemma length_flush pending : forall table,
  length (flush table pending) = (length table + length pending)%nat.
Proof.
  induction pending as [| p pending IH]; intros table; cbn [flush length]; [lia |].
  rewrite IH, length_app. cbn [length]. lia.
Qed.

(** [generate_clip] returns false when the clip cannot be made, and then
    only writes to the log. *)
Lemma generate_clip_fails flt camera_id path w w0 :
  clip_fails cfg flt w camera_id = true ->
  frame_buffers w0 = frame_buffers w ->
  exists l,
    generate_clip flt camera_id path (VIDEO_CLIP_DURATION cfg) w0 =
      (Ok false, set_log (log w0 ++ l) w0).
Proof.
  unfold clip_fails, generate_clip, bind, gets, try_except, logger, modify, ret, raise.
  intros Hclip Hbuf. rewrite Hbuf.
  destruct (frame_buffers w !! camera_id) as [[| b frames] |]; [eauto | | eauto].
  destruct (slice_last (VIDEO_CLIP_DURATION cfg * 30) (b :: frames)).
  - exists []. rewrite app_nil_r. destruct w0; reflexivity.
  - rewrite Hclip. eauto.
Qed.

(** In general it returns, and touches only the storage and the log. *)
Lemma generate_clip_frame flt camera_id path duration w0 :
  exists b fs l,
    generate_clip flt camera_id path duration w0 =
      (Ok b, set_log (log w0 ++ l) (set_files (files w0 ++ fs) w0)).
Proof.
  unfold generate_clip, bind, gets, try_except, logger, modify, ret, raise.
  destruct (frame_buffers w0 !! camera_id) as [[| b frames] |].
  - exists false, [], [LogNoFrames camera_id]. wcbv. now rewrite app_nil_r.
  - destruct (slice_last (duration * 30) (b :: frames)).
    + exists false, [], []. wcbv. rewrite !app_nil_r. destruct w0; reflexivity.
    + destruct (writer_raises flt).
      * exists false, [], [LogClipError CvError]. wcbv. now rewrite app_nil_r.
      * exists true, [path], [LogClipGenerated path]. reflexivity.
  - exists false, [], [LogNoFrames camera_id]. wcbv. now rewrite app_nil_r.
Qed.

Lemma create_alert_suppressed flt camera_id alert_type conf frame meta w :
  (should_send_alert cfg camera_id (alert_value alert_type) w).1 = Ok false ->
  create_alert cfg flt camera_id alert_type conf frame meta w =
    (Ok None,
     set_log (log w ++ [LogSuppressed camera_id alert_type]) (set_tick (S (tick w)) w)).
Proof.
  intros H. apply should_send_alert_rejects in H.
  unfold create_alert. unfold bind at 1. rewrite H. reflexivity.
Qed.

(** A clip that cannot be made leaves the rest of the pipeline as it is:
    the alert is committed, without a video path. *)
Lemma create_alert_without_clip flt camera_id alert_type conf frame meta w camera :
  (should_send_alert cfg camera_id (alert_value alert_type) w).1 = Ok true ->
  db_cameras w !! camera_id = Some camera ->
  query_raises flt = false -> storage_raises flt = false ->
  valid_confidence conf = true -> commit_raises flt = false ->
  clip_fails cfg flt w camera_id = true ->
  exists res w' row,
    create_alert cfg flt camera_id alert_type conf frame meta w = (res, w') /\
    last (db_alerts w') = Some row /\
    length (db_alerts w') = S (length (db_alerts w) + length (db_pending w)) /\
    al_camera_id row = camera_id /\ al_alert_type row = alert_type /\
    al_confidence row = conf /\ al_video_path row = None /\
    (refresh_raises flt = false -> commit2_raises flt = false ->
     res = Ok (Some row)).
Proof.
  intros Hgate Hcam Hq Hs Hv Hc Hclip.
  destruct (should_send_alert_accepts _ _ _ Hgate) as (n & t & Hsend & Hn).
  unfold create_alert. unfold bind at 1. rewrite Hsend. clear Hgate Hsend.
  unfold try_except, db_query_camera. rewrite Hq.
  unfold bind, gets, ret, utcnow, imwrite, logger, modify. rewrite Hs.
  destruct w as [clk tk la fb smtp lt pf fc fq cams alerts pend ob fl lg].
  wcbv. wcbv_in Hcam. rewrite Hcam. wcbv.
  match goal with |- context [generate_clip flt camera_id ?p _ ?w0] =>
    destruct (generate_clip_fails flt camera_id p _ w0 Hclip eq_refl) as [l ->] end.
  unfold AlertCreate. fold (valid_confidence conf). rewrite Hv.
  unfold db_add, db_commit, modify, ret. rewrite Hc. wcbv.
  unfold db_refresh, send_alert_email, db_commit_email_sent, cleanup_old_entries,
    db_rollback, try_except, bind, gets, utcnow, logger, modify, raise, ret.
  wcbv. rewrite flush_snoc.
  destruct (refresh_raises flt), (rollback_raises flt), smtp,
    (smtp_raises flt), (commit2_raises flt);
    wcbv; rewrite ?last_snoc; wcbv;
    (do 3 eexists; split; [reflexivity |]; wcbv;
     rewrite ?fmap_last, ?last_snoc, ?length_fmap, ?length_app, ?length_flush;
     cbn [fmap option_fmap option_map with_id with_email_sent al_id al_camera_id
          al_alert_type al_confidence al_video_path length];
     rewrite ?Z.eqb_refl;
     repeat split; try reflexivity; try lia; try discriminate).
Qed.

(** A commit that raises is caught: the session is rolled back, the
    error is logged and no alert is returned. *)
Lemma create_alert_commit_fails flt camera_id alert_type conf frame meta w camera :
  (should_send_alert cfg camera_id (alert_value alert_type) w).1 = Ok true ->
  db_cameras w !! camera_id = Some camera ->
  query_raises flt = false -> storage_raises flt = false ->
  valid_confidence conf = true ->
  commit_raises flt = true -> rollback_raises flt = false ->
  exists w',
    create_alert cfg flt camera_id alert_type conf frame meta w = (Ok None, w') /\
    db_alerts w' = db_alerts w /\ db_pending w' = [] /\ outbox w' = outbox w /\
    last (log w') = Some (LogErrorCreatingAlert DbError).
Proof.
  intros Hgate Hcam Hq Hs Hv Hc Hr.
  destruct (should_send_alert_accepts _ _ _ Hgate) as (n & t & Hsend & Hn).
  unfold create_alert. unfold bind at 1. rewrite Hsend. clear Hgate Hsend.
  unfold try_except, db_query_camera. rewrite Hq.
  unfold bind, gets, ret, utcnow, imwrite, logger, modify. rewrite Hs.
  destruct w as [clk tk la fb smtp lt pf fc fq cams alerts pend ob fl lg].
  wcbv. wcbv_in Hcam. rewrite Hcam. wcbv.
  match goal with |- context [generate_clip flt camera_id ?p ?d ?w0] =>
    destruct (generate_clip_frame flt camera_id p d w0) as (b & fs & l & ->) end.
  unfold AlertCreate. fold (valid_confidence conf). rewrite Hv.
  unfold db_add, db_commit, db_rollback, modify, raise, ret. rewrite Hc, Hr. wcbv.
  eexists. split; [reflexivity |]. wcbv.
  repeat split; try reflexivity. apply last_snoc.
Qed.

End AlertPipeline.

(** C6. Whenever the cooldown gate rejects the key, [create_alert]
    returns [None] and changes nothing outside the process or in the
    pipeline: no row is committed or pending, no mail is sent, no file is
    written, and the cooldown entries and the frame buffers are as before;
    only the suppression is logged. *)
Theorem suppressed_alert_is_noop (cfg : Settings) (flt : Faults) (camera_id : Z)
  (alert_type : AlertType) (conf : Q) (frame : Frame) (meta : list string) (w : World) :
  (should_send_alert cfg camera_id (alert_value alert_type) w).1 = Ok false ->
  exists w',
    create_alert cfg flt camera_id alert_type conf frame meta w = (Ok None, w') /\
    db_alerts w' = db_alerts w /\ db_pending w' = db_pending w /\
    outbox w' = outbox w /\ files w' = files w /\
    last_alerts w' = last_alerts w /\ frame_buffers w' = frame_buffers w /\
    log w' = log w ++ [LogSuppressed camera_id alert_type].
Proof.
  intros H. rewrite (create_alert_suppressed cfg flt _ _ _ _ _ _ H).
  eexists. split; [reflexivity |]. wcbv. auto 10.
Qed.

Lemma suppressed_alert_is_noop_witness :
  exists w',
    create_alert default_settings no_faults 1 FALL (9 # 10) blank_frame []
      after_first_fall = (Ok None, w') /\
    db_alerts w' = db_alerts after_first_fall /\
    db_pending w' = db_pending after_first_fall /\
    outbox w' = outbox after_first_fall /\ files w' = files after_first_fall /\
    last_alerts w' = last_alerts after_first_fall /\
    frame_buffers w' = frame_buffers after_first_fall /\
    log w' = log after_first_fall ++ [LogSuppressed 1 FALL].
Proof.
  apply (suppressed_alert_is_noop default_settings no_faults 1 FALL (9 # 10)
           blank_frame [] after_first_fall).
  vm_compute. reflexivity.
Defined.

(** C7. For every detection that the gate accepts, for a camera that is
    in the table, with the image saved, the confidence valid and the
    commit going through: when the clip cannot be made (empty ring or
    encoder failure) the alert is still built and committed as the last
    row of the table, with no video path; and it is the value returned
    when the later session calls do not raise. *)
Theorem clip_failure_keeps_alert (cfg : Settings) (flt : Faults) (camera_id : Z)
  (alert_type : AlertType) (conf : Q) (frame : Frame) (meta : list string)
  (w : World) (camera : CameraRow) :
  (should_send_alert cfg camera_id (alert_value alert_type) w).1 = Ok true ->
  db_cameras w !! camera_id = Some camera ->
  query_raises flt = false -> storage_raises flt = false ->
  valid_confidence conf = true -> commit_raises flt = false ->
  clip_fails cfg flt w camera_id = true ->
  exists res w' row,
    create_alert cfg flt camera_id alert_type conf frame meta w = (res, w') /\
    last (db_alerts w') = Some row /\
    length (db_alerts w') = S (length (db_alerts w) + length (db_pending w)) /\
    al_camera_id row = camera_id /\ al_alert_type row = alert_type /\
    al_confidence row = conf /\ al_video_path row = None /\
    (refresh_raises flt = false -> commit2_raises flt = false ->
     res = Ok (Some row)).
Proof. apply create_alert_without_clip. Qed.

Lemma clip_failure_keeps_alert_witness :
  exists res w' row,
    create_alert default_settings no_faults 1 FALL (9 # 10) blank_frame []
      (one_camera_world scenario_clock) = (res, w') /\
    last (db_alerts w') = Some row /\
    length (db_alerts w') = 1%nat /\
    al_camera_id row = 1 /\ al_alert_type row = FALL /\
    al_confidence row = 9 # 10 /\ al_video_path row = None /\
    (refresh_raises no_faults = false -> commit2_raises no_faults = false ->
     res = Ok (Some row)).
Proof.
  apply (clip_failure_keeps_alert default_settings no_faults 1 FALL (9 # 10)
           blank_frame [] (one_camera_world scenario_clock) schoolyard);
    vm_compute; reflexivity.
Defined.

(** ** Failures stay inside the pipeline *)

Lemma try_except_total {A} (body : M A) (handler : exn -> M A) w :
  (forall e w1, exists a w2, handler e w1 = (Ok a, w2)) ->
  exists a w', try_except body handler w = (Ok a, w').
Proof.
  intros Hh. unfold try_except.
  destruct (body w) as [[a | e] w1]; [eauto | apply Hh].
Qed.

Lemma _process_camera_total cfg mdl pf camera_id w :
  exists w', _process_camera cfg mdl pf camera_id w = (Ok tt, w').
Proof.
  unfold _process_camera.
  match goal with |- context [try_except ?b ?h w] =>
    destruct (try_except_total b h w) as ([] & w' & ->) end.
  - intros e w1. unfold logger, modify. eauto.
  - eauto.
Qed.

Lemma process_cameras_total cfg mdl pf cams : forall w,
  exists w', process_cameras cfg mdl pf cams w = (Ok tt, w').
Proof.
  induction cams as [| c cams IH]; intros w; cbn [process_cameras].
  - unfold ret. eauto.
  - unfold bind. destruct (_process_camera_total cfg mdl (pf c) c w) as (w1 & ->).
    apply IH.
Qed.

Lemma process_cameras_app cfg mdl pf cams1 cams2 : forall w,
  process_cameras cfg mdl pf (cams1 ++ cams2) w =
    process_cameras cfg mdl pf cams2 (process_cameras cfg mdl pf cams1 w).2.
Proof.
  induction cams1 as [| c cams1 IH]; intros w; cbn [app process_cameras].
  - reflexivity.
  - unfold bind. destruct (_process_camera_total cfg mdl (pf c) c w) as (w1 & ->).
    apply IH.
Qed.

(** After a write that the store rejected, the next frame of the same
    camera is sampled and evaluated: both frames are counted, nothing is
    stored, and the failure is in the log. *)
Example processing_continues_after_store_failure :
  let w :=
    (process_cameras default_settings fall_model (fun _ => fall_store_down) [1; 1]
       two_sampled_frames).2 in
  frame_counter w !! 1 = Some 2 /\ db_alerts w = [] /\ db_pending w = [] /\
  log w =
    [LogSavedImage (ImagePath 1 FALL 61000000);
     LogClipGenerated (VideoPath 1 FALL 61000000);
     LogErrorCreatingAlert DbError; LogSuppressed 1 FALL].
Proof. vm_compute. auto. Qed.

(** ** Cooldown after a failed alert *)

Section CooldownAfterFailure.

Variable cfg : Settings.

(** A key stamped less than a window ago is suppressed. *)
Lemma create_alert_within_window flt camera_id alert_type conf frame meta w t :
  last_alerts w !! (camera_id, alert_value alert_type) = Some t ->
  clock w (tick w) - t < seconds (ALERT_COOLDOWN_SECONDS cfg) ->
  exists w',
    create_alert cfg flt camera_id alert_type conf frame meta w = (Ok None, w') /\
    db_alerts w' = db_alerts w /\ outbox w' = outbox w /\
    last_alerts w' = last_alerts w /\
    last (log w') = Some (LogSuppressed camera_id alert_type).
Proof.
  intros Hlk Hlt.
  rewrite create_alert_suppressed.
  - eexists. split; [reflexivity |]. wcbv. repeat split. apply last_snoc.
  - rewrite (should_send_alert_again cfg _ _ _ _ Hlk).
    replace (seconds (ALERT_COOLDOWN_SECONDS cfg) <=? clock w (tick w) - t) with false;
      [reflexivity |].
    symmetry. apply Z.leb_gt. exact Hlt.
Qed.

(** An accepted call that stores no alert leaves the stamp of the gate. *)
Lemma create_alert_keeps_stamp flt camera_id alert_type conf frame meta w :
  (should_send_alert cfg camera_id (alert_value alert_type) w).1 = Ok true ->
  query_raises flt = true \/ db_cameras w !! camera_id = None \/
    commit_raises flt = true ->
  exists res w',
    create_alert cfg flt camera_id alert_type conf frame meta w = (res, w') /\
    (rollback_raises flt = false -> res = Ok None) /\
    db_alerts w' = db_alerts w /\ outbox w' = outbox w /\
    clock w' = clock w /\
    last_alerts w' =
      last_alerts (should_send_alert cfg camera_id (alert_value alert_type) w).2.
Proof.
  intros Hgate Hfail.
  destruct (should_send_alert_accepts _ _ _ _ Hgate) as (n & t & Hsend & Hn).
  unfold create_alert. unfold bind at 1. rewrite Hsend. clear Hgate Hsend.
  unfold try_except, db_query_camera.
  unfold bind, gets, ret, raise, utcnow, imwrite, logger, modify, db_rollback.
  destruct w as [clk tk la fb smtp lt pf fc fq cams alerts pend ob fl lg].
  wcbv. wcbv_in Hfail.
  destruct (query_raises flt) eqn:Hq.
  { destruct (rollback_raises flt); wcbv;
      do 2 eexists; (split; [reflexivity |]); wcbv;
      repeat split; try reflexivity; discriminate. }
  wcbv. destruct (cams !! camera_id) as [camera |] eqn:Hcam.
  2: { wcbv. do 2 eexists. split; [reflexivity |]. wcbv. repeat split; reflexivity. }
  assert (Hc : commit_raises flt = true) by (destruct Hfail as [? | [? | ?]]; congruence).
  wcbv. destruct (storage_raises flt).
  { destruct (rollback_raises flt); wcbv;
      do 2 eexists; (split; [reflexivity |]); wcbv;
      repeat split; try reflexivity; discriminate. }
  wcbv.
  match goal with |- context [generate_clip flt camera_id ?p ?d ?w0] =>
    destruct (generate_clip_frame flt camera_id p d w0) as (b & fs & l & ->) end.
  unfold AlertCreate, db_add, db_commit, modify, raise, ret. rewrite Hc.
  destruct (Qle_bool (0 # 1) conf && Qle_bool conf (1 # 1)), (rollback_raises flt);
    wcbv; do 2 eexists; (split; [reflexivity |]); wcbv;
    repeat split; try reflexivity; discriminate.
Qed.

End CooldownAfterFailure.

(** C10. In every call of [create_alert] that passes the cooldown check,
    the gate stamps the key before anything else is tried.  When the
    camera lookup raises or finds no camera, or the commit raises, no
    alert is stored and no mail is sent, the call returns [None] (the
    rollback not raising), and the cooldown entries stay exactly as the
    gate left them, with the stamp of the key; a later detection of the
    same key less than a cooldown window after the stamp is suppressed,
    again with nothing stored. *)
Theorem cooldown_kept_when_no_alert_stored (cfg : Settings) (flt : Faults)
  (camera_id : Z) (alert_type : AlertType) (conf : Q) (frame : Frame)
  (meta : list string) (w : World) :
  (should_send_alert cfg camera_id (alert_value alert_type) w).1 = Ok true ->
  query_raises flt = true \/ db_cameras w !! camera_id = None \/
    commit_raises flt = true ->
  exists res w' t,
    create_alert cfg flt camera_id alert_type conf frame meta w = (res, w') /\
    (rollback_raises flt = false -> res = Ok None) /\
    db_alerts w' = db_alerts w /\ outbox w' = outbox w /\
    last_alerts w' =
      last_alerts (should_send_alert cfg camera_id (alert_value alert_type) w).2 /\
    last_alerts w' !! (camera_id, alert_value alert_type) = Some t /\
    forall flt' conf' frame' meta',
      clock w' (tick w') - t < seconds (ALERT_COOLDOWN_SECONDS cfg) ->
      exists w'',
        create_alert cfg flt' camera_id alert_type conf' frame' meta' w' = (Ok None, w'') /\
        db_alerts w'' = db_alerts w /\ outbox w'' = outbox w /\
        last (log w'') = Some (LogSuppressed camera_id alert_type).
Proof.
  intros Hgate Hfail.
  destruct (create_alert_keeps_stamp cfg flt camera_id alert_type conf frame meta w
              Hgate Hfail) as (res & w' & Hcall & Hres & Hdb & Hout & Hclk & Hla).
  destruct (should_send_alert_accepts _ _ _ _ Hgate) as (n & t & Hsend & Hn).
  assert (Hlk : last_alerts w' !! (camera_id, alert_value alert_type) = Some t).
  { rewrite Hla, Hsend. cbn [snd]. wcbv. apply lookup_insert_eq. }
  exists res, w', t. repeat (split; [assumption |]).
  intros flt' conf' frame' meta' Hlt.
  destruct (create_alert_within_window cfg flt' camera_id alert_type conf' frame' meta'
              w' t Hlk Hlt) as (w'' & Hcall' & Hdb' & Hout' & _ & Hlog).
  exists w''. rewrite Hdb', Hout'. auto.
Qed.

(** The store is down when a fall is detected; the fall detected again
    within the same second is suppressed although no alert was ever
    stored. *)
Lemma cooldown_kept_when_no_alert_stored_witness :
  exists res w' t,
    create_alert default_settings store_down 1 FALL (9 # 10) blank_frame []
      (one_camera_world per_second_clock) = (res, w') /\
    res = Ok None /\ db_alerts w' = [] /\ t = 0 /\
    exists w'',
      create_alert default_settings no_faults 1 FALL (9 # 10) blank_frame [] w'
        = (Ok None, w'') /\
      db_alerts w'' = [] /\ last (log w'') = Some (LogSuppressed 1 FALL).
Proof.
  destruct (cooldown_kept_when_no_alert_stored default_settings store_down 1 FALL
              (9 # 10) blank_frame [] (one_camera_world per_second_clock))
    as (res & w' & t & Hcall & Hres & Hdb & Hout & Hla & Hlk & Hnext).
  - vm_compute. reflexivity.
  - right. right. reflexivity.
  - assert (Hw' : w' = (create_alert default_settings store_down 1 FALL (9 # 10)
                          blank_frame [] (one_camera_world per_second_clock)).2)
      by (rewrite Hcall; reflexivity).
    assert (Ht : t = 0).
    { rewrite Hla in Hlk. vm_compute in Hlk. congruence. }
    exists res, w', t. split; [exact Hcall |]. split; [apply Hres; reflexivity |].
    split; [exact Hdb |]. split; [exact Ht |].
    destruct (Hnext no_faults (9 # 10) blank_frame []) as (w'' & H1 & H2 & _ & H3).
    + rewrite Ht, Hw'. vm_compute. reflexivity.
    + exists w''. auto.
Defined.

(** * Further properties of the code *)

(** ** Purging the cooldown entries *)

(** X1. Purging never changes the verdict of the gate: with a cooldown
    that is not negative and a clock that does not run backwards, the next
    call of [should_send_alert] for any key answers the same after
    [cleanup_old_entries] as it would have answered at that moment without
    it.  The entries purged are those a call would accept anyway. *)
Theorem cleanup_keeps_verdict (cfg : Settings) (w : World) (camera_id : Z)
  (alert_type : string) :
  0 <= ALERT_COOLDOWN_SECONDS cfg ->
  monotone (clock w) ->
  (should_send_alert cfg camera_id alert_type (cleanup_old_entries cfg w).2).1 =
  (should_send_alert cfg camera_id alert_type (set_tick (S (tick w)) w)).1.
Proof.
  intros Hcd Hmono. rewrite cleanup_old_entries_eq. cbn [snd].
  set (cutoff := clock w (tick w) - seconds (ALERT_COOLDOWN_SECONDS cfg * 2)).
  set (w1 := set_last_alerts _ _). set (w2 := set_tick _ w).
  pose proof (Hmono (tick w) (S (tick w)) ltac:(lia)) as Hm.
  destruct (last_alerts w !! (camera_id, alert_type)) as [t |] eqn:Hlk.
  - assert (H2 : last_alerts w2 !! (camera_id, alert_type) = Some t) by exact Hlk.
    rewrite (should_send_alert_again cfg _ _ _ _ H2).
    destruct (decide (t < cutoff)) as [Hold | Hkeep].
    + assert (H1 : last_alerts w1 !! (camera_id, alert_type) = None).
      { subst w1. wsimpl. apply map_lookup_filter_None_2. right.
        intros x Hx. rewrite Hlk in Hx. simplify_eq. cbn [snd]. tauto. }
      rewrite (should_send_alert_first cfg _ _ _ H1).
      subst w2 cutoff. wsimpl.
      replace (seconds (ALERT_COOLDOWN_SECONDS cfg) <=? clock w (S (tick w)) - t)
        with true; [reflexivity |].
      symmetry. apply Z.leb_le. unfold seconds in *. lia.
    + assert (H1 : last_alerts w1 !! (camera_id, alert_type) = Some t).
      { subst w1. wsimpl. now apply map_lookup_filter_Some_2. }
      rewrite (should_send_alert_again cfg _ _ _ _ H1).
      subst w1 w2. wsimpl.
      destruct (seconds (ALERT_COOLDOWN_SECONDS cfg) <=? clock w (S (tick w)) - t);
        reflexivity.
  - assert (H2 : last_alerts w2 !! (camera_id, alert_type) = None) by exact Hlk.
    assert (H1 : last_alerts w1 !! (camera_id, alert_type) = None).
    { subst w1. wsimpl. apply map_lookup_filter_None_2. now left. }
    rewrite (should_send_alert_first cfg _ _ _ H1),
      (should_send_alert_first cfg _ _ _ H2). reflexivity.
Qed.

Lemma cleanup_keeps_verdict_witness :
  (should_send_alert default_settings 1 "fall"
     (cleanup_old_entries default_settings
        (should_send_alert default_settings 1 "fall"
           (one_camera_world per_second_clock)).2).2).1 = Ok false.
Proof.
  rewrite (cleanup_keeps_verdict default_settings
             (should_send_alert default_settings 1 "fall"
                (one_camera_world per_second_clock)).2 1 "fall").
  - vm_compute. reflexivity.
  - vm_compute. discriminate.
  - exact per_second_clock_monotone.
Defined.

(** ** The evidence buffer *)

Lemma add_frame_eq camera_id frame timestamp w :
  add_frame camera_id frame timestamp w =
    (Ok tt,
     set_frame_buffers
       (<[camera_id :=
            let buf := default [] (frame_buffers w !! camera_id) ++
                       [mkBuffered frame timestamp] in
            if (max_buffer_size <? length buf)%nat then tail buf else buf]>
          (frame_buffers w)) w).
Proof. reflexivity. Qed.

Lemma add_frames_buffer camera_id calls : forall w,
  (length (default [] (frame_buffers w !! camera_id)) <= max_buffer_size)%nat ->
  let all := default [] (frame_buffers w !! camera_id) ++ entries_of camera_id calls in
  default [] (frame_buffers (add_frames calls w) !! camera_id) =
    drop (length all - max_buffer_size) all.
Proof.
  induction calls as [| [[c f] t] rest IH]; intros w Hlen; cbn zeta.
  - unfold entries_of. rewrite filter_nil. cbn [fmap list_fmap add_frames fold_left].
    rewrite app_nil_r.
    replace (length _ - max_buffer_size)%nat with 0%nat by lia. reflexivity.
  - change (add_frames ((c, f, t) :: rest) w)
      with (add_frames rest (add_frame c f t w).2).
    rewrite add_frame_eq. cbn [snd fst].
    remember (default [] (frame_buffers w !! camera_id)) as old eqn:Hold0.
    destruct (decide (c = camera_id)) as [-> | Hne].
    + unfold entries_of. rewrite filter_cons_True by reflexivity.
      cbn [fmap list_fmap fst snd].
      fold (entries_of camera_id rest).
      set (x := mkBuffered f t). set (es := entries_of camera_id rest).
      match goal with |- context [add_frames rest ?u] => set (w1 := u) end.
      assert (Hbuf : default [] (frame_buffers w1 !! camera_id) =
                if (max_buffer_size <? length (old ++ [x]))%nat
                then tail (old ++ [x]) else old ++ [x]).
      { subst w1. wsimpl. rewrite lookup_insert_eq, <- Hold0. reflexivity. }
      assert (Hlen1 : (length (default [] (frame_buffers w1 !! camera_id))
                       <= max_buffer_size)%nat).
      { rewrite Hbuf.
        destruct (Nat.ltb_spec max_buffer_size (length (old ++ [x]))) as [H | H];
          [| exact H].
        destruct old; cbn [app tail length] in *;
          rewrite ?length_app in *; cbn [length] in *; lia. }
      specialize (IH w1 Hlen1). cbn zeta in IH. rewrite IH, Hbuf.
      fold es.
      destruct (Nat.ltb_spec max_buffer_size (length (old ++ [x]))) as [H | H].
      * rewrite length_app in H. cbn [length] in H.
        assert (Hold : length old = max_buffer_size) by lia.
        destruct old as [| o old']; [cbn in Hold; discriminate |].
        cbn [app tail]. rewrite <- !app_assoc. cbn [app].
        rewrite !length_app. cbn [length drop].
        rewrite !length_app in *. cbn [length] in *.
        replace (S (length old' + S (length es)) - max_buffer_size)%nat
          with (S (length old' + S (length es) - max_buffer_size))%nat by lia.
        reflexivity.
      * rewrite <- !app_assoc. reflexivity.
    + unfold entries_of. rewrite filter_cons_False by (cbn; congruence).
      fold (entries_of camera_id rest).
      match goal with |- context [add_frames rest ?u] => set (w1 := u) end.
      assert (Hbuf : frame_buffers w1 !! camera_id = frame_buffers w !! camera_id).
      { subst w1. wsimpl. now rewrite lookup_insert_ne. }
      specialize (IH w1). cbn zeta in IH. rewrite Hbuf, <- Hold0 in IH.
      apply IH. exact Hlen.
Qed.

(** X2. The evidence buffer of a camera is a sliding window: after any
    sequence of [add_frame] calls, starting from a buffer within its
    capacity of 300, the buffer holds the frames it had followed by the
    frames added for that camera, in order, cut to the last 300.  Frames of
    other cameras do not enter it. *)
Theorem evidence_buffer_sliding_window (camera_id : Z) (calls : list (Z * Frame * Z))
  (w : World) :
  (length (default [] (frame_buffers w !! camera_id)) <= max_buffer_size)%nat ->
  let all := default [] (frame_buffers w !! camera_id) ++ entries_of camera_id calls in
  default [] (frame_buffers (add_frames calls w) !! camera_id) =
    drop (length all - max_buffer_size) all /\
  (length (default [] (frame_buffers (add_frames calls w) !! camera_id))
   <= max_buffer_size)%nat.
Proof.
  intros Hlen all.
  pose proof (add_frames_buffer camera_id calls w Hlen) as H. cbn zeta in H.
  fold all in H. split; [exact H |].
  rewrite H, length_drop. lia.
Qed.

Lemma evidence_buffer_sliding_window_witness :
  default [] (frame_buffers
                (add_frames [(1, scene_a, 0); (2, scene_b, 1); (1, scene_b, 2)]
                   idle_world) !! 1)
  = [mkBuffered scene_a 0; mkBuffered scene_b 2].
Proof.
  assert (H : (length (default [] (frame_buffers idle_world !! 1%Z))
               <= max_buffer_size)%nat).
  { unfold idle_world, initial_world, max_buffer_size. wsimpl. rewrite lookup_empty. cbn. lia. }
  rewrite (proj1 (evidence_buffer_sliding_window 1
                    [(1, scene_a, 0); (2, scene_b, 1); (1, scene_b, 2)]
                    idle_world H)).
  vm_compute. reflexivity.
Defined.

(** X3. [generate_clip] never raises.  It returns true exactly when the
    camera has buffered frames, the slice of them for the duration is not
    empty and the writer does not raise; only then is the clip file
    written, and in no case does it touch the buffers, the store or the
    outbox. *)
Theorem generate_clip_outcome (flt : Faults) (camera_id : Z) (path : Path)
  (duration : Z) (w : World) :
  exists w',
    generate_clip flt camera_id path duration w =
      (Ok (clip_possible flt w camera_id duration), w') /\
    files w' =
      files w ++ (if clip_possible flt w camera_id duration then [path] else []) /\
    frame_buffers w' = frame_buffers w /\ db_alerts w' = db_alerts w /\
    db_pending w' = db_pending w /\ outbox w' = outbox w /\
    last_alerts w' = last_alerts w.
Proof.
  unfold clip_possible, generate_clip, bind, gets, try_except, logger, modify, ret, raise.
  destruct (frame_buffers w !! camera_id) as [[| b frames] |].
  - eexists. split; [reflexivity |]. wsimpl. rewrite app_nil_r. auto 10.
  - destruct (slice_last (duration * 30) (b :: frames)).
    + eexists. split; [reflexivity |]. rewrite app_nil_r. auto 10.
    + destruct (writer_raises flt); cbn [negb];
        (eexists; split; [reflexivity |]); wsimpl; rewrite ?app_nil_r; auto 10.
  - eexists. split; [reflexivity |]. wsimpl. rewrite app_nil_r. auto 10.
Qed.

(** X4. The slice [frames[-n:]] that a clip is cut from is always a
    suffix of the buffer.  For [n > 0] it holds the last [min n (len)]
    frames, so the newest buffered frame is in it; for [n = 0] it is the
    whole buffer, not an empty one. *)
Theorem slice_last_newest {A : Type} (n : Z) (l : list A) :
  slice_last n l `suffix_of` l /\
  (0 < n ->
   length (slice_last n l) = Nat.min (Z.to_nat n) (length l) /\
   last (slice_last n l) = last l) /\
  (n = 0 -> slice_last n l = l).
Proof.
  unfold slice_last. split; [| split].
  - destruct (0 <? n); [apply suffix_drop |].
    destruct (n =? 0); [reflexivity | apply suffix_drop].
  - intros Hn. replace (0 <? n) with true by (symmetry; apply Z.ltb_lt; exact Hn).
    split; [rewrite length_drop; lia |].
    rewrite !last_lookup, lookup_drop, length_drop. f_equal.
    assert (0 < Z.to_nat n)%nat by lia. destruct l; cbn [length]; lia.
  - intros ->. reflexivity.
Qed.

Lemma slice_last_newest_witness :
  length (slice_last 2 [1; 2; 3]) = 2%nat /\
  last (slice_last 2 [1; 2; 3]) = Some 3.
Proof.
  apply (proj1 (proj2 (slice_last_newest 2 [1; 2; 3]))). lia.
Defined.

(** ** What the alert pipeline leaves alone *)

Section Keeps.

Context {X : Type} (f : World -> X).

Lemma keeps_ret {A} (a : A) : keeps f (ret a).
Proof. intros w. reflexivity. Qed.

Lemma keeps_raise {A} (e : exn) : keeps f (@raise A e).
Proof. intros w. reflexivity. Qed.

Lemma keeps_gets {A} (g : World -> A) : keeps f (gets g).
Proof. intros w. reflexivity. Qed.

Lemma keeps_modify (g : World -> World) :
  (forall w, f (g w) = f w) -> keeps f (modify g).
Proof. intros H w. apply H. Qed.

Lemma keeps_bind {A B} (m : M A) (k : A -> M B) :
  keeps f m -> (forall a, keeps f (k a)) -> keeps f (bind m k).
Proof.
  intros Hm Hk w. unfold bind. specialize (Hm w).
  destruct (m w) as [[a | e] w1]; cbn [snd] in *.
  - rewrite <- Hm. apply Hk.
  - exact Hm.
Qed.

Lemma keeps_try_except {A} (body : M A) (handler : exn -> M A) :
  keeps f body -> (forall e, keeps f (handler e)) -> keeps f (try_except body handler).
Proof.
  intros Hb Hh w. unfold try_except. specialize (Hb w).
  destruct (body w) as [[a | e] w1]; cbn [snd] in *.
  - exact Hb.
  - rewrite <- Hb. apply Hh.
Qed.

Lemma keeps_utcnow : (forall n w, f (set_tick n w) = f w) -> keeps f utcnow.
Proof. intros H w. apply H. Qed.

Lemma keeps_try_steps steps :
  Forall (fun step : Detections -> M Detections => forall d, keeps f (step d)) steps ->
  forall d w, f (try_steps steps d w).2 = f w.
Proof.
  induction 1 as [| step rest Hstep _ IH]; intros d w; cbn [try_steps]; [reflexivity |].
  specialize (Hstep d w).
  destruct (step d w) as [[d' | e] w1]; cbn [snd] in *.
  - rewrite <- Hstep. apply IH.
  - exact Hstep.
Qed.

End Keeps.

(** Takes a computation apart along its binds, handlers and branches. *)
Ltac keeps_step :=
  cbv beta;
  lazymatch goal with
  | |- keeps _ (bind _ _) => apply keeps_bind; [| intros ?]
  | |- keeps _ (try_except _ _) => apply keeps_try_except; [| intros ?]
  | |- keeps _ (ret _) => apply keeps_ret
  | |- keeps _ (raise _) => apply keeps_raise
  | |- keeps _ (gets _) => apply keeps_gets
  | |- keeps _ (modify _) => apply keeps_modify; intros ?; reflexivity
  | |- keeps _ utcnow => apply keeps_utcnow; intros ? ?; reflexivity
  | |- keeps _ (if ?b then _ else _) => destruct b
  | |- keeps _ (match ?x with _ => _ end) => destruct x
  end.

Lemma create_alert_keeps_detection cfg flt camera_id alert_type conf frame meta :
  keeps detection_side (create_alert cfg flt camera_id alert_type conf frame meta).
Proof.
  unfold create_alert, should_send_alert, db_query_camera, imwrite, generate_clip,
    AlertCreate, db_add, db_commit, db_refresh, send_alert_email,
    db_commit_email_sent, cleanup_old_entries, db_rollback, logger.
  repeat keeps_step.
Qed.

(** X5. [create_alert] never changes the clock, the lying windows, the
    previous frame of the pushing detector, the frame counters, the capture
    queues, the evidence buffers, the camera table or the mail
    configuration, whatever fails on the way. *)
Theorem create_alert_leaves_detection_state (cfg : Settings) (flt : Faults)
  (camera_id : Z) (alert_type : AlertType) (conf : Q) (frame : Frame)
  (meta : list string) (w : World) :
  let w' := (create_alert cfg flt camera_id alert_type conf frame meta w).2 in
  clock w' = clock w /\ lying_tracker w' = lying_tracker w /\
  prev_frame w' = prev_frame w /\ frame_counter w' = frame_counter w /\
  frame_queues w' = frame_queues w /\ frame_buffers w' = frame_buffers w /\
  db_cameras w' = db_cameras w /\ smtp_configured w' = smtp_configured w.
Proof.
  intros w'.
  pose proof (create_alert_keeps_detection cfg flt camera_id alert_type conf frame
                meta w) as H.
  fold w' in H. unfold detection_side in H. simplify_eq. auto 10.
Qed.

(** X6. An exception leaves [create_alert] only when the rollback of the
    session itself raises: with a rollback that works, the call returns a
    value for every state and every other failure. *)
Theorem create_alert_raises_only_if_rollback_raises (cfg : Settings) (flt : Faults)
  (camera_id : Z) (alert_type : AlertType) (conf : Q) (frame : Frame)
  (meta : list string) (w : World) :
  rollback_raises flt = false ->
  exists r w', create_alert cfg flt camera_id alert_type conf frame meta w = (Ok r, w').
Proof.
  intros Hr. unfold create_alert. unfold bind at 1.
  assert (Hgate : exists b w1,
            should_send_alert cfg camera_id (alert_value alert_type) w = (Ok b, w1)).
  { destruct (last_alerts w !! (camera_id, alert_value alert_type)) as [t |] eqn:Hlk.
    - rewrite (should_send_alert_again cfg _ _ _ _ Hlk).
      destruct (_ <=? _); eauto.
    - rewrite (should_send_alert_first cfg _ _ _ Hlk). eauto. }
  destruct Hgate as (b & w1 & ->). destruct b; cbn [negb].
  - apply try_except_total. intros e w2.
    unfold bind, logger, modify, db_rollback, ret. rewrite Hr. eauto.
  - unfold bind, logger, modify, ret. eauto.
Qed.

Lemma create_alert_raises_only_if_rollback_raises_witness :
  exists r w',
    create_alert default_settings store_down 1 FALL (9 # 10) blank_frame []
      (one_camera_world scenario_clock) = (Ok r, w').
Proof.
  apply (create_alert_raises_only_if_rollback_raises default_settings store_down 1
           FALL (9 # 10) blank_frame [] (one_camera_world scenario_clock)).
  reflexivity.
Defined.

(** ** Notification *)

(** The pipeline up to the refresh of the committed row. *)
Ltac alert_prefix Hgate Hcam Hq Hs Hv Hc Hrf w :=
  let n := fresh "n" in let t := fresh "t" in
  let Hsend := fresh "Hsend" in let Hn := fresh "Hn" in
  destruct (should_send_alert_accepts _ _ _ _ Hgate) as (n & t & Hsend & Hn);
  unfold create_alert; unfold bind at 1; rewrite Hsend; clear Hgate Hsend;
  unfold try_except, db_query_camera; rewrite Hq;
  unfold bind, gets, ret, utcnow, imwrite, logger, modify; rewrite Hs;
  destruct w as [clk tk la fb smtp lt pf fc fq cams alerts pend ob fl lg];
  wcbv; wcbv_in Hcam; rewrite Hcam; wcbv;
  match goal with |- context [generate_clip ?flt ?c ?p ?d ?w0] =>
    let b := fresh "clip" in let fs := fresh "fs" in let l := fresh "l" in
    destruct (generate_clip_frame flt c p d w0) as (b & fs & l & ->) end;
  unfold AlertCreate;
  match goal with |- context [Qle_bool (0 # 1) ?c && Qle_bool ?c (1 # 1)] =>
    fold (valid_confidence c) end;
  rewrite Hv;
  unfold db_add, db_commit, modify, ret; rewrite Hc; wcbv;
  unfold db_refresh, send_alert_email, db_commit_email_sent, cleanup_old_entries,
    db_rollback, try_except, bind, gets, utcnow, logger, modify, raise, ret;
  rewrite Hrf; wcbv; rewrite flush_snoc, last_snoc; wcbv.

(** X7. A notification that fails never reverses the persistence: when
    the mail account is not configured or the delivery raises, the alert
    that was committed stays the last row of the table, with [email_sent]
    false, it is the value returned, and nothing is put in the outbox. *)
Theorem notification_failure_keeps_alert (cfg : Settings) (flt : Faults)
  (camera_id : Z) (alert_type : AlertType) (conf : Q) (frame : Frame)
  (meta : list string) (w : World) (camera : CameraRow) :
  (should_send_alert cfg camera_id (alert_value alert_type) w).1 = Ok true ->
  db_cameras w !! camera_id = Some camera ->
  query_raises flt = false -> storage_raises flt = false ->
  valid_confidence conf = true -> commit_raises flt = false ->
  refresh_raises flt = false ->
  smtp_configured w = false \/ smtp_raises flt = true ->
  exists w' row,
    create_alert cfg flt camera_id alert_type conf frame meta w = (Ok (Some row), w') /\
    last (db_alerts w') = Some row /\ al_email_sent row = false /\
    al_camera_id row = camera_id /\ al_alert_type row = alert_type /\
    outbox w' = outbox w /\ db_pending w' = [].
Proof.
  intros Hgate Hcam Hq Hs Hv Hc Hrf Hmail.
  alert_prefix Hgate Hcam Hq Hs Hv Hc Hrf w.
  wcbv_in Hmail.
  destruct smtp; wcbv.
  - destruct Hmail as [Hmail | Hmail]; [discriminate |]. rewrite Hmail. wcbv.
    do 2 eexists. split; [reflexivity |]. wcbv. rewrite last_snoc. auto 10.
  - do 2 eexists. split; [reflexivity |]. wcbv. rewrite last_snoc. auto 10.
Qed.

Lemma notification_failure_keeps_alert_witness :
  exists w' row,
    create_alert default_settings no_faults 1 FALL (9 # 10) blank_frame []
      (one_camera_world scenario_clock) = (Ok (Some row), w') /\
    last (db_alerts w') = Some row /\ al_email_sent row = false /\
    al_camera_id row = 1 /\ al_alert_type row = FALL /\
    outbox w' = [] /\ db_pending w' = [].
Proof.
  apply (notification_failure_keeps_alert default_settings no_faults 1 FALL (9 # 10)
           blank_frame [] (one_camera_world scenario_clock) schoolyard);
    try (vm_compute; reflexivity).
  left. reflexivity.
Defined.

(** X8. When the mail goes out and the second commit works, the row
    returned and stored has [email_sent] true, exactly one message is added
    to the outbox, and the message carries the alert type, the camera name
    and the same image and video paths as the row. *)
Theorem notification_success_is_recorded (cfg : Settings) (flt : Faults)
  (camera_id : Z) (alert_type : AlertType) (conf : Q) (frame : Frame)
  (meta : list string) (w : World) (camera : CameraRow) :
  (should_send_alert cfg camera_id (alert_value alert_type) w).1 = Ok true ->
  db_cameras w !! camera_id = Some camera ->
  query_raises flt = false -> storage_raises flt = false ->
  valid_confidence conf = true -> commit_raises flt = false ->
  refresh_raises flt = false ->
  smtp_configured w = true -> smtp_raises flt = false -> commit2_raises flt = false ->
  exists w' row email,
    create_alert cfg flt camera_id alert_type conf frame meta w = (Ok (Some row), w') /\
    last (db_alerts w') = Some row /\ al_email_sent row = true /\
    outbox w' = outbox w ++ [email] /\
    em_alert_type email = alert_value alert_type /\
    em_camera_name email = cam_name camera /\
    em_image email = al_image_path row /\ em_video email = al_video_path row /\
    db_pending w' = [].
Proof.
  intros Hgate Hcam Hq Hs Hv Hc Hrf Hconf Hsm Hc2.
  alert_prefix Hgate Hcam Hq Hs Hv Hc Hrf w.
  wcbv_in Hconf. subst smtp. rewrite Hsm, Hc2. wcbv.
  do 3 eexists. split; [reflexivity |]. wcbv.
  rewrite fmap_last, last_snoc.
  cbn [fmap option_fmap option_map with_id with_email_sent al_id al_email_sent
       al_image_path al_video_path em_alert_type em_camera_name em_image em_video].
  rewrite Z.eqb_refl. cbn [with_email_sent al_email_sent al_image_path al_video_path].
  auto 10.
Qed.

Lemma notification_success_is_recorded_witness :
  exists w' row email,
    create_alert default_settings no_faults 1 FALL (9 # 10) blank_frame []
      (mkWorld scenario_clock 0 ∅ ∅ true ∅ None ∅ ∅ {[ 1 := schoolyard ]} [] [] [] [] [])
      = (Ok (Some row), w') /\
    last (db_alerts w') = Some row /\ al_email_sent row = true /\
    outbox w' = [] ++ [email] /\
    em_alert_type email = "fall"%string /\
    em_camera_name email = "yard"%string /\
    em_image email = al_image_path row /\ em_video email = al_video_path row /\
    db_pending w' = [].
Proof.
  apply (notification_success_is_recorded default_settings no_faults 1 FALL (9 # 10)
           blank_frame []
           (mkWorld scenario_clock 0 ∅ ∅ true ∅ None ∅ ∅ {[ 1 := schoolyard ]}
              [] [] [] [] []) schoolyard);
    vm_compute; reflexivity.
Defined.

(** ** Detection *)

Section Detection.

Variable cfg : Settings.
Variable mdl : Models.

Lemma crowd_step_zero_area frame thr d w :
  height frame * width frame = 0 ->
  crowd_step mdl frame thr d w = (Raise ZeroDivisionError, w).
Proof.
  intros H. unfold crowd_step, detect_crowd, bind, raise.
  destruct (detect_persons mdl frame). rewrite H. reflexivity.
Qed.

Lemma crowd_step_report frame thr d w :
  height frame * width frame <> 0 ->
  crowd_step mdl frame thr d w =
    (Ok (set_crowd
           (mkReport (thr <=? (detect_persons mdl frame).1)
              (detect_persons mdl frame).2
              ["person_count"; "threshold"; "density"; "detections"] None)
           (detect_persons mdl frame).1 d), w).
Proof.
  intros H. unfold crowd_step, detect_crowd, bind, raise, ret.
  destruct (detect_persons mdl frame) as [n c].
  apply Z.eqb_neq in H. rewrite H. reflexivity.
Qed.

(** The head of [process_frame], up to the crowd step. *)
Lemma process_frame_head camera_id frame thr w :
  exists d1 w1,
    process_frame cfg mdl camera_id frame thr w =
      match try_steps [crowd_step mdl frame thr; pushing_step cfg mdl frame] d1 w1 with
      | ((d, None), w') => (Ok d, w')
      | ((d, Some e), w') => (logger (LogErrorProcessingFrame camera_id e) >> ret d) w'
      end /\
    d_crowd d1 = no_report /\ d_pushing d1 = no_report /\ d_person_count d1 = 0 /\
    prev_frame w1 = prev_frame w.
Proof.
  unfold process_frame, bind at 1, utcnow. cbn [try_steps].
  set (d0 := mkDetections camera_id _ _ _ _ _ _).
  set (w0 := set_tick (S (tick w)) w).
  destruct (fall_step_frame cfg mdl frame d0 w0) as (rf & ->).
  destruct (qualifies_lying cfg mdl frame) eqn:Hq.
  - destruct (lying_step_qualifies cfg mdl camera_id frame (set_fall rf d0) w0 Hq)
      as (r & w1 & -> & _ & _ & Hprev & _).
    exists (set_lying r (set_fall rf d0)), w1. split; [reflexivity |].
    rewrite Hprev. auto.
  - destruct (lying_step_resets cfg mdl camera_id frame (set_fall rf d0) w0 Hq)
      as (r & -> & _).
    eexists _, _. split; [reflexivity |]. auto.
Qed.

(** [detect_pushing] returns a confidence within bounds, and nothing at
    all without a previous frame. *)
Lemma detect_pushing_valid frame w :
  exists b c m w',
    detect_pushing mdl frame w = (Ok (b, c, m), w') /\
    valid_confidence c = true /\
    (prev_frame w = None -> b = false /\ c = 0 # 1 /\ m = []).
Proof.
  unfold detect_pushing, try_except, bind, gets, modify, ret, raise.
  destruct (mp_pose_raises mdl frame).
  { do 4 eexists. split; [reflexivity |]. auto. }
  destruct (prev_frame w) as [prev |] eqn:Hprev.
  2: { do 4 eexists. split; [reflexivity |]. auto. }
  destruct (optical_flow mdl prev frame) as [[mean_motion max_motion] |].
  2: { do 4 eexists. split; [reflexivity |]. split; [reflexivity | discriminate]. }
  do 4 eexists. split; [reflexivity |]. split; [| discriminate].
  destruct (negb (Qle_bool max_motion (15 # 1)) && negb (Qle_bool mean_motion (3 # 1)))
    eqn:Hpush; [| reflexivity].
  apply andb_true_iff in Hpush as [Hmax _].
  apply negb_true_iff in Hmax.
  assert (Hlt : ~ (max_motion <= 15 # 1)%Q).
  { intros Hle. apply Qle_bool_iff in Hle. congruence. }
  unfold valid_confidence. apply andb_true_iff. split; apply Qle_bool_iff.
  - apply Q.min_glb; [| discriminate].
    destruct max_motion as [p q]. unfold Qle, Qdiv, Qmult, Qinv in *.
    cbn in *. lia.
  - apply Q.le_min_r.
Qed.

Lemma step_keeps_alert_side camera_id frame thr :
  Forall (fun step : Detections -> M Detections => forall d, keeps alert_side (step d))
    [fall_step cfg mdl frame; lying_step cfg mdl camera_id frame;
     crowd_step mdl frame thr; pushing_step cfg mdl frame].
Proof.
  repeat constructor; intros d;
    unfold fall_step, lying_step, crowd_step, detect_crowd, pushing_step, detect_pushing;
    repeat keeps_step.
Qed.

End Detection.

(** X9. A frame with zero area makes the crowd step divide by zero:
    [process_frame] still returns, logs the error and skips the pushing
    step, so the crowd and pushing reports are the defaults, no person is
    counted and the previous frame of the pushing detector is not
    replaced. *)
Theorem zero_area_frame_skips_crowd_and_pushing (cfg : Settings) (mdl : Models)
  (camera_id : Z) (frame : Frame) (thr : Z) (w : World) :
  height frame * width frame = 0 ->
  exists d w',
    process_frame cfg mdl camera_id frame thr w = (Ok d, w') /\
    d_crowd d = no_report /\ d_pushing d = no_report /\ d_person_count d = 0 /\
    prev_frame w' = prev_frame w /\
    last (log w') = Some (LogErrorProcessingFrame camera_id ZeroDivisionError).
Proof.
  intros Harea.
  destruct (process_frame_head cfg mdl camera_id frame thr w)
    as (d1 & w1 & -> & Hc & Hp & Hn & Hprev).
  cbn [try_steps]. rewrite (crowd_step_zero_area mdl frame thr d1 w1 Harea).
  unfold bind, logger, modify, ret.
  do 2 eexists. split; [reflexivity |]. wsimpl. rewrite last_snoc. auto 10.
Qed.

Lemma zero_area_frame_skips_crowd_and_pushing_witness :
  exists d w',
    process_frame default_settings two_scenes_model 1 (mkFrame 7 0 640) 10 idle_world
      = (Ok d, w') /\
    d_crowd d = no_report /\ d_pushing d = no_report /\ d_person_count d = 0 /\
    prev_frame w' = prev_frame idle_world /\
    last (log w') = Some (LogErrorProcessingFrame 1 ZeroDivisionError).
Proof.
  apply (zero_area_frame_skips_crowd_and_pushing default_settings two_scenes_model 1
           (mkFrame 7 0 640) 10 idle_world).
  reflexivity.
Defined.

(** X10. On a frame with an area the crowd report uses the threshold
    passed for the camera: it is detected exactly when the number of
    persons found reaches that threshold, whatever the confidence, and the
    report carries the number of persons and their average confidence. *)
Theorem crowd_report_uses_camera_threshold (cfg : Settings) (mdl : Models)
  (camera_id : Z) (frame : Frame) (thr : Z) (w : World) :
  height frame * width frame <> 0 ->
  exists d w',
    process_frame cfg mdl camera_id frame thr w = (Ok d, w') /\
    detected (d_crowd d) = (thr <=? (detect_persons mdl frame).1) /\
    confidence (d_crowd d) = (detect_persons mdl frame).2 /\
    d_person_count d = (detect_persons mdl frame).1.
Proof.
  intros Harea.
  destruct (process_frame_head cfg mdl camera_id frame thr w)
    as (d1 & w1 & -> & _).
  cbn [try_steps]. rewrite (crowd_step_report mdl frame thr d1 w1 Harea).
  match goal with |- context [pushing_step cfg mdl frame ?d ?u] =>
    destruct (pushing_step_frame cfg mdl frame d u) as (r & w' & -> & _) end.
  do 2 eexists. split; [reflexivity |]. auto.
Qed.

Lemma crowd_report_uses_camera_threshold_witness :
  exists d w',
    process_frame default_settings two_scenes_model 1 scene_a 0 idle_world = (Ok d, w') /\
    detected (d_crowd d) = (0 <=? (detect_persons two_scenes_model scene_a).1) /\
    confidence (d_crowd d) = (detect_persons two_scenes_model scene_a).2 /\
    d_person_count d = (detect_persons two_scenes_model scene_a).1.
Proof.
  apply (crowd_report_uses_camera_threshold default_settings two_scenes_model 1
           scene_a 0 idle_world).
  discriminate.
Defined.

(** X11. The pushing report of [process_frame] always has a confidence
    between 0 and 1, so an alert built from it passes the validation of
    [AlertCreate]; it is detected only with a confidence that reaches the
    configured threshold; and when the detector holds no previous frame
    the report is the default one. *)
Theorem pushing_report_is_bounded (cfg : Settings) (mdl : Models)
  (camera_id : Z) (frame : Frame) (thr : Z) (w : World) :
  exists d w',
    process_frame cfg mdl camera_id frame thr w = (Ok d, w') /\
    valid_confidence (confidence (d_pushing d)) = true /\
    (detected (d_pushing d) = true ->
     Qle_bool (PUSHING_CONFIDENCE_THRESHOLD cfg) (confidence (d_pushing d)) = true) /\
    (prev_frame w = None -> d_pushing d = no_report).
Proof.
  destruct (process_frame_head cfg mdl camera_id frame thr w)
    as (d1 & w1 & -> & _ & Hp & _ & Hprev).
  cbn [try_steps].
  destruct (crowd_step_frame mdl frame thr d1 w1) as [(r & n & ->) | (e & ->)].
  - unfold pushing_step, bind.
    destruct (detect_pushing_valid mdl frame w1) as (b & c & m & w' & -> & Hv & Hnone).
    unfold ret. do 2 eexists. split; [reflexivity |].
    unfold set_pushing. cbn [d_pushing confidence detected].
    split; [exact Hv |]. split.
    + intros Hd. apply andb_true_iff in Hd. tauto.
    + rewrite <- Hprev. intros H. destruct (Hnone H) as (-> & -> & ->). reflexivity.
  - unfold bind, logger, modify, ret. do 2 eexists. split; [reflexivity |].
    rewrite Hp. repeat split; try reflexivity. discriminate.
Qed.

(** X12. The lying windows are kept per camera: a call of [process_frame]
    for one camera leaves the window of every other camera as it was. *)
Theorem lying_windows_are_per_camera (cfg : Settings) (mdl : Models)
  (camera_id other : Z) (frame : Frame) (thr : Z) (w : World) :
  other <> camera_id ->
  lying_tracker (process_frame cfg mdl camera_id frame thr w).2 !! other =
    lying_tracker w !! other.
Proof.
  intros Hne.
  destruct (process_frame_lying cfg mdl camera_id frame thr w)
    as (d & w' & -> & _ & _ & Hoth & _).
  cbn [snd]. apply Hoth. exact Hne.
Qed.

Lemma lying_windows_are_per_camera_witness :
  lying_tracker (process_frame default_settings lying_model 1 blank_frame 10
                   (set_lying_tracker {[ 2 := 5 ]} idle_world)).2 !! 2 = Some 5.
Proof.
  rewrite (lying_windows_are_per_camera default_settings lying_model 1 2 blank_frame 10
             (set_lying_tracker {[ 2 := 5 ]} idle_world)).
  - reflexivity.
  - discriminate.
Defined.

Lemma process_frame_keeps_alert_side cfg mdl camera_id frame thr :
  keeps alert_side (process_frame cfg mdl camera_id frame thr).
Proof.
  intros w. unfold process_frame, bind, utcnow.
  pose proof (keeps_try_steps alert_side _
                (step_keeps_alert_side cfg mdl camera_id frame thr)) as H.
  match goal with |- context [try_steps ?s ?d ?u] =>
    specialize (H d u); destruct (try_steps s d u) as [[d' [e |]] w'] end;
    cbn [snd] in *.
  - unfold logger, modify, ret. cbn [snd]. exact H.
  - exact H.
Qed.

(** X13. Detection does not alert: [process_frame] never changes the
    cooldown entries, the committed or pending rows, the outbox, the files,
    the evidence buffers, the capture queues, the frame counters or the
    camera table; its effects are on the clock readings, the lying
    windows, the previous frame and the log. *)
Theorem process_frame_leaves_alert_state (cfg : Settings) (mdl : Models)
  (camera_id : Z) (frame : Frame) (thr : Z) (w : World) :
  alert_side (process_frame cfg mdl camera_id frame thr w).2 = alert_side w.
Proof. apply process_frame_keeps_alert_side. Qed.

(** ** The cooldown entries of other keys *)

(** X14. The cooldown is kept per key: a call of [should_send_alert] for
    one camera and alert type never changes the entry of another key,
    accepted or not. *)
Theorem cooldown_keys_are_independent (cfg : Settings) (camera_id : Z)
  (alert_type : string) (k : Z * string) (w : World) :
  k <> (camera_id, alert_type) ->
  last_alerts (should_send_alert cfg camera_id alert_type w).2 !! k =
    last_alerts w !! k.
Proof.
  intros Hne.
  destruct (last_alerts w !! (camera_id, alert_type)) as [t |] eqn:Hlk.
  - rewrite (should_send_alert_again cfg _ _ _ _ Hlk).
    destruct (_ <=? _); cbn [snd]; wsimpl; [| reflexivity].
    now rewrite lookup_insert_ne.
  - rewrite (should_send_alert_first cfg _ _ _ Hlk). cbn [snd]. wsimpl.
    now rewrite lookup_insert_ne.
Qed.

Lemma cooldown_keys_are_independent_witness :
  last_alerts (should_send_alert default_settings 1 "lying" after_first_fall).2
    !! (1, "fall"%string) = Some 0.
Proof.
  rewrite (cooldown_keys_are_independent default_settings 1 "lying" (1, "fall"%string)
             after_first_fall).
  - vm_compute. reflexivity.
  - discriminate.
Defined.

(** ** Order and numbering of captured frames *)

Section CaptureOrder.

Variable maxsize : nat.
Hypothesis maxsize_pos : (0 < maxsize)%nat.

Lemma queue_step_length st ev :
  (length (wk_queue st) <= maxsize)%nat ->
  (length (wk_queue (queue_step maxsize st ev)) <= maxsize)%nat.
Proof.
  intros Hlen. destruct ev as [[frame |] now |]; cbn [queue_step run_iter].
  - pose proof (enqueue_length maxsize maxsize_pos
                  (mkFrameData (wk_camera_id st) frame now (wk_frame_count st))
                  (wk_queue st) Hlen) as Hl.
    rewrite (enqueue_eq maxsize maxsize_pos) in * by exact Hlen. exact Hl.
  - exact Hlen.
  - cbn [wk_queue]. destruct (wk_queue st); cbn [FrameQueue.get_nowait snd length] in *; lia.
Qed.

Lemma queue_step_count st ev :
  (length (wk_queue st) <= maxsize)%nat ->
  wk_frame_count (queue_step maxsize st ev) = wk_frame_count st + captured_count [ev].
Proof.
  intros Hlen. destruct ev as [[frame |] now |]; cbn [queue_step run_iter captured_count].
  - rewrite (enqueue_eq maxsize maxsize_pos) by exact Hlen. cbn [wk_frame_count]. lia.
  - lia.
  - cbn [wk_frame_count]. lia.
Qed.

Lemma queue_run_count evs : forall st,
  (length (wk_queue st) <= maxsize)%nat ->
  wk_frame_count (queue_run maxsize evs st) = wk_frame_count st + captured_count evs.
Proof.
  induction evs as [| ev rest IH]; intros st Hlen.
  - cbn. lia.
  - cbn [queue_run fold_left]. fold (queue_run maxsize rest (queue_step maxsize st ev)).
    rewrite IH by (apply queue_step_length; exact Hlen).
    rewrite queue_step_count by exact Hlen.
    destruct ev as [[frame |] now |]; cbn [captured_count]; lia.
Qed.

(** The number of the frame at the front, or of the next frame when the
    queue is empty. *)
Local Abbreviation front st := (wk_frame_count st - Z.of_nat (length (wk_queue st))).

Lemma queue_step_front st ev :
  (length (wk_queue st) <= maxsize)%nat ->
  front st <= front (queue_step maxsize st ev).
Proof.
  intros Hlen. destruct ev as [[frame |] now |]; cbn [queue_step run_iter].
  - rewrite (enqueue_eq maxsize maxsize_pos) by exact Hlen.
    cbn [wk_frame_count wk_queue]. rewrite length_app. cbn [length].
    destruct (FrameQueue.full maxsize (wk_queue st)); [| lia].
    destruct (wk_queue st); cbn [tail length]; lia.
  - lia.
  - cbn [wk_frame_count wk_queue].
    destruct (wk_queue st); cbn [FrameQueue.get_nowait snd length]; lia.
Qed.

Lemma queue_step_consecutive st ev :
  (length (wk_queue st) <= maxsize)%nat -> consecutive st ->
  consecutive (queue_step maxsize st ev).
Proof.
  intros Hlen Hc.
  exact (proj2 (queue_run_inv maxsize maxsize_pos [ev] st Hlen Hc)).
Qed.

Lemma queue_consumed_sorted evs : forall st,
  (length (wk_queue st) <= maxsize)%nat -> consecutive st ->
  Forall (fun fd => front st <= fd_frame_number fd) (queue_consumed maxsize evs st) /\
  StronglySorted Z.lt (fd_frame_number <$> queue_consumed maxsize evs st).
Proof.
  induction evs as [| ev rest IH]; intros st Hlen Hc.
  - split; constructor.
  - cbn [queue_consumed].
    destruct (IH (queue_step maxsize st ev)) as [Hlow Hsorted].
    { apply queue_step_length; exact Hlen. }
    { apply queue_step_consecutive; assumption. }
    pose proof (queue_step_front st ev Hlen) as Hfront.
    assert (Hlow' : Forall (fun fd => front st <= fd_frame_number fd)
                      (queue_consumed maxsize rest (queue_step maxsize st ev))).
    { eapply Forall_impl; [exact Hlow |]. cbn. intros fd Hfd. lia. }
    destruct ev as [read now |]; [split; assumption |].
    destruct st as [c qu n]. cbn [wk_queue wk_frame_count] in *.
    destruct qu as [| fd q]; cbn [FrameQueue.get_nowait]; [split; assumption |].
    assert (Hnum : fd_frame_number fd = n - Z.of_nat (length (fd :: q))).
    { unfold consecutive in Hc. cbn [wk_queue wk_frame_count] in Hc.
      rewrite seqZ_cons in Hc by (cbn [length]; lia).
      cbn [fmap list_fmap] in Hc. injection Hc as Hn _. exact Hn. }
    cbn [app]. split.
    + constructor; [lia | exact Hlow'].
    + cbn [fmap list_fmap]. constructor; [exact Hsorted |].
      apply Forall_fmap. eapply Forall_impl; [exact Hlow |]. cbn. intros x Hx.
      cbn [queue_step wk_frame_count wk_queue FrameQueue.get_nowait snd length] in Hx.
      cbn [length] in Hnum. lia.
Qed.

End CaptureOrder.

(** X15. Frames leave the capture queue in the order they were captured:
    for every capacity [K > 0] and every interleaving of captures and
    takes, the frame numbers of the frames taken out are strictly
    increasing.  Frames may be lost to eviction, but none is delivered
    twice or out of order. *)
Theorem queue_delivers_in_capture_order (maxsize : nat) (camera_id : Z)
  (evs : list QueueEvent) :
  (0 < maxsize)%nat ->
  StronglySorted Z.lt
    (fd_frame_number <$> queue_consumed maxsize evs (mkWorker camera_id [] 0)).
Proof.
  intros Hpos.
  destruct (queue_consumed_sorted maxsize Hpos evs (mkWorker camera_id [] 0))
    as [Hlow Hsorted].
  { cbn [wk_queue length]. lia. }
  { reflexivity. }
  exact Hsorted.
Qed.

Lemma queue_delivers_in_capture_order_witness :
  fd_frame_number <$>
    queue_consumed 2
      [Captured (Some scene_a) 0; Captured (Some scene_a) 1; Captured (Some scene_a) 2;
       Consumed; Captured None 3; Consumed; Consumed]
      (mkWorker 1 [] 0) = [1; 2] /\
  StronglySorted Z.lt
    (fd_frame_number <$>
       queue_consumed 2
         [Captured (Some scene_a) 0; Captured (Some scene_a) 1;
          Captured (Some scene_a) 2; Consumed; Captured None 3; Consumed; Consumed]
         (mkWorker 1 [] 0)).
Proof.
  split; [reflexivity |].
  apply (queue_delivers_in_capture_order 2 1). lia.
Defined.

(** X16. The worker numbers the frames it reads without gaps: for every
    capacity [K > 0], after any run its frame counter is the number of
    reads that returned a frame; failed reads and the takes of the server
    do not advance it, and no read is lost to a full queue. *)
Theorem frame_count_counts_reads (maxsize : nat) (camera_id : Z)
  (evs : list QueueEvent) :
  (0 < maxsize)%nat ->
  wk_frame_count (queue_run maxsize evs (mkWorker camera_id [] 0)) =
    captured_count evs.
Proof.
  intros Hpos.
  rewrite (queue_run_count maxsize Hpos evs (mkWorker camera_id [] 0));
    cbn [wk_queue wk_frame_count length]; lia.
Qed.

Lemma frame_count_counts_reads_witness :
  wk_frame_count
    (queue_run 2
       [Captured (Some scene_a) 0; Captured None 1; Consumed; Captured (Some scene_a) 2]
       (mkWorker 1 [] 0)) = 2.
Proof.
  apply (frame_count_counts_reads 2 1
           [Captured (Some scene_a) 0; Captured None 1; Consumed;
            Captured (Some scene_a) 2]).
  lia.
Defined.

(** ** Starting and stopping cameras *)

Module ManagerProofs.
Import Manager.

Lemma in_step_lookups m w camera_id x :
  in_step m w -> processes m !! camera_id = Some x ->
  is_Some (stop_events m !! camera_id) /\ is_Some (camera_info m !! camera_id) /\
  is_Some (frame_queues w !! camera_id).
Proof.
  intros (H1 & H2 & H3) Hp.
  assert (Hin : camera_id ∈ dom (processes m)) by (apply elem_of_dom; eauto).
  rewrite <- !elem_of_dom. rewrite H1, H2, H3. auto.
Qed.

Lemma start_camera_in_step spawn_raises camera_id rtsp_url camera_name m w :
  in_step m w ->
  in_step (start_camera spawn_raises camera_id rtsp_url camera_name m w).1.2
    (start_camera spawn_raises camera_id rtsp_url camera_name m w).2.
Proof.
  intros Hin. unfold start_camera.
  destruct (processes m !! camera_id); [exact Hin |].
  destruct spawn_raises; [exact Hin |].
  destruct Hin as (H1 & H2 & H3). unfold in_step. cbn [fst snd]. wsimpl.
  cbn [processes stop_events camera_info]. rewrite !dom_insert_L, H1, H2, H3. auto.
Qed.

Lemma stop_camera_in_step join_raises camera_id m w :
  in_step m w ->
  in_step (stop_camera join_raises camera_id m w).1.2
    (stop_camera join_raises camera_id m w).2.
Proof.
  intros Hin. unfold stop_camera.
  destruct (processes m !! camera_id) as [url |] eqn:Hp; [| exact Hin].
  destruct (in_step_lookups m w camera_id url Hin Hp) as ([e He] & [i Hi] & [q Hq]).
  rewrite He. cbn [processes stop_events camera_info]. rewrite Hq, Hi.
  assert (Hc : camera_id ∈ dom (processes m)) by (apply elem_of_dom; eauto).
  destruct Hin as (H1 & H2 & H3). unfold in_step.
  destruct join_raises; cbn [fst snd processes stop_events camera_info]; wsimpl.
  - rewrite dom_insert_L, H1, H2, H3. repeat split. set_solver.
  - rewrite !dom_delete_L, dom_insert_L, H1, H2, H3. repeat split. set_solver.
Qed.

(** X17. The manager keeps its four dictionaries in step: when the
    processes, stop events, queues and camera infos are recorded for the
    same cameras, they still are after [start_camera] and after
    [stop_camera], whether the call succeeds, is refused, or fails on an
    exception. *)
Theorem manager_dictionaries_stay_in_step (m : Dicts) (w : World) (camera_id : Z) :
  in_step m w ->
  (forall spawn_raises rtsp_url camera_name,
     in_step (start_camera spawn_raises camera_id rtsp_url camera_name m w).1.2
       (start_camera spawn_raises camera_id rtsp_url camera_name m w).2) /\
  (forall join_raises,
     in_step (stop_camera join_raises camera_id m w).1.2
       (stop_camera join_raises camera_id m w).2).
Proof.
  intros Hin. split; intros.
  - now apply start_camera_in_step.
  - now apply stop_camera_in_step.
Qed.

Lemma one_running_in_step : in_step one_running two_frames_queued.
Proof.
  unfold in_step, one_running, two_frames_queued, initial_world.
  cbn [processes stop_events camera_info]. wsimpl.
  rewrite !dom_singleton_L. auto.
Defined.

Lemma manager_dictionaries_stay_in_step_witness :
  in_step (stop_camera true 1 one_running two_frames_queued).1.2
    (stop_camera true 1 one_running two_frames_queued).2.
Proof.
  apply (proj2 (manager_dictionaries_stay_in_step one_running two_frames_queued 1
                  one_running_in_step)).
Defined.

(** X18. Starting a camera that is not running and stopping it again
    brings the manager back: the start succeeds and gives the camera an
    empty queue, the stop succeeds, and afterwards the processes, stop
    events, camera infos and queues are exactly those before the start. *)
Theorem start_then_stop_restores (m : Dicts) (w : World) (camera_id : Z)
  (rtsp_url camera_name : string) :
  in_step m w ->
  processes m !! camera_id = None ->
  let started := start_camera false camera_id rtsp_url camera_name m w in
  let stopped := stop_camera false camera_id started.1.2 started.2 in
  started.1.1 = true /\
  frame_queues started.2 !! camera_id = Some [] /\
  get_frame camera_id started.2 = (Ok None, started.2) /\
  stopped.1.1 = true /\
  stopped.1.2 = m /\ frame_queues stopped.2 = frame_queues w.
Proof.
  intros (H1 & H2 & H3) Hp started stopped.
  assert (Hc : camera_id ∉ dom (processes m)) by (now apply not_elem_of_dom).
  assert (He : stop_events m !! camera_id = None)
    by (apply not_elem_of_dom; now rewrite H1).
  assert (Hi : camera_info m !! camera_id = None)
    by (apply not_elem_of_dom; now rewrite H2).
  assert (Hq : frame_queues w !! camera_id = None)
    by (apply not_elem_of_dom; now rewrite H3).
  subst stopped started. unfold start_camera. rewrite Hp. cbn [fst snd].
  split; [reflexivity |].
  split; [wsimpl; apply lookup_insert_eq |].
  split.
  { apply get_frame_none. right. wsimpl. apply lookup_insert_eq. }
  unfold stop_camera. cbn [processes stop_events camera_info]. wsimpl.
  rewrite ?lookup_insert_eq. cbn [processes stop_events camera_info].
  rewrite ?lookup_insert_eq. cbn [fst snd]. wsimpl.
  split; [reflexivity |].
  rewrite insert_insert_eq.
  rewrite !delete_insert_id by assumption.
  split; [destruct m; reflexivity | reflexivity].
Qed.

Lemma start_then_stop_restores_witness :
  let started := start_camera false 2 "rtsp://gate" "gate" one_running two_frames_queued in
  let stopped := stop_camera false 2 started.1.2 started.2 in
  started.1.1 = true /\
  frame_queues started.2 !! 2 = Some [] /\
  get_frame 2 started.2 = (Ok None, started.2) /\
  stopped.1.1 = true /\
  stopped.1.2 = one_running /\ frame_queues stopped.2 = frame_queues two_frames_queued.
Proof.
  apply (start_then_stop_restores one_running two_frames_queued 2 "rtsp://gate" "gate"
           one_running_in_step).
  reflexivity.
Defined.

(** X19. Stopping a running camera discards the frames still waiting in
    its queue: after a stop that succeeds the camera is no longer among
    the running ones and [get_frame] answers [None] for it, while the
    queues of the other cameras are untouched. *)
Theorem stop_camera_discards_queue (m : Dicts) (w : World) (camera_id : Z) :
  in_step m w ->
  is_Some (processes m !! camera_id) ->
  let stopped := stop_camera false camera_id m w in
  stopped.1.1 = true /\
  (camera_id ∉ get_running_cameras stopped.1.2) /\
  get_frame camera_id stopped.2 = (Ok None, stopped.2) /\
  forall other, other <> camera_id ->
    frame_queues stopped.2 !! other = frame_queues w !! other.
Proof.
  intros Hin [url Hp] stopped. subst stopped. unfold stop_camera. rewrite Hp.
  destruct (in_step_lookups m w camera_id url Hin Hp) as ([e He] & [i Hi] & [q Hq]).
  rewrite He. cbn [processes stop_events camera_info]. rewrite Hq, Hi. cbn [fst snd].
  split; [reflexivity |]. split; [| split].
  - unfold get_running_cameras. cbn [processes].
    intros Hel. apply list_elem_of_fmap in Hel as ([k x] & -> & Hkx).
    apply elem_of_map_to_list in Hkx. cbn [fst] in Hkx.
    rewrite lookup_delete_eq in Hkx. discriminate.
  - apply get_frame_none. left. wsimpl. apply lookup_delete_eq.
  - intros other Hne. wsimpl. now rewrite lookup_delete_ne.
Qed.

Lemma stop_camera_discards_queue_witness :
  let stopped := stop_camera false 1 one_running two_frames_queued in
  stopped.1.1 = true /\
  (1 ∉ get_running_cameras stopped.1.2) /\
  get_frame 1 stopped.2 = (Ok None, stopped.2) /\
  forall other, other <> 1 ->
    frame_queues stopped.2 !! other = frame_queues two_frames_queued !! other.
Proof.
  apply (stop_camera_discards_queue one_running two_frames_queued 1 one_running_in_step).
  eexists. reflexivity.
Defined.

Lemma stop_all_fold l : forall m w,
  in_step m w ->
  let s :=
    fold_left
      (fun (s : Dicts * World) camera_id =>
         let '(_, m', w') := stop_camera false camera_id s.1 s.2 in (m', w'))
      l (m, w) in
  in_step s.1 s.2 /\ dom (processes s.1) = dom (processes m) ∖ list_to_set l.
Proof.
  induction l as [| c l IH]; intros m w Hin; cbn [fold_left list_to_set].
  - split; [exact Hin | set_solver].
  - cbn [fst snd].
    pose proof (stop_camera_in_step false c m w Hin) as Hin'.
    assert (Hdom : dom (processes (stop_camera false c m w).1.2) =
                   dom (processes m) ∖ {[ c ]}).
    { unfold stop_camera.
      destruct (processes m !! c) as [url |] eqn:Hp.
      - destruct (in_step_lookups m w c url Hin Hp) as ([e He] & [i Hi] & [q Hq]).
        rewrite He. cbn [processes stop_events camera_info]. rewrite Hq, Hi.
        cbn [fst snd processes]. apply dom_delete_L.
      - cbn [fst snd]. apply not_elem_of_dom in Hp. set_solver. }
    destruct (stop_camera false c m w) as [[b m'] w']. cbn [fst snd] in *.
    destruct (IH m' w' Hin') as [Hfin Hd]. split; [exact Hfin |].
    rewrite Hd, Hdom. set_solver.
Qed.

(** X20. [stop_all] leaves nothing behind: from dictionaries in step and
    with no stop failing, every process, stop event, camera info and
    queue is gone afterwards. *)
Theorem stop_all_stops_everything (m : Dicts) (w : World) :
  in_step m w ->
  let s := stop_all (fun _ => false) m w in
  processes s.1 = ∅ /\ stop_events s.1 = ∅ /\ camera_info s.1 = ∅ /\
  frame_queues s.2 = ∅.
Proof.
  intros Hin s. subst s. unfold stop_all.
  destruct (stop_all_fold (get_running_cameras m) m w Hin) as [(H1 & H2 & H3) Hd].
  cbn zeta in *.
  assert (Hempty : dom (processes
            (fold_left
               (fun (s : Dicts * World) camera_id =>
                  let '(_, m', w') := stop_camera false camera_id s.1 s.2 in (m', w'))
               (get_running_cameras m) (m, w)).1) = ∅).
  { rewrite Hd. apply set_eq. intros k. split; [| set_solver].
    intros Hk. apply elem_of_difference in Hk as [Hk Hnot]. exfalso. apply Hnot.
    apply elem_of_list_to_set. apply elem_of_dom in Hk as [x Hx].
    unfold get_running_cameras. apply list_elem_of_fmap. exists (k, x).
    split; [reflexivity |]. now apply elem_of_map_to_list. }
  rewrite Hempty in H1, H2, H3.
  repeat split; now apply dom_empty_inv_L.
Qed.

Lemma stop_all_stops_everything_witness :
  let s := stop_all (fun _ => false) one_running two_frames_queued in
  processes s.1 = ∅ /\ stop_events s.1 = ∅ /\ camera_info s.1 = ∅ /\
  frame_queues s.2 = ∅.
Proof.
  apply (stop_all_stops_everything one_running two_frames_queued one_running_in_step).
Defined.

End ManagerProofs.

(** ** Leaving the registry *)

Module ConnectionProofs.
Import Websocket ConnectionManager.

(** X21. A connection that broadcast has pruned cannot be disconnected
    again: after a broadcast in which the send to a connection failed,
    [disconnect] of that connection raises [ValueError], because the
    connection is no longer in the registry. *)
Theorem disconnect_after_prune_raises (send_fails : nat -> bool) (message : Message)
  (hub : Hub) (websocket : nat) :
  send_fails websocket = true ->
  disconnect websocket (broadcast send_fails message hub) = None.
Proof.
  intros Hfail. unfold disconnect. rewrite BroadcastProofs.broadcast_eq.
  cbn [active_connections]. rewrite decide_False; [reflexivity |].
  intros Hin. apply list_elem_of_filter in Hin as [Hok _]. congruence.
Qed.

Lemma disconnect_after_prune_raises_witness :
  disconnect 2 (broadcast second_fails alert_message three_subscribers) = None.
Proof.
  apply (disconnect_after_prune_raises second_fails alert_message three_subscribers 2).
  reflexivity.
Defined.

(** X22. Registering and leaving are inverse for a new connection:
    [disconnect] after [connect] of a connection that was not registered
    gives back the registry as it was; and in between, a broadcast whose
    send to the new connection succeeds delivers the message to it. *)
Theorem connect_then_disconnect (hub : Hub) (websocket : nat) (message : Message)
  (send_fails : nat -> bool) :
  websocket ∉ active_connections hub ->
  disconnect websocket (connect websocket hub) = Some hub /\
  (send_fails websocket = false ->
   (websocket, message) ∈ received (broadcast send_fails message (connect websocket hub))).
Proof.
  intros Hnew. split.
  - unfold disconnect, connect. cbn [active_connections received].
    rewrite decide_True by (apply elem_of_app; right; apply list_elem_of_here).
    rewrite (BroadcastProofs.list_remove_middle websocket (active_connections hub) [] Hnew).
    rewrite app_nil_r. destruct hub; reflexivity.
  - intros Hok. rewrite BroadcastProofs.broadcast_eq. cbn [received].
    apply elem_of_app. right.
    apply (list_elem_of_fmap_2 (fun c => (c, message))).
    apply list_elem_of_filter. split; [exact Hok |].
    unfold connect. cbn [active_connections].
    apply elem_of_app. right. apply list_elem_of_here.
Qed.

Lemma connect_then_disconnect_witness :
  disconnect 4 (connect 4 three_subscribers) = Some three_subscribers /\
  (second_fails 4 = false ->
   (4%nat, alert_message) ∈
     received (broadcast second_fails alert_message (connect 4 three_subscribers))).
Proof.
  apply (connect_then_disconnect three_subscribers 4 alert_message second_fails).
  intros Hin. repeat (apply elem_of_cons in Hin as [Hin | Hin]; [discriminate |]).
  apply elem_of_nil in Hin. exact Hin.
Defined.

End ConnectionProofs.

(** ** Sampling *)

Section Sampling.

Variable cfg : Settings.
Variable mdl : Models.

Lemma keeps_weaken {X Y A} (g : World -> X) (f : World -> Y) (m : M A) :
  (forall w w', g w' = g w -> f w' = f w) -> keeps g m -> keeps f m.
Proof. intros Hgf Hg w. apply Hgf, Hg. Qed.

Lemma create_alert_keeps_frames flt camera_id alert_type conf frame meta :
  keeps frames_side (create_alert cfg flt camera_id alert_type conf frame meta).
Proof.
  apply (keeps_weaken detection_side); [| apply create_alert_keeps_detection].
  unfold detection_side, frames_side. intros w w' H. simplify_eq. congruence.
Qed.

Lemma process_frame_keeps_frames camera_id frame thr :
  keeps frames_side (process_frame cfg mdl camera_id frame thr).
Proof.
  apply (keeps_weaken alert_side); [| apply process_frame_keeps_alert_side].
  unfold alert_side, frames_side. intros w w' H. simplify_eq. congruence.
Qed.

Lemma _handle_detections_keeps_frames pf camera_id frame d :
  keeps frames_side (_handle_detections cfg pf camera_id frame d).
Proof.
  unfold _handle_detections.
  repeat first [keeps_step | apply create_alert_keeps_frames].
Qed.

(** What follows the buffering of the frame in [_process_camera]. *)
Lemma after_buffering_keeps_frames pf camera_id (fd : FrameData) :
  keeps frames_side
    (if PROCESS_EVERY_N_FRAMES cfg =? 0 then raise ZeroDivisionError
     else if negb (fd_frame_number fd mod PROCESS_EVERY_N_FRAMES cfg =? 0) then ret tt
     else
       let* camera := db_query_camera (lookup_raises pf) camera_id in
       match camera with
       | None => ret tt
       | Some camera =>
           let* detections :=
             process_frame cfg mdl camera_id (fd_frame fd) (cam_crowd_threshold camera) in
           _handle_detections cfg pf camera_id (fd_frame fd) detections >>
           modify (fun w =>
             set_frame_counter
               (alter (fun n => n + 1) camera_id (frame_counter w)) w)
       end).
Proof.
  unfold db_query_camera.
  repeat first [keeps_step | apply process_frame_keeps_frames
               | apply _handle_detections_keeps_frames].
Qed.

Lemma _process_camera_taken pf camera_id fd q w :
  frame_queues w !! camera_id = Some (fd :: q) ->
  frames_side (_process_camera cfg mdl pf camera_id w).2 =
    (<[camera_id := q]> (frame_queues w),
     <[camera_id := buffer_after w camera_id fd]> (frame_buffers w)).
Proof.
  intros Hq. unfold _process_camera, try_except.
  unfold bind at 1. rewrite (get_frame_front camera_id fd q w Hq).
  unfold bind at 1, modify at 1.
  unfold bind at 1, add_frame_to_buffer. rewrite add_frame_eq.
  match goal with |- context [?tail ?u] =>
    lazymatch tail with
    | (if PROCESS_EVERY_N_FRAMES cfg =? 0 then _ else _) =>
        pose proof (after_buffering_keeps_frames pf camera_id fd u) as Hk;
        destruct (tail u) as [[[] | e] w'] eqn:Htail
    end
  end; cbn [snd] in *.
  - rewrite Hk. unfold frames_side, buffer_after.
    destruct (frame_counter _ !! camera_id); reflexivity.
  - unfold logger, modify. cbn [snd].
    change (frames_side (set_log (log w' ++ [LogErrorProcessingCamera camera_id e]) w'))
      with (frames_side w').
    rewrite Hk. unfold frames_side, buffer_after.
    destruct (frame_counter _ !! camera_id); reflexivity.
Qed.

End Sampling.

(** X23. A camera with no frame waiting is skipped: when its queue is
    unknown or empty, [_process_camera] returns at once and the state of
    the server is exactly what it was: no clock reading is consumed and
    no log line is written. *)
Theorem process_camera_without_frame (cfg : Settings) (mdl : Models) (pf : ProcFaults)
  (camera_id : Z) (w : World) :
  frame_queues w !! camera_id = None \/ frame_queues w !! camera_id = Some [] ->
  _process_camera cfg mdl pf camera_id w = (Ok tt, w).
Proof.
  intros Hq. unfold _process_camera, try_except. unfold bind at 1.
  rewrite (get_frame_none camera_id w Hq). reflexivity.
Qed.

Lemma process_camera_without_frame_witness :
  _process_camera default_settings fall_model fall_store_down 2 two_sampled_frames
    = (Ok tt, two_sampled_frames).
Proof.
  apply (process_camera_without_frame default_settings fall_model fall_store_down 2
           two_sampled_frames).
  left. reflexivity.
Defined.

(** X24. Every frame taken from the queue reaches the evidence buffer,
    whatever happens to it afterwards: when a frame is waiting,
    [_process_camera] removes exactly that frame from the queue of the
    camera and appends it to the evidence buffer of the camera, where it is
    the newest entry, for every sampling stride, model result and failure
    of the store; the queues and buffers of the other cameras stay as they
    are. *)
Theorem taken_frame_is_buffered (cfg : Settings) (mdl : Models) (pf : ProcFaults)
  (camera_id : Z) (fd : FrameData) (q : list FrameData) (w : World) :
  frame_queues w !! camera_id = Some (fd :: q) ->
  let w' := (_process_camera cfg mdl pf camera_id w).2 in
  frame_queues w' !! camera_id = Some q /\
  last (default [] (frame_buffers w' !! camera_id)) =
    Some (mkBuffered (fd_frame fd) (fd_timestamp fd)) /\
  forall other, other <> camera_id ->
    frame_queues w' !! other = frame_queues w !! other /\
    frame_buffers w' !! other = frame_buffers w !! other.
Proof.
  intros Hq w'.
  pose proof (_process_camera_taken cfg mdl pf camera_id fd q w Hq) as H.
  fold w' in H. unfold frames_side in H. injection H as Hqs Hbs.
  rewrite Hqs, Hbs. rewrite !lookup_insert_eq. split; [reflexivity |]. split.
  - change (last (buffer_after w camera_id fd) =
            Some (mkBuffered (fd_frame fd) (fd_timestamp fd))).
    unfold buffer_after.
    generalize (default [] (frame_buffers w !! camera_id)). intros old.
    destruct (max_buffer_size <? _)%nat eqn:Hfull; [| apply last_snoc].
    destruct old as [| o old]; [vm_compute in Hfull; discriminate |].
    cbn [app tail]. apply last_snoc.
  - intros other Hne. rewrite !lookup_insert_ne by congruence. auto.
Qed.

Lemma taken_frame_is_buffered_witness :
  let w' :=
    (_process_camera default_settings fall_model fall_store_down 1 two_sampled_frames).2 in
  frame_queues w' !! 1 = Some [numbered 3] /\
  last (default [] (frame_buffers w' !! 1)) =
    Some (mkBuffered (fd_frame (numbered 0)) (fd_timestamp (numbered 0))) /\
  forall other, other <> 1 ->
    frame_queues w' !! other = frame_queues two_sampled_frames !! other /\
    frame_buffers w' !! other = frame_buffers two_sampled_frames !! other.
Proof.
  apply (taken_frame_is_buffered default_settings fall_model fall_store_down 1
           (numbered 0) [numbered 3] two_sampled_frames).
  reflexivity.
Defined.

(** ** Failures of the store stay inside [create_alert] *)

Section Containment.

Variable cfg : Settings.
Variable mdl : Models.

Lemma create_alert_returns flt camera_id alert_type conf frame meta w :
  rollback_raises flt = false ->
  exists r w', create_alert cfg flt camera_id alert_type conf frame meta w = (Ok r, w').
Proof.
  intros Hr. unfold create_alert. unfold bind at 1.
  assert (Hgate : exists b w1,
            should_send_alert cfg camera_id (alert_value alert_type) w = (Ok b, w1)).
  { destruct (last_alerts w !! (camera_id, alert_value alert_type)) as [t |] eqn:Hlk.
    - rewrite (should_send_alert_again cfg _ _ _ _ Hlk).
      destruct (_ <=? _); eauto.
    - rewrite (should_send_alert_first cfg _ _ _ Hlk). eauto. }
  destruct Hgate as (b & w1 & ->). destruct b; cbn [negb].
  - apply try_except_total. intros e w2.
    unfold bind, logger, modify, db_rollback, ret. rewrite Hr. eauto.
  - unfold bind, logger, modify, ret. eauto.
Qed.

Lemma _handle_detections_returns pf camera_id frame d w :
  (forall t, rollback_raises (alert_faults pf t) = false) ->
  exists w', _handle_detections cfg pf camera_id frame d w = (Ok tt, w').
Proof.
  intros Hr. unfold _handle_detections.
  assert (Hstep : forall (b : bool) t conf meta w0,
            exists w1,
              (if b then
                 create_alert cfg (alert_faults pf t) camera_id t conf frame meta >> ret tt
               else ret tt) w0 = (Ok tt, w1)).
  { intros b t conf meta w0. destruct b; [| unfold ret; eauto].
    unfold bind.
    destruct (create_alert_returns (alert_faults pf t) camera_id t conf frame meta w0
                (Hr t)) as (r & w1 & ->).
    unfold ret. eauto. }
  unfold bind at 1.
  destruct (Hstep (detected (d_fall d)) FALL (confidence (d_fall d))
              (metadata (d_fall d)) w) as (w1 & ->).
  unfold bind at 1.
  destruct (Hstep (detected (d_lying d)) LYING (confidence (d_lying d))
              (metadata (d_lying d)) w1) as (w2 & ->).
  unfold bind at 1.
  destruct (Hstep (detected (d_pushing d)) PUSHING (confidence (d_pushing d))
              (metadata (d_pushing d)) w2) as (w3 & ->).
  apply Hstep.
Qed.

Lemma process_frame_returns camera_id frame thr w :
  exists d w', process_frame cfg mdl camera_id frame thr w = (Ok d, w').
Proof.
  destruct (process_frame_lying cfg mdl camera_id frame thr w) as (d & w' & H & _).
  eauto.
Qed.

Lemma get_frame_keeps_cameras camera_id : keeps db_cameras (get_frame camera_id).
Proof.
  intros w. destruct (frame_queues w !! camera_id) as [[| fd q] |] eqn:Hq.
  - rewrite (get_frame_none camera_id w) by auto. reflexivity.
  - rewrite (get_frame_front camera_id fd q w Hq). reflexivity.
  - rewrite (get_frame_none camera_id w) by auto. reflexivity.
Qed.

Lemma _process_camera_keeps_cameras pf camera_id :
  keeps db_cameras (_process_camera cfg mdl pf camera_id).
Proof.
  assert (Ha : forall c t conf frame meta,
            keeps db_cameras (create_alert cfg (alert_faults pf t) c t conf frame meta)).
  { intros. apply (keeps_weaken detection_side); [| apply create_alert_keeps_detection].
    unfold detection_side. intros w w' H. simplify_eq. congruence. }
  assert (Hp : forall c frame thr, keeps db_cameras (process_frame cfg mdl c frame thr)).
  { intros. apply (keeps_weaken alert_side); [| apply process_frame_keeps_alert_side].
    unfold alert_side. intros w w' H. simplify_eq. congruence. }
  unfold _process_camera, _handle_detections, add_frame_to_buffer, add_frame,
    db_query_camera, logger.
  repeat first
    [ apply get_frame_keeps_cameras | apply Ha | apply Hp | keeps_step
    | apply keeps_modify; intros w; destruct (frame_counter w !! camera_id);
      reflexivity ].
Qed.

(** One visit, whatever fails in it. *)
Lemma _process_camera_visit pf camera_id w :
  exists w',
    _process_camera cfg mdl pf camera_id w = (Ok tt, w') /\
    frames_side w' = visit camera_id (frames_side w) /\
    db_cameras w' = db_cameras w.
Proof.
  destruct (_process_camera_total cfg mdl pf camera_id w) as (w' & Hrun).
  exists w'. split; [exact Hrun |].
  pose proof (_process_camera_keeps_cameras pf camera_id w) as Hcams.
  rewrite Hrun in Hcams. cbn [snd] in Hcams. split; [| exact Hcams].
  unfold visit. cbn [frames_side fst snd].
  unfold frames_side at 2. cbn [fst snd].
  destruct (frame_queues w !! camera_id) as [[| fd q] |] eqn:Hq.
  - assert (H : _process_camera cfg mdl pf camera_id w = (Ok tt, w)).
    { unfold _process_camera, try_except. unfold bind at 1.
      rewrite (get_frame_none camera_id w) by auto. reflexivity. }
    rewrite Hrun in H. simplify_eq. reflexivity.
  - pose proof (_process_camera_taken cfg mdl pf camera_id fd q w Hq) as H.
    rewrite Hrun in H. cbn [snd] in H. exact H.
  - assert (H : _process_camera cfg mdl pf camera_id w = (Ok tt, w)).
    { unfold _process_camera, try_except. unfold bind at 1.
      rewrite (get_frame_none camera_id w) by auto. reflexivity. }
    rewrite Hrun in H. simplify_eq. reflexivity.
Qed.

(** A visit that finds a sampled frame of a camera of the table. *)
Lemma _process_camera_sampled pf camera_id w fd q camera :
  frame_queues w !! camera_id = Some (fd :: q) ->
  db_cameras w !! camera_id = Some camera ->
  PROCESS_EVERY_N_FRAMES cfg <> 0 ->
  fd_frame_number fd mod PROCESS_EVERY_N_FRAMES cfg = 0 ->
  lookup_raises pf = false ->
  (forall t, rollback_raises (alert_faults pf t) = false) ->
  exists d wd wh,
    process_frame cfg mdl camera_id (fd_frame fd) (cam_crowd_threshold camera)
      (buffered camera_id fd q w) = (Ok d, wd) /\
    _handle_detections cfg pf camera_id (fd_frame fd) d wd = (Ok tt, wh) /\
    _process_camera cfg mdl pf camera_id w =
      (Ok tt,
       set_frame_counter (alter (fun n => n + 1) camera_id (frame_counter wh)) wh).
Proof.
  intros Hq Hcam Hn Hmod Hlk Hr.
  destruct (process_frame_returns camera_id (fd_frame fd) (cam_crowd_threshold camera)
              (buffered camera_id fd q w)) as (d & wd & Hd).
  destruct (_handle_detections_returns pf camera_id (fd_frame fd) d wd Hr)
    as (wh & Hh).
  exists d, wd, wh. split; [exact Hd |]. split; [exact Hh |].
  unfold _process_camera, try_except.
  unfold bind at 1. rewrite (get_frame_front camera_id fd q w Hq).
  unfold bind at 1, modify at 1.
  unfold bind at 1, add_frame_to_buffer. rewrite add_frame_eq.
  apply Z.eqb_neq in Hn. rewrite Hn.
  apply Z.eqb_eq in Hmod. rewrite Hmod. cbn [negb].
  unfold db_query_camera. rewrite Hlk.
  unfold bind at 1. unfold bind at 1, gets, ret.
  match goal with |- context [db_cameras ?u !! camera_id] =>
    assert (Hu : u = buffered camera_id fd q w);
    [| rewrite Hu; clear Hu ] end.
  { unfold buffered, buffer_after.
    destruct w as [clk tk la fb smtp lt pv fc fq cams alerts pend ob fl lg].
    wcbv. destruct (fc !! camera_id); reflexivity. }
  assert (Hc : db_cameras (buffered camera_id fd q w) !! camera_id = Some camera).
  { rewrite <- Hcam. reflexivity. }
  rewrite Hc. unfold bind at 1. rewrite Hd.
  unfold bind at 1. rewrite Hh. reflexivity.
Qed.

(** The loop over the running cameras, whatever fails in it. *)
Lemma process_cameras_visits pf cams : forall w,
  exists w',
    process_cameras cfg mdl pf cams w = (Ok tt, w') /\
    frames_side w' = fold_left (fun s c => visit c s) cams (frames_side w) /\
    db_cameras w' = db_cameras w.
Proof.
  induction cams as [| c cams IH]; intros w; cbn [process_cameras fold_left].
  - exists w. auto.
  - unfold bind.
    destruct (_process_camera_visit (pf c) c w) as (w1 & -> & Hf & Hc).
    destruct (IH w1) as (w' & Hrun & Hf' & Hc').
    exists w'. rewrite Hrun, Hf', Hf, Hc', Hc. auto.
Qed.

End Containment.

(** C8. A failure of the store inside [create_alert] neither leaves the
    processing loop as an exception nor stops the frames that follow from
    being processed and evaluated, on the same camera or on another.
    - When the commit of an alert raises, [create_alert] catches the
      exception, rolls the session back, logs the error and returns
      [None]; no row is stored, no mail is sent, and the queues, the
      evidence buffers, the camera table, the frame counters and the
      state of the detectors are what they were.
    - Whatever fails in a visit of [_process_camera], the visit returns
      without an exception, takes exactly the frame at the front of the
      camera's queue and leaves every other queued frame and the camera
      table in place.
    - So after a visit in which anything failed, the next visit, of the
      same camera or of another, finds the frame that was next in line:
      when that frame is a sampled one and its camera is in the table, the
      detectors are run on it, their reports are handed to
      [_handle_detections], and the frame is counted (for a session whose
      rollback does not itself raise).
    - The loop over the running cameras returns, visits every camera of
      the list in order, and goes on with the rest of the list from the
      state a visit leaves. *)
Theorem persistence_failure_is_contained (cfg : Settings) (mdl : Models) :
  (forall flt camera_id alert_type conf frame meta w camera,
     (should_send_alert cfg camera_id (alert_value alert_type) w).1 = Ok true ->
     db_cameras w !! camera_id = Some camera ->
     query_raises flt = false -> storage_raises flt = false ->
     valid_confidence conf = true ->
     commit_raises flt = true -> rollback_raises flt = false ->
     exists w',
       create_alert cfg flt camera_id alert_type conf frame meta w = (Ok None, w') /\
       db_alerts w' = db_alerts w /\ db_pending w' = [] /\ outbox w' = outbox w /\
       last (log w') = Some (LogErrorCreatingAlert DbError) /\
       detection_side w' = detection_side w) /\
  (forall pf camera_id w,
     exists w',
       _process_camera cfg mdl pf camera_id w = (Ok tt, w') /\
       frames_side w' = visit camera_id (frames_side w) /\
       db_cameras w' = db_cameras w) /\
  (forall pf camera_id w pf' camera_id' fd q camera,
     (visit camera_id (frames_side w)).1 !! camera_id' = Some (fd :: q) ->
     db_cameras w !! camera_id' = Some camera ->
     PROCESS_EVERY_N_FRAMES cfg <> 0 ->
     fd_frame_number fd mod PROCESS_EVERY_N_FRAMES cfg = 0 ->
     lookup_raises pf' = false ->
     (forall t, rollback_raises (alert_faults pf' t) = false) ->
     let w1 := (_process_camera cfg mdl pf camera_id w).2 in
     exists d wd wh,
       process_frame cfg mdl camera_id' (fd_frame fd) (cam_crowd_threshold camera)
         (buffered camera_id' fd q w1) = (Ok d, wd) /\
       _handle_detections cfg pf' camera_id' (fd_frame fd) d wd = (Ok tt, wh) /\
       _process_camera cfg mdl pf' camera_id' w1 =
         (Ok tt,
          set_frame_counter (alter (fun n => n + 1) camera_id' (frame_counter wh)) wh)) /\
  (forall pf cams w,
     exists w',
       process_cameras cfg mdl pf cams w = (Ok tt, w') /\
       frames_side w' = fold_left (fun s c => visit c s) cams (frames_side w) /\
       db_cameras w' = db_cameras w) /\
  (forall pf camera_id cams w,
     process_cameras cfg mdl pf (camera_id :: cams) w =
       process_cameras cfg mdl pf cams
         (_process_camera cfg mdl (pf camera_id) camera_id w).2).
Proof.
  split; [| split; [| split; [| split]]].
  - intros flt camera_id alert_type conf frame meta w camera Hg Hc Hq Hs Hv Hcm Hr.
    destruct (create_alert_commit_fails cfg flt camera_id alert_type conf frame meta w
                camera Hg Hc Hq Hs Hv Hcm Hr) as (w' & Hrun & Ha & Hp & Ho & Hl).
    exists w'. repeat (split; [assumption |]).
    pose proof (create_alert_keeps_detection cfg flt camera_id alert_type conf frame
                  meta w) as Hk.
    rewrite Hrun in Hk. exact Hk.
  - intros. apply _process_camera_visit.
  - intros pf camera_id w pf' camera_id' fd q camera Hq Hc Hn Hmod Hlk Hr w1.
    destruct (_process_camera_visit cfg mdl pf camera_id w) as (w' & Hrun & Hf & Hcams).
    assert (Hw1 : w1 = w') by (unfold w1; rewrite Hrun; reflexivity).
    rewrite Hw1. rewrite <- Hf in Hq. rewrite <- Hcams in Hc.
    apply (_process_camera_sampled cfg mdl pf' camera_id' w' fd q camera); assumption.
  - intros. apply process_cameras_visits.
  - intros pf camera_id cams w. cbn [process_cameras]. unfold bind.
    destruct (_process_camera_total cfg mdl (pf camera_id) camera_id w) as (w1 & ->).
    reflexivity.
Qed.

Lemma persistence_failure_is_contained_witness :
  (exists w',
     create_alert default_settings store_down 1 FALL (9 # 10) blank_frame []
       (one_camera_world scenario_clock) = (Ok None, w') /\
     db_alerts w' = [] /\ db_pending w' = [] /\ outbox w' = [] /\
     last (log w') = Some (LogErrorCreatingAlert DbError) /\
     detection_side w' = detection_side (one_camera_world scenario_clock)) /\
  (let w1 :=
     (_process_camera default_settings fall_model fall_store_down 1
        two_sampled_frames).2 in
   exists d wd wh,
     process_frame default_settings fall_model 1 (fd_frame (numbered 3))
       (cam_crowd_threshold schoolyard) (buffered 1 (numbered 3) [] w1) = (Ok d, wd) /\
     _handle_detections default_settings fall_store_down 1 (fd_frame (numbered 3)) d wd
       = (Ok tt, wh) /\
     _process_camera default_settings fall_model fall_store_down 1 w1 =
       (Ok tt, set_frame_counter (alter (fun n => n + 1) 1 (frame_counter wh)) wh)).
Proof.
  split.
  - apply (proj1 (persistence_failure_is_contained default_settings fall_model)
             store_down 1 FALL (9 # 10) blank_frame []
             (one_camera_world scenario_clock) schoolyard);
      vm_compute; reflexivity.
  - apply (proj1 (proj2 (proj2
             (persistence_failure_is_contained default_settings fall_model)))
             fall_store_down 1 two_sampled_frames fall_store_down 1 (numbered 3) []
             schoolyard).
    + vm_compute. reflexivity.
    + vm_compute. reflexivity.
    + vm_compute. discriminate.
    + vm_compute. reflexivity.
    + reflexivity.
    + intros t. reflexivity.
Defined.
